(** * Global Tax Document Classifier: the classification pipeline

    A shallow embedding of
      - [src/lib/tax-schema.ts]                 (the taxonomy table),
      - [src/hooks/use-document-classifier.ts]  (parser, validator, status
        policy, classification client with cache and in-flight marker,
        batch verifier),
      - [src/hooks/use-document-chat.ts]        (chat history loader),
    and the properties of the specification that concern them.

    JavaScript strings are sequences of UTF-16 code units; they are
    modelled as [list N].  Module-level [Map]s are [gmap]s, React refs
    and state cells are fields of an explicit hook state, and every
    [await] on the network or the data base is a resumption point of a
    small state machine that is fed the collaborator's answer. *)

From Stdlib Require Import ZArith NArith String Ascii List Lia DecimalN.
From stdpp Require Import base option list gmap.

Local Open Scope N_scope.

(** ** JavaScript strings, white space, [trim], and the label patterns *)

Module JS.

(** An ASCII literal as a code-unit sequence. *)
Definition str (s : string) : list N :=
  List.map N_of_ascii (list_ascii_of_string s).

(** [WhiteSpace] and [LineTerminator] of ECMAScript: the class [\s] of a
    regular expression and the characters [String.prototype.trim]
    strips. *)
Definition isWhiteSpace (c : N) : bool :=
  (c =? 9) || (c =? 10) || (c =? 11) || (c =? 12) || (c =? 13) || (c =? 32)
  || (c =? 160) || (c =? 5760)
  || ((8192 <=? c) && (c <=? 8202))
  || (c =? 8232) || (c =? 8233) || (c =? 8239) || (c =? 8287)
  || (c =? 12288) || (c =? 65279).

Fixpoint trimStart (s : list N) : list N :=
  match s with
  | c :: s' => if isWhiteSpace c then trimStart s' else s
  | [] => []
  end.

Definition trimEnd (s : list N) : list N := rev (trimStart (rev s)).

(** [s.trim()] *)
Definition trim (s : list N) : list N := trimEnd (trimStart s).

(** Truthiness of a string: only the empty string is falsy. *)
Definition truthy (s : list N) : bool :=
  match s with [] => false | _ :: _ => true end.

(** Case folding of the [/i] flag.  Without the [u] flag a character is
    canonicalised by [toUpperCase], and a character above 127 is never
    identified with one below 128, so on the ASCII labels used here two
    code units match iff they agree after folding [a-z] to [A-Z]. *)
Definition canonicalize (c : N) : N :=
  if (97 <=? c) && (c <=? 122) then c - 32 else c.

(** The literal part of a pattern, matched at the head of [s]; returns
    what follows it. *)
Fixpoint matchLiteral (lit s : list N) : option (list N) :=
  match lit, s with
  | [], _ => Some s
  | _ :: _, [] => None
  | a :: lit', c :: s' =>
      if canonicalize a =? canonicalize c then matchLiteral lit' s' else None
  end.

(** The character class [[^\n*]]. *)
Definition notNewlineOrStar (c : N) : bool :=
  negb ((c =? 10) || (c =? 42)).

Fixpoint takeClass (s : list N) : list N :=
  match s with
  | c :: s' => if notNewlineOrStar c then c :: takeClass s' else []
  | [] => []
  end.

(** The group [([^\n*]+)] at the head of [s]: greedy, at least one
    character. *)
Definition captureGroup (s : list N) : option (list N) :=
  match takeClass s with
  | [] => None
  | cap => Some cap
  end.

(** [\s*([^\n*]+)] at the head of [s], with the backtracking of a greedy
    star: first try to give one more white-space character to [\s*], and
    only when the rest then fails, start the group here. *)
Fixpoint afterLabel (s : list N) : option (list N) :=
  match s with
  | c :: s' =>
      if isWhiteSpace c then
        match afterLabel s' with
        | Some cap => Some cap
        | None => captureGroup s
        end
      else captureGroup s
  | [] => None
  end.

(** The whole pattern [/<label>\s*([^\n*]+)/i] at the head of [s]. *)
Definition matchHere (label s : list N) : option (list N) :=
  match matchLiteral label s with
  | Some rest => afterLabel rest
  | None => None
  end.

(** [s.match(/<label>\s*([^\n*]+)/i)]: the leftmost position where the
    pattern matches; the result is capture group 1 ([None] for [null]). *)
Fixpoint matchLabel (label s : list N) : option (list N) :=
  match matchHere label s with
  | Some cap => Some cap
  | None =>
      match s with
      | [] => None
      | _ :: s' => matchLabel label s'
      end
  end.

(** The label occurs somewhere in [s], up to the case of its letters. *)
Fixpoint occurs (label s : list N) : bool :=
  match matchLiteral label s with
  | Some _ => true
  | None =>
      match s with
      | [] => false
      | _ :: s' => occurs label s'
      end
  end.

(** [hay.includes(needle)] on strings. *)
Fixpoint isPrefix (p s : list N) : bool :=
  match p, s with
  | [], _ => true
  | _ :: _, [] => false
  | a :: p', c :: s' => (a =? c) && isPrefix p' s'
  end.

Fixpoint stringIncludes (hay needle : list N) : bool :=
  isPrefix needle hay ||
  match hay with
  | [] => false
  | _ :: hay' => stringIncludes hay' needle
  end.

(** *** Numbers

    A number is a binary64 value.  [Finite neg s e] stands for the value
    with sign [neg] whose shortest decimal that reads back to it is
    [s * 10^e], the digits that [String] prints for it; [s] is not
    divisible by 10, and [Finite neg 0 0] is the zero of that sign.  So
    two decimals that round to the same binary64 value are the same
    number. *)
Inductive number :=
  | NaN
  | Infinity (neg : bool)
  | Finite (neg : bool) (mantissa : N) (exponent : Z).

Definition zero : number := Finite false 0 0%Z.

(** [m * 10^e], for [m > 0], as a fraction of two positive integers. *)
Definition decimalFraction (m e : Z) : Z * Z :=
  (if 0 <=? e then (m * 10 ^ e, 1) else (m, 10 ^ (- e)))%Z.

(** The integer nearest to [num / den], the even one of two. *)
Definition roundHalfEven (num den : Z) : Z :=
  (let q := num / den in
   let r := num mod den in
   if 2 * r <? den then q
   else if den <? 2 * r then q + 1
   else if Z.even q then q else q + 1)%Z.

(** [num / den / 2^E] as a fraction. *)
Definition over2 (num den E : Z) : Z * Z :=
  (if 0 <=? E then (num, den * 2 ^ E) else (num * 2 ^ (- E), den))%Z.

(** The binary64 value nearest to [num / den] (ties to even), as
    [M * 2^E] with [M < 2^53] and [-1074 <= E <= 971], where
    [2^52 <= M] unless [E = -1074]; [None] when the result is
    infinite. *)
Definition roundToBinary64 (num den : Z) : option (Z * Z) :=
  (let E1 := Z.log2 num - Z.log2 den - 53 in
   let '(n1, d1) := over2 num den E1 in
   let E2 := if 2 ^ 53 <=? n1 / d1 then E1 + 1 else E1 in
   let E := Z.max E2 (-1074) in
   let '(n, d) := over2 num den E in
   let M := roundHalfEven n d in
   let '(M', E') := if M =? 2 ^ 53 then (2 ^ 52, E + 1) else (M, E) in
   if 971 <? E' then None else Some (M', E'))%Z.

Definition atLeastPow10 (num den t : Z) : bool :=
  (if 0 <=? t then den * 10 ^ t <=? num else den <=? num * 10 ^ (- t))%Z.

Fixpoint lowerTo (fuel : nat) (num den t : Z) : Z :=
  match fuel with
  | O => t
  | S fuel' =>
      if atLeastPow10 num den t then t else lowerTo fuel' num den (t - 1)%Z
  end.

(** The integer [t] with [10^t <= num / den < 10^(t+1)]: an estimate from
    the binary logarithms, which is at most three too high, lowered
    until it fits. *)
Definition decimalExponent (num den : Z) : Z :=
  lowerTo 6 num den
    ((Z.log2 num - Z.log2 den) * 30103 / 100000 + 2)%Z.

(** The decimal [s * 10^p] rounds to the binary64 value [M * 2^E]. *)
Definition readsBack (M E s p : Z) : bool :=
  let '(n, d) := decimalFraction s p in
  match roundToBinary64 n d with
  | Some (M', E') => (M' =? M)%Z && (E' =? E)%Z
  | None => false
  end.

(** The decimal of [k] digits that reads back to [M * 2^E], if there is
    one: one of the two neighbours of the value, the nearer one when both
    read back. *)
Definition candidate (M E num den t k : Z) : option (Z * Z) :=
  (let p := t - k + 1 in
   let '(n, d) :=
     if 0 <=? p then (num, den * 10 ^ p) else (num * 10 ^ (- p), den) in
   let lo := n / d in
   let r := n mod d in
   match readsBack M E lo p, readsBack M E (lo + 1) p with
   | true, true =>
       if 2 * r <? d then Some (lo, p)
       else if d <? 2 * r then Some (lo + 1, p)
       else if Z.even lo then Some (lo, p) else Some (lo + 1, p)
   | true, false => Some (lo, p)
   | false, true => Some (lo + 1, p)
   | false, false => None
   end)%Z.

Fixpoint shortestFrom (fuel : nat) (M E num den t k : Z) : Z * Z :=
  match fuel with
  | O => (M, 0%Z)
  | S fuel' =>
      match candidate M E num den t k with
      | Some sp => sp
      | None => shortestFrom fuel' M E num den t (k + 1)%Z
      end
  end.

Fixpoint stripZeros (fuel : nat) (s p : Z) : Z * Z :=
  match fuel with
  | O => (s, p)
  | S fuel' =>
      if ((s mod 10 =? 0) && negb (s =? 0))%Z
      then stripZeros fuel' (s / 10)%Z (p + 1)%Z
      else (s, p)
  end.

(** The shortest decimal that reads back to [M * 2^E], for [M > 0]:
    seventeen digits always suffice. *)
Definition shortestDecimal (M E : Z) : Z * Z :=
  let '(num, den) :=
    (if 0 <=? E then (M * 2 ^ E, 1) else (M, 2 ^ (- E)))%Z in
  let t := decimalExponent num den in
  let '(s, p) := shortestFrom 17 M E num den t 1 in
  stripZeros 20 s p.

(** The number a decimal literal [m * 10^e] with sign [neg] denotes.
    The two tests on [e] only spare the computation of a huge power: a
    value of at least [10^401] is infinite, and one below [2^-1079] is
    zero. *)
Definition toNumber (neg : bool) (m : N) (e : Z) : number :=
  if m =? 0 then Finite neg 0 0%Z
  else if (400 <? e)%Z then Infinity neg
  else if (Z.log2 (Z.of_N m) + 1 + 3 * e <? -1080)%Z then Finite neg 0 0%Z
  else
    let '(num, den) := decimalFraction (Z.of_N m) e in
    match roundToBinary64 num den with
    | None => Infinity neg
    | Some (M, E) =>
        if (M =? 0)%Z then Finite neg 0 0%Z
        else let '(s, p) := shortestDecimal M E in Finite neg (Z.to_N s) p
    end.

(** [s] starts with the (case-sensitive) word [Infinity]. *)
Definition startsWithInfinity (s : list N) : bool :=
  isPrefix (str "Infinity") s.

Definition isDigit (c : N) : bool := (48 <=? c) && (c <=? 57).

Fixpoint takeDigits (s : list N) : list N * list N :=
  match s with
  | c :: s' =>
      if isDigit c then let '(ds, rest) := takeDigits s' in (c :: ds, rest)
      else ([], s)
  | [] => ([], [])
  end.

Definition digitsValue (ds : list N) : N :=
  fold_left (fun acc c => 10 * acc + (c - 48)) ds 0.

(** [s] without its first character, when that character is [c]. *)
Definition headIs (c : N) (s : list N) : option (list N) :=
  match s with
  | c' :: s' => if c' =? c then Some s' else None
  | [] => None
  end.

(** An optional sign: whether it is [-], and what follows it. *)
Definition takeSign (s : list N) : bool * list N :=
  match headIs 43 s, headIs 45 s with
  | Some t, _ => (false, t)
  | None, Some t => (true, t)
  | None, None => (false, s)
  end.

(** An optional [ExponentPart]: [e] or [E], an optional sign, and at
    least one digit; when it is not complete nothing is consumed. *)
Definition takeExponent (s : list N) : Z * list N :=
  match s with
  | c :: s' =>
      if (c =? 101) || (c =? 69) then
        let '(neg, s'') := takeSign s' in
        match takeDigits s'' with
        | ([], _) => (0%Z, s)
        | (ds, rest) =>
            let e := Z.of_N (digitsValue ds) in
            ((if neg then - e else e)%Z, rest)
        end
      else (0%Z, s)
  | [] => (0%Z, [])
  end.

(** The longest prefix of [s] that is an unsigned [StrDecimalLiteral],
    read with the sign [neg]. *)
Definition strDecimalLiteral (neg : bool) (s : list N) : number :=
  match startsWithInfinity s with
  | true => Infinity neg
  | false =>
      match takeDigits s with
      | ([], 46 :: s1) =>
          match takeDigits s1 with
          | ([], _) => NaN
          | (fs, s2) =>
              let '(e, _) := takeExponent s2 in
              toNumber neg (digitsValue fs) (e - Z.of_nat (length fs))
          end
      | ([], _) => NaN
      | (ds, 46 :: s1) =>
          let '(fs, s2) := takeDigits s1 in
          let '(e, _) := takeExponent s2 in
          toNumber neg (digitsValue (ds ++ fs)) (e - Z.of_nat (length fs))
      | (ds, s1) =>
          let '(e, _) := takeExponent s1 in
          toNumber neg (digitsValue ds) e
      end
  end.

(** [parseFloat(s)] *)
Definition parseFloat (s : list N) : number :=
  let '(neg, s') := takeSign (trimStart s) in
  strDecimalLiteral neg s'.

(** *** Values and [JSON.parse] *)

#[warnings="-register-all"]
Inductive value :=
  | VUndefined
  | VNull
  | VBool (b : bool)
  | VNumber (n : number)
  | VString (s : list N)
  | VArray (items : list value)
  | VObject (members : list (list N * value)).

(** [string | null] as a value. *)
Definition ofNullable (o : option (list N)) : value :=
  match o with
  | Some s => VString s
  | None => VNull
  end.

Definition eqString (a b : list N) : bool :=
  bool_decide (a = b).

(** The value of the own property [key] of an object built by
    [JSON.parse]: a later member of the same name replaces an earlier
    one. *)
Fixpoint lookupMember (key : list N) (members : list (list N * value))
  : option value :=
  match members with
  | [] => None
  | (k, v) :: rest =>
      match lookupMember key rest with
      | Some v' => Some v'
      | None => if eqString k key then Some v else None
      end
  end.

(** [v[key]] for one of the five field names read by the classifier.
    None of them is an index, [length], or a property of a built-in
    prototype, so only an object's own member can answer; on [null] (and
    [undefined]) the access throws a [TypeError], which is [None]. *)
Definition getField (v : value) (key : list N) : option value :=
  match v with
  | VUndefined | VNull => None
  | VObject members =>
      Some (match lookupMember key members with
            | Some x => x
            | None => VUndefined
            end)
  | _ => Some VUndefined
  end.

(** JSON white space: tab, line feed, carriage return, space. *)
Definition isJSONWhiteSpace (c : N) : bool :=
  (c =? 9) || (c =? 10) || (c =? 13) || (c =? 32).

Fixpoint skipWS (s : list N) : list N :=
  match s with
  | c :: s' => if isJSONWhiteSpace c then skipWS s' else s
  | [] => []
  end.

Definition hexDigit (c : N) : option N :=
  if isDigit c then Some (c - 48)
  else if (97 <=? c) && (c <=? 102) then Some (c - 87)
  else if (65 <=? c) && (c <=? 70) then Some (c - 55)
  else None.

(** The character an escape [\e] stands for ([\u] apart). *)
Definition unescape (e : N) : option N :=
  if e =? 34 then Some 34 else if e =? 92 then Some 92
  else if e =? 47 then Some 47 else if e =? 98 then Some 8
  else if e =? 102 then Some 12 else if e =? 110 then Some 10
  else if e =? 114 then Some 13 else if e =? 116 then Some 9
  else None.

Definition hex4 (a b c d : N) : option N :=
  match hexDigit a, hexDigit b, hexDigit c, hexDigit d with
  | Some x3, Some x2, Some x1, Some x0 =>
      Some (4096 * x3 + 256 * x2 + 16 * x1 + x0)
  | _, _, _, _ => None
  end.

(** The characters of a JSON string after its opening quote, up to and
    including the closing quote. *)
Fixpoint parseChars (s : list N) : option (list N * list N) :=
  match s with
  | [] => None
  | c :: rest =>
      if c =? 34 then Some ([], rest)
      else if c =? 92 then
        match rest with
        | [] => None
        | e :: rest1 =>
            if e =? 117 then
              match rest1 with
              | a :: b :: c' :: d :: rest2 =>
                  match hex4 a b c' d, parseChars rest2 with
                  | Some u, Some (cs, rest') => Some (u :: cs, rest')
                  | _, _ => None
                  end
              | _ => None
              end
            else
              match unescape e, parseChars rest1 with
              | Some u, Some (cs, rest') => Some (u :: cs, rest')
              | _, _ => None
              end
        end
      else if c <? 32 then None
      else
        match parseChars rest with
        | Some (cs, rest') => Some (c :: cs, rest')
        | None => None
        end
  end.

(** The integer part of a JSON number has no superfluous leading
    zero. *)
Definition leadingZero (ds : list N) : bool :=
  match ds with
  | d :: _ :: _ => d =? 48
  | _ => false
  end.

(** A JSON number, whose first character ([-] or a digit) is at the head
    of [s]. *)
Definition parseJSONNumber (s : list N) : option (number * list N) :=
  let '(neg, s0) :=
    match headIs 45 s with
    | Some t => (true, t)
    | None => (false, s)
    end in
  match takeDigits s0 with
  | ([], _) => None
  | (ds, s1) =>
      if leadingZero ds then None
      else
        match headIs 46 s1 with
        | Some s2 =>
            match takeDigits s2 with
            | ([], _) => None
            | (fs, s3) =>
                let '(e, s4) := takeExponent s3 in
                Some (toNumber neg (digitsValue (ds ++ fs))
                        (e - Z.of_nat (length fs)), s4)
            end
        | None =>
            let '(e, s2) := takeExponent s1 in
            Some (toNumber neg (digitsValue ds) e, s2)
        end
  end.

(** One of the words [true], [false], [null]. *)
Definition expect (word : list N) (v : value) (s : list N)
  : option (value * list N) :=
  if isPrefix word s then Some (v, drop (length word) s) else None.

(** A value that is not an object or an array, whose first character is
    [c]. *)
Definition parseScalar (c : N) (s : list N) : option (value * list N) :=
  if c =? 34 then
    match parseChars (drop 1 s) with
    | Some (cs, s') => Some (VString cs, s')
    | None => None
    end
  else if c =? 116 then expect (str "true") (VBool true) s
  else if c =? 102 then expect (str "false") (VBool false) s
  else if c =? 110 then expect (str "null") VNull s
  else if (c =? 45) || isDigit c then
    match parseJSONNumber s with
    | Some (n, s') => Some (VNumber n, s')
    | None => None
    end
  else None.

(** One JSON value at the head of [s] (after white space), and what
    follows it.  The fuel bounds the depth of the recursion; one more
    than the length of the text is always enough (see
    [JSON_parse_fuel]). *)
Fixpoint parseValue (fuel : nat) (s : list N) {struct fuel}
  : option (value * list N) :=
  match fuel with
  | O => None
  | S fuel' =>
      match skipWS s with
      | [] => None
      | c :: s1 =>
          if c =? 123 then
            match headIs 125 (skipWS s1) with
            | Some s2 => Some (VObject [], s2)
            | None =>
                match parseMembers fuel' s1 with
                | Some (ms, s2) => Some (VObject ms, s2)
                | None => None
                end
            end
          else if c =? 91 then
            match headIs 93 (skipWS s1) with
            | Some s2 => Some (VArray [], s2)
            | None =>
                match parseElements fuel' s1 with
                | Some (vs, s2) => Some (VArray vs, s2)
                | None => None
                end
            end
          else parseScalar c (c :: s1)
      end
  end

with parseMembers (fuel : nat) (s : list N) {struct fuel}
  : option (list (list N * value) * list N) :=
  match fuel with
  | O => None
  | S fuel' =>
      match headIs 34 (skipWS s) with
      | None => None
      | Some s1 =>
          match parseChars s1 with
          | None => None
          | Some (key, s2) =>
              match headIs 58 (skipWS s2) with
              | None => None
              | Some s3 =>
                  match parseValue fuel' s3 with
                  | None => None
                  | Some (v, s4) =>
                      match headIs 44 (skipWS s4), headIs 125 (skipWS s4) with
                      | Some s5, _ =>
                          match parseMembers fuel' s5 with
                          | Some (ms, s6) => Some ((key, v) :: ms, s6)
                          | None => None
                          end
                      | None, Some s5 => Some ([(key, v)], s5)
                      | None, None => None
                      end
                  end
              end
          end
      end
  end

with parseElements (fuel : nat) (s : list N) {struct fuel}
  : option (list value * list N) :=
  match fuel with
  | O => None
  | S fuel' =>
      match parseValue fuel' s with
      | None => None
      | Some (v, s1) =>
          match headIs 44 (skipWS s1), headIs 93 (skipWS s1) with
          | Some s2, _ =>
              match parseElements fuel' s2 with
              | Some (vs, s3) => Some (v :: vs, s3)
              | None => None
              end
          | None, Some s2 => Some ([v], s2)
          | None, None => None
          end
      end
  end.

(** [JSON.parse(text)]: one value with white space around it and nothing
    else; [None] when it throws a [SyntaxError]. *)
Definition JSON_parse (text : list N) : option value :=
  match parseValue (S (length text)) text with
  | Some (v, rest) =>
      match skipWS rest with
      | [] => Some v
      | _ :: _ => None
      end
  | None => None
  end.

(** [String(n)] for a non-negative integer: its decimal digits. *)
Fixpoint digitsOfUint (u : Decimal.uint) : list N :=
  match u with
  | Decimal.Nil => []
  | Decimal.D0 u' => 48 :: digitsOfUint u'
  | Decimal.D1 u' => 49 :: digitsOfUint u'
  | Decimal.D2 u' => 50 :: digitsOfUint u'
  | Decimal.D3 u' => 51 :: digitsOfUint u'
  | Decimal.D4 u' => 52 :: digitsOfUint u'
  | Decimal.D5 u' => 53 :: digitsOfUint u'
  | Decimal.D6 u' => 54 :: digitsOfUint u'
  | Decimal.D7 u' => 55 :: digitsOfUint u'
  | Decimal.D8 u' => 56 :: digitsOfUint u'
  | Decimal.D9 u' => 57 :: digitsOfUint u'
  end.

Definition numberToString (n : N) : list N := digitsOfUint (N.to_uint n).

(** *** Errors and completions *)

(** An [Error] object, as far as the code reads it. *)
Record exn := Error { message : list N }.

(** What an awaited promise settles to, or a block completes with. *)
Inductive completion (A : Type) :=
  | Normal (a : A)
  | Throw (e : exn).
Arguments Normal {A} a.
Arguments Throw {A} e.

End JS.


(** ** The taxonomy table ([src/lib/tax-schema.ts]) *)

Module TaxSchema.
Import JS.

Definition CompanyDocuments : list N := str "CompanyDocuments".
Definition EmployeeDocuments : list N := str "EmployeeDocuments".

(** [G e n s e n _ C h o-macron s h u-macron h y o-macron] *)
Definition gensenChoshuhyo : list N :=
  str "Gensen Ch" ++ [333] ++ str "sh" ++ [363] ++ str "hy" ++ [333].

(** The object literal [taxSchema]: country, then category, then the
    array of document types. *)
Definition taxSchema : list (list N * list (list N * list (list N))) :=
  [ (str "India",
      [ (CompanyDocuments, List.map str
          [ "Certificate of Incorporation"; "PAN Card";
            "TAN Registration Certificate"; "GST Registration Certificate";
            "MOA and AOA"; "Business/Trade License";
            "Shops & Establishment Registration";
            "Professional Tax Registration"; "Import Export Code (IEC)";
            "Annual Financial Statements";
            "Tax Audit Reports (Form 3CA/3CB & 3CD)";
            "Income Tax Returns (ITR copies)";
            "GST Returns (GSTR-1, GSTR-3B, GSTR-9)";
            "PF and ESI Registration"; "PF and ESI Challans and Returns";
            "Board Resolutions"; "Director KYC (DIR-3)" ]%string);
        (EmployeeDocuments, List.map str
          [ "PAN Card"; "Aadhaar Card"; "Form 16"; "Salary Slips";
            "Bank Statements"; "Investment Proofs";
            "Previous Employment Form 16"; "Medical Insurance Proof";
            "Rent Receipts"; "Loan Certificates"; "LTA Proofs" ]%string) ]);
    (str "Germany",
      [ (CompanyDocuments, List.map str
          [ "Trade Registration Certificate"; "VAT Registration";
            "Articles of Association"; "Handelsregisterauszug";
            "Annual Financial Statements"; "Tax Number Assignment Letter";
            "Tax Assessment Notices"; "VAT Returns";
            "Social Security Registration" ]%string);
        (EmployeeDocuments, List.map str
          [ "Steueridentifikationsnummer"; "Sozialversicherungsausweis";
            "Salary Certificates"; "ELSTER Reports";
            "Health Insurance Certificate"; "Lohnsteuerbescheinigung";
            "Previous Employer Salary Proof";
            "Pension Contribution Proofs" ]%string) ]);
    (str "China",
      [ (CompanyDocuments, List.map str
          [ "Business License"; "Organization Code Certificate";
            "Tax Registration Certificate"; "Social Insurance Registration";
            "VAT Registration Certificate"; "Financial Statements";
            "Corporate Income Tax Return"; "VAT Returns";
            "Tax Clearance Certificate" ]%string);
        (EmployeeDocuments, List.map str
          [ "National ID Card"; "Labor Contract Copy"; "Payslips";
            "IIT Payment Certificates";
            "Social Insurance Contribution Record";
            "Housing Provident Fund Contribution Proof";
            "Previous Employer Income Proof"; "Residence Permit" ]%string) ]);
    (str "USA",
      [ (CompanyDocuments, List.map str
          [ "Certificate of Incorporation / Formation"; "EIN";
            "State Tax Registration Certificate"; "IRS Tax Filings";
            "Financial Statements"; "State Annual Reports";
            "W-2 Forms for employees"; "1099 Forms for contractors";
            "Payroll Tax Returns";
            "Sales Tax Registration and Returns" ]%string);
        (EmployeeDocuments, List.map str
          [ "Social Security Number (SSN)"; "W-2 Forms"; "1099-NEC";
            "Paystubs"; "Investment Proofs"; "Health Insurance Documents";
            "Previous Employer Pay Records";
            "Mortgage or Student Loan Interest Statements" ]%string) ]);
    (str "Japan",
      [ (CompanyDocuments, List.map str
          [ "Certificate of Registered Matters";
            "Corporate Number Notification"; "Articles of Incorporation";
            "Business License"; "Tax Payment Slips";
            "Consumption Tax Return"; "Financial Statements";
            "Annual Corporate Tax Return";
            "Labor Insurance Registration Certificate";
            "Social Insurance Participation Certificate" ]%string);
        (EmployeeDocuments,
          [ str "My Number Card"; gensenChoshuhyo; str "Salary Statements";
            str "Health Insurance Card"; str "Employment Contract";
            str "Residence Card";
            str "Previous Employer " ++ gensenChoshuhyo ]) ]);
    (str "UAE",
      [ (CompanyDocuments, List.map str
          [ "Trade License"; "VAT Registration Certificate";
            "Corporate Bank Account Proof";
            "Memorandum of Association (MOA)";
            "Certificate of Incorporation"; "Lease Agreement (Ejari)";
            "Financial Audit Reports"; "VAT Returns Filing Receipts";
            "UBO Declaration" ]%string);
        (EmployeeDocuments, List.map str
          [ "Emirates ID"; "Labor Contract"; "Passport Copy"; "Visa Copy";
            "Salary Certificates"; "Payslips"; "Health Insurance Card";
            "WPS Salary Transfer Proof";
            "End of Service Benefits Calculation Sheets" ]%string) ]) ].

(** The own property [key] of an object literal with distinct keys. *)
Fixpoint ownProperty {A : Type} (key : list N) (obj : list (list N * A))
  : option A :=
  match obj with
  | [] => None
  | (k, v) :: rest => if eqString k key then Some v else ownProperty key rest
  end.

(** [taxonomy[country][category]], for the statements: the list of the
    document types, empty where there is no such own entry. *)
Definition typesOf (country category : list N) : list (list N) :=
  match ownProperty country taxSchema with
  | Some countrySchema => default [] (ownProperty category countrySchema)
  | None => []
  end.

(** *** What a property access finds above an object literal

    [taxSchema] and the six country objects are plain objects, so an
    access [obj[key]] with a key that is not an own property continues
    in [Object.prototype].  Every property found there is truthy and
    none is an array. *)
Definition objectPrototypeProperties : list (list N) :=
  List.map str
    [ "constructor"; "__defineGetter__"; "__defineSetter__";
      "hasOwnProperty"; "__lookupGetter__"; "__lookupSetter__";
      "isPrototypeOf"; "propertyIsEnumerable"; "toString"; "valueOf";
      "__proto__"; "toLocaleString" ]%string.

Definition functionPrototypeProperties : list (list N) :=
  List.map str
    [ "length"; "name"; "arguments"; "caller"; "constructor"; "apply";
      "bind"; "call"; "toString" ]%string.

(** The own properties of the constructor [Object]. *)
Definition objectConstructorProperties : list (list N) :=
  List.map str
    [ "length"; "name"; "prototype"; "assign"; "create";
      "defineProperties"; "defineProperty"; "entries"; "freeze";
      "fromEntries"; "getOwnPropertyDescriptor";
      "getOwnPropertyDescriptors"; "getOwnPropertyNames";
      "getOwnPropertySymbols"; "getPrototypeOf"; "groupBy"; "hasOwn";
      "is"; "isExtensible"; "isFrozen"; "isSealed"; "keys";
      "preventExtensions"; "seal"; "setPrototypeOf"; "values" ]%string.

(** The built-in object an inherited key of [taxSchema] evaluates to:
    [__proto__] is [Object.prototype] itself, [constructor] is the
    function [Object], every other key is the method of that name. *)
Inductive hostObject :=
  | ObjectPrototype
  | BuiltinFunction (name : list N).

Definition inherited (key : list N) : option hostObject :=
  if bool_decide (key ∈ objectPrototypeProperties) then
    Some (if eqString key (str "__proto__") then ObjectPrototype
          else if eqString key (str "constructor")
               then BuiltinFunction (str "Object")
               else BuiltinFunction key)
  else None.

(** What [taxSchema[country]] evaluates to. *)
Inductive countryLookup :=
  | NoCountry
  | Country (countrySchema : list (list N * list (list N)))
  | Host (o : hostObject).

Definition lookupCountry (country : list N) : countryLookup :=
  match ownProperty country taxSchema with
  | Some countrySchema => Country countrySchema
  | None =>
      match inherited country with
      | Some o => Host o
      | None => NoCountry
      end
  end.

(** The outcome of [countrySchema?.[category]?.includes(documentType)]:
    [undefined] when the optional chain is cut short, a boolean when
    [includes] runs, a [TypeError] when the property is neither nullish
    nor has a method [includes] (or is an accessor that throws). *)
Inductive includesOutcome :=
  | IncludesUndefined
  | IncludesBool (b : bool)
  | IncludesTypeError.

Definition hostIncludes (o : hostObject) (category documentType : list N)
  : includesOutcome :=
  match o with
  | ObjectPrototype =>
      if eqString category (str "__proto__") then IncludesUndefined
      else if bool_decide (category ∈ objectPrototypeProperties)
           then IncludesTypeError
           else IncludesUndefined
  | BuiltinFunction name =>
      if eqString category (str "name")
      then IncludesBool (stringIncludes name documentType)
      else if bool_decide (category ∈ functionPrototypeProperties)
              || bool_decide (category ∈ objectPrototypeProperties)
              || (eqString name (str "Object")
                  && bool_decide (category ∈ objectConstructorProperties))
           then IncludesTypeError
           else IncludesUndefined
  end.

Definition includes (countrySchema : countryLookup)
    (category documentType : list N) : includesOutcome :=
  match countrySchema with
  | NoCountry => IncludesUndefined
  | Country cs =>
      match ownProperty category cs with
      | Some categoryTypes =>
          IncludesBool (bool_decide (documentType ∈ categoryTypes))
      | None =>
          if bool_decide (category ∈ objectPrototypeProperties)
          then IncludesTypeError
          else IncludesUndefined
      end
  | Host o => hostIncludes o category documentType
  end.

End TaxSchema.

(** ** The classifier hook ([src/hooks/use-document-classifier.ts]) *)

Module Classifier.
Import JS TaxSchema.

Inductive Status := classified | pending_review | non_classified.

(** [interface ClassificationResult].  The TypeScript types are erased at
    run time and the JSON branch stores whatever the decoded object
    holds, so every field is a [value]. *)
Record ClassificationResult := mkResult {
  country : value;
  document_type : value;
  document_category : value;
  document_subtype : value;
  status : Status;
  confidence_score : value
}.

(** *** [extractDocumentDetails]: the text branch *)

(** The local object [details].  [category] is a string cast to
    [DocumentCategory] without a check. *)
Record Details := mkDetails {
  details_country : option (list N);
  details_documentType : option (list N);
  details_category : list N;
  details_subtype : option (list N);
  details_confidence_score : number
}.

(** [classificationResult.match(/<label>\s*([^\n*]+)/i)], then
    [matches.<field>[1].trim()] when there is a match. *)
Definition matchTrimmed (label : string) (classificationResult : list N)
  : option (list N) :=
  trim <$> matchLabel (str label) classificationResult.

(** The initial [details], the five [matches] and the five conditional
    assignments. *)
Definition parseDetails (classificationResult : list N) : Details :=
  {| details_country := matchTrimmed "Country of Origin:" classificationResult;
     details_documentType := matchTrimmed "Document Type:" classificationResult;
     details_category :=
       default CompanyDocuments
         (matchTrimmed "Document Category:" classificationResult);
     details_subtype := matchTrimmed "Document Subtype:" classificationResult;
     details_confidence_score :=
       match matchTrimmed "Confidence Score:" classificationResult with
       | Some confidence => parseFloat confidence
       | None => zero
       end |}.

(** A [string | null] used as a condition. *)
Definition isTruthy (o : option (list N)) : bool :=
  match o with
  | Some s => truthy s
  | None => false
  end.

(** [if (details.country && !taxSchema[details.country])
      details.country = null] *)
Definition validateCountry (details : Details) : Details :=
  match details_country details with
  | Some c =>
      match truthy c, lookupCountry c with
      | true, NoCountry =>
          mkDetails None (details_documentType details)
            (details_category details) (details_subtype details)
            (details_confidence_score details)
      | _, _ => details
      end
  | None => details
  end.

Definition allCategories : list (list N) :=
  [CompanyDocuments; EmployeeDocuments].

(** The loop [for (const category of allCategories)]: the first category
    whose list includes the document type ([foundMatch]); the outer
    [None] is a thrown [TypeError]. *)
Fixpoint findCategory (countrySchema : countryLookup)
    (documentType : list N) (categories : list (list N))
  : option (option (list N)) :=
  match categories with
  | [] => Some None
  | category :: rest =>
      match includes countrySchema category documentType with
      | IncludesTypeError => None
      | IncludesBool true => Some (Some category)
      | _ => findCategory countrySchema documentType rest
      end
  end.

(** [if (details.country && details.documentType) { ... }]; [None] when
    a [TypeError] is thrown. *)
Definition validateDocumentType (details : Details) : option Details :=
  match details_country details, details_documentType details with
  | Some c, Some documentType =>
      if truthy c && truthy documentType then
        let countrySchema := lookupCountry c in
        match includes countrySchema (details_category details) documentType
        with
        | IncludesTypeError => None
        | IncludesBool true => Some details
        | _ =>
            match findCategory countrySchema documentType allCategories with
            | None => None
            | Some (Some category) =>
                Some (mkDetails (details_country details)
                        (details_documentType details) category
                        (details_subtype details)
                        (details_confidence_score details))
            | Some None =>
                Some (mkDetails (details_country details) None
                        (details_category details)
                        (details_subtype details)
                        (details_confidence_score details))
            end
        end
      else Some details
  | _, _ => Some details
  end.

(** "Validate against schema" *)
Definition validateAgainstSchema (details : Details) : option Details :=
  validateDocumentType (validateCountry details).

Definition isDocumentCategory (category : list N) : bool :=
  eqString category CompanyDocuments || eqString category EmployeeDocuments.

(** The three entries of the array that is filtered by [Boolean]. *)
Definition statusConditions (details : Details) : list bool :=
  [ isTruthy (details_documentType details)
      && isTruthy (details_country details);
    isDocumentCategory (details_category details);
    bool_decide (details_country details ≠ None) ].

Definition validFields (details : Details) : nat :=
  length (List.filter (fun b => b) (statusConditions details)).

(** "Determine status" *)
Definition determineStatus (details : Details) : Status :=
  if bool_decide (2 <= validFields details)%nat then classified
  else if bool_decide (validFields details = 1%nat) then pending_review
  else non_classified.

Definition toResult (details : Details) : ClassificationResult :=
  {| country := ofNullable (details_country details);
     document_type := ofNullable (details_documentType details);
     document_category := VString (details_category details);
     document_subtype := ofNullable (details_subtype details);
     status := determineStatus details;
     confidence_score := VNumber (details_confidence_score details) |}.

(** The body of the inner [catch], the text fallback; [None] when it
    throws. *)
Definition textFallback (classificationResult : list N)
  : option ClassificationResult :=
  toResult <$> validateAgainstSchema (parseDetails classificationResult).

(** *** [extractDocumentDetails]: the JSON branch *)

(** The object literal returned inside the inner [try]; a property
    access on [null] throws. *)
Definition fromJSON (jsonResult : value) : option ClassificationResult :=
  c ← getField jsonResult (str "Country of Origin");
  t ← getField jsonResult (str "Document Type");
  g ← getField jsonResult (str "Document Category");
  u ← getField jsonResult (str "Document Subtype");
  f ← getField jsonResult (str "Confidence Score");
  Some {| country := c; document_type := t; document_category := g;
          document_subtype := u; status := classified;
          confidence_score := f |}.

(** The inner [try] block; [None] when it throws. *)
Definition jsonBranch (classificationResult : list N)
  : option ClassificationResult :=
  JSON_parse classificationResult ≫= fromJSON.

(** The result of the outer [catch]. *)
Definition failureResult : ClassificationResult :=
  {| country := VNull; document_type := VNull;
     document_category := VString CompanyDocuments;
     document_subtype := VNull; status := non_classified;
     confidence_score := VNumber zero |}.

Definition extractDocumentDetails (classificationResult : list N)
  : ClassificationResult :=
  match jsonBranch classificationResult with
  | Some result => result
  | None =>
      match textFallback classificationResult with
      | Some result => result
      | None => failureResult
      end
  end.

(** *** [classifyDocument]

    An [async] function runs until its next [await] and is resumed with
    what the awaited promise settles to.  The call is therefore three
    functions: [classifyDocument] up to [await fetch(fileUrl)],
    [classifyDocument_afterFile] up to the request to the model, and
    [classifyDocument_afterModel] to the end.  Between two of them other
    calls may run on the same hook state. *)

Definition CACHE_EXPIRATION : Z := 5 * 60 * 1000.

(** The module-level [classificationCache] and the cells of one hook
    instance. *)
Record HookState := mkHook {
  classificationCache : gmap (list N) (ClassificationResult * Z);
  lastClassificationRef : option (list N);
  isClassifying : bool;
  error : option (list N)
}.

(** [cached && Date.now() - cached.timestamp < CACHE_EXPIRATION] *)
Definition fresh {A : Type} (now : Z) (cached : option (A * Z)) : option A :=
  match cached with
  | Some (result, timestamp) =>
      if bool_decide (now - timestamp < CACHE_EXPIRATION)%Z
      then Some result else None
  | None => None
  end.

(** The two requests a call sends.  Of the body posted to the model only
    what depends on the file is kept. *)
Inductive Request :=
  | FetchFile (fileUrl : list N)
  | PostChatCompletion (apiKey filename : list N) (isPDF : bool)
      (base64Content : list N).

(** What [await fetch(fileUrl)] and the reading of the blob give. *)
Inductive FileResponse :=
  | FetchRejected (e : exn)
  | FetchResolved (ok : bool) (base64Content : completion (list N)).

(** What the request to the model gives: the status line, and the
    outcome of reading the body ([text()] when not [ok], [json()]
    otherwise); of a decoded body only
    [data?.choices?.[0]?.message?.content] is kept, [None] when that
    chain is nullish. *)
Inductive ModelResponse :=
  | PostRejected (e : exn)
  | PostResolved (ok : bool) (status : N) (statusText : list N)
      (content : completion (option (list N))).

(** How a part of the call ends: the promise of the call is settled and
    this part has sent nothing, or it has sent [request] and the call
    waits for the answer, to go on as [k].  A request is sent in no other
    way. *)
Inductive Progress (K : Type) :=
  | Settled (outcome : completion ClassificationResult)
  | Awaiting (request : Request) (k : K).
Arguments Settled {K} outcome.
Arguments Awaiting {K} request k.

Record FileStage := mkFileStage {
  file_apiKey : list N;
  file_fileUrl : list N
}.

Record ModelStage := mkModelStage {
  model_fileUrl : list N
}.

(** [fileUrl.split('/').pop()] *)
Fixpoint lastSegment (segment s : list N) : list N :=
  match s with
  | [] => segment
  | c :: s' =>
      if c =? 47 then lastSegment [] s' else lastSegment (segment ++ [c]) s'
  end.

(** [fileUrl.split('/').pop() || 'document.pdf'] *)
Definition filenameOf (fileUrl : list N) : list N :=
  let filename := lastSegment [] fileUrl in
  if truthy filename then filename else str "document.pdf".

(** [filename.toLowerCase().endsWith('.pdf')] *)
Definition isPDF (filename : list N) : bool :=
  bool_decide (is_Some (matchLiteral (rev (str ".pdf")) (rev filename))).

(** [catch (error) { setError(error.message); throw error }] followed by
    [finally]. *)
Definition rethrow {K : Type} (e : exn) (st : HookState)
  : Progress K * HookState :=
  (Settled (Throw e),
   mkHook (classificationCache st) None false (Some (message e))).

Definition alreadyInProgress : exn :=
  Error (str "Classification already in progress").

Definition notConfigured : exn :=
  Error (str "OpenRouter API key not configured").

Definition classifyDocument (apiKey : option (list N)) (now : Z)
    (fileUrl : list N) (st : HookState) : Progress FileStage * HookState :=
  if bool_decide (lastClassificationRef st = Some fileUrl) then
    (Settled (Throw alreadyInProgress), st)
  else
    match fresh now (classificationCache st !! fileUrl) with
    | Some result => (Settled (Normal result), st)
    | None =>
        let st1 := mkHook (classificationCache st) (Some fileUrl) true None in
        match apiKey with
        | Some key =>
            if truthy key
            then (Awaiting (FetchFile fileUrl) (mkFileStage key fileUrl), st1)
            else rethrow notConfigured st1
        | None => rethrow notConfigured st1
        end
    end.

Definition classifyDocument_afterFile (k : FileStage)
    (fileResponse : FileResponse) (st : HookState)
  : Progress ModelStage * HookState :=
  match fileResponse with
  | FetchRejected e => rethrow e st
  | FetchResolved false _ => rethrow (Error (str "File not accessible")) st
  | FetchResolved true (Throw e) => rethrow e st
  | FetchResolved true (Normal base64Content) =>
      let filename := filenameOf (file_fileUrl k) in
      (Awaiting
         (PostChatCompletion (file_apiKey k) filename (isPDF filename)
            base64Content)
         (mkModelStage (file_fileUrl k)),
       st)
  end.

Definition apiError (status : N) (statusText : list N) : exn :=
  Error (str "OpenRouter API error: " ++ numberToString status
           ++ str " " ++ statusText).

Definition classifyDocument_afterModel (k : ModelStage)
    (response : ModelResponse) (now : Z) (st : HookState)
  : Progress Empty_set * HookState :=
  match response with
  | PostRejected e => rethrow e st
  | PostResolved _ _ _ (Throw e) => rethrow e st
  | PostResolved false status statusText (Normal _) =>
      rethrow (apiError status statusText) st
  | PostResolved true _ _ (Normal content) =>
      if isTruthy content then
        let result := extractDocumentDetails (default [] content) in
        (Settled (Normal result),
         mkHook (<[model_fileUrl k := (result, now)]> (classificationCache st))
           None false (error st))
      else rethrow (Error (str "Invalid response from OpenRouter API")) st
  end.

(** [clearCache] and [clearAllCache] *)
Definition clearCache (fileUrl : list N) (st : HookState) : HookState :=
  mkHook (delete fileUrl (classificationCache st)) (lastClassificationRef st)
    (isClassifying st) (error st).

Definition clearAllCache (st : HookState) : HookState :=
  mkHook ∅ (lastClassificationRef st) (isClassifying st) (error st).

(** One call followed to its end, with the answers it will be given and
    nothing else running in between. *)
Definition classifyDocument_run (apiKey : option (list N)) (start : Z)
    (fileUrl : list N) (fileResponse : FileResponse)
    (response : ModelResponse) (finish : Z) (st : HookState)
  : completion ClassificationResult * HookState :=
  match classifyDocument apiKey start fileUrl st with
  | (Settled outcome, st1) => (outcome, st1)
  | (Awaiting _ k, st1) =>
      match classifyDocument_afterFile k fileResponse st1 with
      | (Settled outcome, st2) => (outcome, st2)
      | (Awaiting _ k', st2) =>
          match classifyDocument_afterModel k' response finish st2 with
          | (Settled outcome, st3) => (outcome, st3)
          | (Awaiting _ k'', _) => match k'' with end
          end
      end
  end.

(** What can happen to the hook state, one event at a time. *)
Inductive Event :=
  | Call (apiKey : option (list N)) (now : Z) (fileUrl : list N)
  | FileArrives (k : FileStage) (fileResponse : FileResponse)
  | ModelArrives (k : ModelStage) (response : ModelResponse) (now : Z)
  | ClearCache (fileUrl : list N)
  | ClearAllCache.

Definition step (st : HookState) (e : Event) : HookState :=
  match e with
  | Call apiKey now fileUrl => snd (classifyDocument apiKey now fileUrl st)
  | FileArrives k fileResponse =>
      snd (classifyDocument_afterFile k fileResponse st)
  | ModelArrives k response now =>
      snd (classifyDocument_afterModel k response now st)
  | ClearCache fileUrl => clearCache fileUrl st
  | ClearAllCache => clearAllCache st
  end.

Definition run (events : list Event) (st : HookState) : HookState :=
  fold_left step events st.

(** The file URL an event is about, if it is about one. *)
Definition eventUrl (e : Event) : option (list N) :=
  match e with
  | Call _ _ fileUrl => Some fileUrl
  | FileArrives k _ => Some (file_fileUrl k)
  | ModelArrives k _ _ => Some (model_fileUrl k)
  | ClearCache fileUrl => Some fileUrl
  | ClearAllCache => None
  end.

(** *** [batchVerify]

    Every document has its pipeline, the callback given to
    [documents.map].  The pipelines are started together; each waits for
    its timer, set for [index * 1000] ms, and then goes from one [await]
    to the next.  So the pipelines overlap: between two steps of one
    pipeline the others take theirs, on the same hook state.
    [Promise.allSettled] waits until every pipeline has settled and keeps
    one outcome per pipeline, whatever the outcomes are. *)

(** A row of the table [documents], as far as the code reads it. *)
Record Document := mkDocument {
  doc_id : list N;
  doc_user_id : list N;
  public_url : list N
}.

(** An element of the array [Promise.allSettled] resolves to. *)
Inductive PromiseSettledResult :=
  | Fulfilled (document : Document) (result : ClassificationResult)
  | Rejected (reason : exn).

(** What the collaborators answer to the pipeline of one document: the
    clock when it starts, the answers to [classifyDocument], the clock
    when that call stores its result, the error of the [update] (returned
    or thrown) and the rejection of the [insert], if any. *)
Record DocumentRun := mkRun {
  run_start : Z;
  run_file : FileResponse;
  run_model : ModelResponse;
  run_finish : Z;
  run_updateError : option exn;
  run_insertRejected : option exn
}.


(** Where a pipeline stands: before its timer has fired, at one of its
    [await]s, or settled. *)
Inductive Pipeline :=
  | Delayed
  | AwaitingFile (k : FileStage)
  | AwaitingModel (k : ModelStage)
  | AwaitingUpdate (classificationResult : ClassificationResult)
  | AwaitingInsert (classificationResult : ClassificationResult)
  | SettledWith (outcome : PromiseSettledResult).

(** The pipeline at [await classifyDocument(...)]: the call has settled,
    or it waits for its next answer. *)
Definition afterClassify {K : Type} (waiting : K -> Pipeline)
    (call : Progress K * HookState) : Pipeline * HookState :=
  match call with
  | (Settled (Throw docError), st) => (SettledWith (Rejected docError), st)
  | (Settled (Normal classificationResult), st) =>
      (AwaitingUpdate classificationResult, st)
  | (Awaiting _ k, st) => (waiting k, st)
  end.

(** One step of a pipeline: what it waits for happens, and it runs to its
    next [await] or to its end. *)
Definition advance (apiKey : option (list N)) (answers : DocumentRun)
    (document : Document) (pipeline : Pipeline) (st : HookState)
  : Pipeline * HookState :=
  match pipeline with
  | Delayed =>
      match fresh (run_start answers)
              (classificationCache st !! public_url document) with
      | Some result => (SettledWith (Fulfilled document result), st)
      | None =>
          afterClassify AwaitingFile
            (classifyDocument apiKey (run_start answers)
               (public_url document) st)
      end
  | AwaitingFile k =>
      afterClassify AwaitingModel
        (classifyDocument_afterFile k (run_file answers) st)
  | AwaitingModel k =>
      afterClassify (fun k' : Empty_set => match k' with end)
        (classifyDocument_afterModel k (run_model answers)
           (run_finish answers) st)
  | AwaitingUpdate classificationResult =>
      match run_updateError answers with
      | Some updateError => (SettledWith (Rejected updateError), st)
      | None => (AwaitingInsert classificationResult, st)
      end
  | AwaitingInsert classificationResult =>
      match run_insertRejected answers with
      | Some docError => (SettledWith (Rejected docError), st)
      | None => (SettledWith (Fulfilled document classificationResult), st)
      end
  | SettledWith _ => (pipeline, st)
  end.

Definition started (pipeline : Pipeline) : bool :=
  match pipeline with
  | Delayed => false
  | _ => true
  end.

(** The event [index]: what the pipeline of that index waits for
    happens.  A timer fires only after the timers of the pipelines
    before it, which were set for earlier times; an event that cannot
    happen changes nothing. *)
Definition deliver (apiKey : option (list N)) (answers : nat -> DocumentRun)
    (documents : list Document) (index : nat)
    (state : list Pipeline * HookState) : list Pipeline * HookState :=
  let '(pipelines, st) := state in
  match documents !! index, pipelines !! index with
  | Some document, Some pipeline =>
      if started pipeline || forallb started (take index pipelines) then
        let '(pipeline', st') :=
          advance apiKey (answers index) document pipeline st in
        (<[index := pipeline']> pipelines, st')
      else state
  | _, _ => state
  end.

(** The events of a schedule, one after the other. *)
Definition deliverAll (apiKey : option (list N)) (answers : nat -> DocumentRun)
    (documents : list Document) (schedule : list nat)
    (state : list Pipeline * HookState) : list Pipeline * HookState :=
  fold_left (fun s index => deliver apiKey answers documents index s)
    schedule state.

(** What [Promise.allSettled] resolves to, once every pipeline has
    settled. *)
Fixpoint outcomes (pipelines : list Pipeline)
  : option (list PromiseSettledResult) :=
  match pipelines with
  | [] => Some []
  | SettledWith outcome :: rest =>
      match outcomes rest with
      | Some results => Some (outcome :: results)
      | None => None
      end
  | _ :: _ => None
  end.

(** [Promise.allSettled(documents.map(async (document, index) => ...))]
    under a schedule: [None] while a pipeline is not settled. *)
Definition settleAll (apiKey : option (list N)) (answers : nat -> DocumentRun)
    (documents : list Document) (schedule : list nat) (st : HookState)
  : option (list PromiseSettledResult * HookState) :=
  let '(pipelines, st') :=
    deliverAll apiKey answers documents schedule
      (replicate (length documents) Delayed, st) in
  match outcomes pipelines with
  | Some results => Some (results, st')
  | None => None
  end.

Definition isFulfilled (r : PromiseSettledResult) : bool :=
  match r with
  | Fulfilled _ _ => true
  | Rejected _ => false
  end.

Definition isRejected (r : PromiseSettledResult) : bool :=
  match r with
  | Fulfilled _ _ => false
  | Rejected _ => true
  end.

(** [{ success: boolean; error?: string }] *)
Record BatchResult := mkBatchResult {
  success : bool;
  result_error : option (list N)
}.

(** The two counts and the returned object. *)
Definition summary (results : list PromiseSettledResult) : BatchResult :=
  let successful := length (List.filter isFulfilled results) in
  let failed := length (List.filter isRejected results) in
  {| success := bool_decide (0 < successful)%nat;
     result_error :=
       if bool_decide (0 < failed)%nat
       then Some (numberToString (N.of_nat failed)
                    ++ str " documents failed to process")
       else None |}.

(** What the collaborators answer to one [batchVerify]: the signed-in
    user ([None] for an error or no user), the rows of [documents]
    ([None] for a query error), and the answers to each pipeline. *)
Record BatchWorld := mkWorld {
  world_apiKey : option (list N);
  world_user : completion (option (list N));
  world_table : completion (option (list Document));
  world_answers : nat -> DocumentRun
}.

(** [.in('id', documentIds).eq('user_id', user.id)] *)
Definition selectDocuments (documentIds : list (list N)) (user : list N)
    (table : list Document) : list Document :=
  List.filter
    (fun d => bool_decide (doc_id d ∈ documentIds)
              && eqString (doc_user_id d) user)
    table.

(** The [catch] and [finally] of [batchVerify]. *)
Definition batchFailure (err : exn) (st : HookState)
  : BatchResult * HookState :=
  ({| success := false; result_error := Some (message err) |},
   mkHook (classificationCache st) (lastClassificationRef st) false
     (Some (message err))).

(** [setIsClassifying(true); setError(null)] *)
Definition dispatched (st : HookState) : HookState :=
  mkHook (classificationCache st) (lastClassificationRef st) true None.

(** [batchVerify] under a schedule of the answers to its pipelines:
    [None] while it has not returned. *)
Definition batchVerify (w : BatchWorld) (schedule : list nat)
    (documentIds : list (list N)) (st : HookState)
  : option (BatchResult * HookState) :=
  let st0 := dispatched st in
  match world_user w with
  | Throw err => Some (batchFailure err st0)
  | Normal None => Some (batchFailure (Error (str "Not authenticated")) st0)
  | Normal (Some user) =>
      match world_table w with
      | Throw err => Some (batchFailure err st0)
      | Normal None =>
          Some (batchFailure (Error (str "No documents found")) st0)
      | Normal (Some table) =>
          match selectDocuments documentIds user table with
          | [] => Some (batchFailure (Error (str "No documents found")) st0)
          | documents =>
              match settleAll (world_apiKey w) (world_answers w) documents
                      schedule st0 with
              | Some (results, st1) =>
                  Some (summary results,
                        mkHook (classificationCache st1)
                          (lastClassificationRef st1) false (error st1))
              | None => None
              end
          end
      end
  end.

End Classifier.

(** ** The chat hook ([src/hooks/use-document-chat.ts]): [getChatHistory]
       and [sendMessage] *)

Module Chat.
Import JS.

(** [interface ChatMessage]; its field [message] is [message_text]
    here. *)
Record ChatMessage := mkMessage {
  id : list N;
  document_id : list N;
  user_id : list N;
  message_text : list N;
  is_user : bool;
  created_at : list N
}.

Definition CACHE_EXPIRATION : Z := 60 * 1000.

(** The module-level [chatHistoryCache] and the cells of one hook
    instance. *)
Record HookState := mkHook {
  chatHistoryCache : gmap (list N) (list ChatMessage * Z);
  lastFetchRef : option (list N);
  messages : list ChatMessage;
  error : option (list N);
  isSending : bool
}.

Definition fresh {A : Type} (now : Z) (cached : option (A * Z)) : option A :=
  match cached with
  | Some (result, timestamp) =>
      if bool_decide (now - timestamp < CACHE_EXPIRATION)%Z
      then Some result else None
  | None => None
  end.

(** The query [from('document_chat').select('*').eq('document_id',
    documentId).order('created_at', { ascending: true })]. *)
Inductive Request :=
  | SelectChat (documentId : list N).

(** What the awaited query gives: a rejection, or the pair
    [{ data, error }]. *)
Inductive QueryResponse :=
  | QueryRejected (e : exn)
  | QueryError (error : exn)
  | QueryData (data : list ChatMessage).

(** The call has returned, or it has sent the query and waits for the
    answer. *)
Inductive Progress :=
  | Returned (history : list ChatMessage)
  | Awaiting (request : Request).

(** [getChatHistory] up to the [await]; [messages] is the list the
    callback has closed over. *)
Definition getChatHistory (now : Z) (documentId : list N) (st : HookState)
  : Progress * HookState :=
  if bool_decide (lastFetchRef st = Some documentId) then
    (Returned (messages st), st)
  else
    match fresh now (chatHistoryCache st !! documentId) with
    | Some cachedMessages =>
        (Returned cachedMessages,
         mkHook (chatHistoryCache st) (lastFetchRef st) cachedMessages
           (error st) (isSending st))
    | None =>
        (Awaiting (SelectChat documentId),
         mkHook (chatHistoryCache st) (Some documentId) (messages st)
           (error st) (isSending st))
    end.

(** [catch (err) { setError(err.message); return [] }] followed by
    [finally]. *)
Definition caught (err : exn) (st : HookState)
  : list ChatMessage * HookState :=
  ([],
   mkHook (chatHistoryCache st) None (messages st) (Some (message err))
     (isSending st)).

(** [getChatHistory] from the answer of the query to its end. *)
Definition getChatHistory_afterQuery (documentId : list N)
    (response : QueryResponse) (now : Z) (st : HookState)
  : list ChatMessage * HookState :=
  match response with
  | QueryRejected err => caught err st
  | QueryError err => caught err st
  | QueryData data =>
      (data,
       mkHook (<[documentId := (data, now)]> (chatHistoryCache st)) None
         data (error st) (isSending st))
  end.

(** [clearCache] and [clearAllCache] *)
Definition clearCache (documentId : list N) (st : HookState) : HookState :=
  mkHook (delete documentId (chatHistoryCache st)) (lastFetchRef st)
    (messages st) (error st) (isSending st).

Definition clearAllCache (st : HookState) : HookState :=
  mkHook ∅ (lastFetchRef st) (messages st) (error st) (isSending st).

(** *** [sendMessage]

    The call has five [await]s on collaborators: the signed-in user, the
    file, the model, and the two inserts.  It is one function up to the
    first of them and one function from each answer to the next request
    or to its end.  The list [messages] is the one the callback has
    closed over when the call starts; it travels with the call. *)

(** The parameter [documentContext]; [type] may be nullish. *)
Record DocumentContext := mkContext {
  context_url : list N;
  context_type : option (list N);
  context_name : list N
}.

(** The second part of the user content posted to the model. *)
Inductive Attachment :=
  | FilePart (filename file_data : list N)
  | ImageUrlPart (url : list N).

(** The requests of a call.  Of the body posted to the model only what
    depends on the arguments is kept; [plugins] tells whether the
    file-parser plugin is asked for. *)
Inductive SendRequest :=
  | GetUser
  | FetchFile (url : list N)
  | PostChatCompletion (apiKey question : list N) (attachment : Attachment)
      (plugins : bool)
  | InsertChat (documentId userId : list N) (content : value)
      (isUser : bool).

(** What [await fetch(documentContext.url)] and the reading of the blob
    give. *)
Inductive FileResponse :=
  | FetchRejected (e : exn)
  | FetchResolved (ok : bool) (base64Content : completion (list N)).

(** What the request to the model gives: the flag [ok] and, for the
    decoded body, the outcome of [data.choices[0].message.content], which
    throws when the body is not JSON or a link of the chain is missing. *)
Inductive ModelResponse :=
  | PostRejected (e : exn)
  | PostResolved (ok : bool) (aiResponse : completion value).

(** What an insert followed by [.select().single()] gives. *)
Inductive InsertResponse :=
  | InsertRejected (e : exn)
  | InsertError (error : exn)
  | InsertRow (row : ChatMessage).

Inductive SendProgress (K : Type) :=
  | Sent (outcome : completion (list ChatMessage))
  | Waiting (request : SendRequest) (k : K).
Arguments Sent {K} outcome.
Arguments Waiting {K} request k.

(** What the call has in scope at each [await]. *)
Record SendCall := mkSendCall {
  send_apiKey : list N;
  send_documentId : list N;
  send_message : list N;
  send_context : DocumentContext;
  send_messages : list ChatMessage
}.

Record WithUser := mkWithUser {
  call_of : SendCall;
  userId_of : list N
}.

Record WithAnswer := mkWithAnswer {
  user_of : WithUser;
  aiResponse_of : value
}.

Record WithUserMessage := mkWithUserMessage {
  answer_of : WithAnswer;
  userMessage_of : ChatMessage
}.

(** [catch (err) { setError(err.message); throw err }] followed by
    [finally]. *)
Definition sendFailed {K : Type} (err : exn) (st : HookState)
  : SendProgress K * HookState :=
  (Sent (Throw err),
   mkHook (chatHistoryCache st) (lastFetchRef st) (messages st)
     (Some (message err)) false).

Definition sendMessage (apiKey : option (list N))
    (documentId message : list N) (documentContext : DocumentContext)
    (st : HookState) : SendProgress SendCall * HookState :=
  let st1 :=
    mkHook (chatHistoryCache st) (lastFetchRef st) (messages st) None true in
  match apiKey with
  | Some key =>
      if truthy key then
        (Waiting GetUser
           (mkSendCall key documentId message documentContext (messages st)),
         st1)
      else sendFailed (Error (str "OpenRouter API key not configured")) st1
  | None => sendFailed (Error (str "OpenRouter API key not configured")) st1
  end.

(** [userResponse]: the rejection of [getUser], or the user's id, [None]
    when [userError] is set or there is no user. *)
Definition sendMessage_afterUser (k : SendCall)
    (userResponse : completion (option (list N))) (st : HookState)
  : SendProgress WithUser * HookState :=
  match userResponse with
  | Throw err => sendFailed err st
  | Normal None => sendFailed (Error (str "Not authenticated")) st
  | Normal (Some user) =>
      (Waiting (FetchFile (context_url (send_context k))) (mkWithUser k user),
       st)
  end.

(** [documentContext.type?.includes('pdf')], used as a condition. *)
Definition isPDF (documentContext : DocumentContext) : bool :=
  match context_type documentContext with
  | Some type => stringIncludes type (str "pdf")
  | None => false
  end.

Definition sendMessage_afterFile (k : WithUser) (fileResponse : FileResponse)
    (st : HookState) : SendProgress WithUser * HookState :=
  match fileResponse with
  | FetchRejected err => sendFailed err st
  | FetchResolved false _ => sendFailed (Error (str "File not accessible")) st
  | FetchResolved true (Throw err) => sendFailed err st
  | FetchResolved true (Normal base64Content) =>
      let documentContext := send_context (call_of k) in
      (Waiting
         (PostChatCompletion (send_apiKey (call_of k))
            (send_message (call_of k))
            (if isPDF documentContext
             then FilePart (context_name documentContext) base64Content
             else ImageUrlPart (context_url documentContext))
            (isPDF documentContext))
         k,
       st)
  end.

Definition sendMessage_afterModel (k : WithUser) (response : ModelResponse)
    (st : HookState) : SendProgress WithAnswer * HookState :=
  match response with
  | PostRejected err => sendFailed err st
  | PostResolved false _ =>
      sendFailed (Error (str "Failed to get response from AI")) st
  | PostResolved true (Throw err) => sendFailed err st
  | PostResolved true (Normal aiResponse) =>
      (Waiting
         (InsertChat (send_documentId (call_of k)) (userId_of k)
            (VString (send_message (call_of k))) true)
         (mkWithAnswer k aiResponse),
       st)
  end.

Definition sendMessage_afterUserInsert (k : WithAnswer)
    (userInsert : InsertResponse) (st : HookState)
  : SendProgress WithUserMessage * HookState :=
  match userInsert with
  | InsertRejected err => sendFailed err st
  | InsertError userMessageError => sendFailed userMessageError st
  | InsertRow userMessage =>
      (Waiting
         (InsertChat (send_documentId (call_of (user_of k)))
            (userId_of (user_of k)) (aiResponse_of k) false)
         (mkWithUserMessage k userMessage),
       st)
  end.

Definition sendMessage_afterAiInsert (k : WithUserMessage)
    (aiInsert : InsertResponse) (now : Z) (st : HookState)
  : SendProgress Empty_set * HookState :=
  match aiInsert with
  | InsertRejected err => sendFailed err st
  | InsertError aiMessageError => sendFailed aiMessageError st
  | InsertRow aiMessage =>
      let call := call_of (user_of (answer_of k)) in
      let userMessage := userMessage_of k in
      let newMessages := send_messages call ++ [userMessage; aiMessage] in
      (Sent (Normal [userMessage; aiMessage]),
       mkHook
         (<[send_documentId call := (newMessages, now)]> (chatHistoryCache st))
         (lastFetchRef st) newMessages (error st) false)
  end.

(** What the collaborators answer to one call. *)
Record SendAnswers := mkSendAnswers {
  answer_user : completion (option (list N));
  answer_file : FileResponse;
  answer_model : ModelResponse;
  answer_userInsert : InsertResponse;
  answer_aiInsert : InsertResponse;
  answer_finish : Z
}.

(** One call followed to its end, with nothing else running in
    between. *)
Definition sendMessage_run (apiKey : option (list N))
    (documentId message : list N) (documentContext : DocumentContext)
    (answers : SendAnswers) (st : HookState)
  : completion (list ChatMessage) * HookState :=
  match sendMessage apiKey documentId message documentContext st with
  | (Sent outcome, st1) => (outcome, st1)
  | (Waiting _ k1, st1) =>
  match sendMessage_afterUser k1 (answer_user answers) st1 with
  | (Sent outcome, st2) => (outcome, st2)
  | (Waiting _ k2, st2) =>
  match sendMessage_afterFile k2 (answer_file answers) st2 with
  | (Sent outcome, st3) => (outcome, st3)
  | (Waiting _ k3, st3) =>
  match sendMessage_afterModel k3 (answer_model answers) st3 with
  | (Sent outcome, st4) => (outcome, st4)
  | (Waiting _ k4, st4) =>
  match sendMessage_afterUserInsert k4 (answer_userInsert answers) st4 with
  | (Sent outcome, st5) => (outcome, st5)
  | (Waiting _ k5, st5) =>
  match sendMessage_afterAiInsert k5 (answer_aiInsert answers)
          (answer_finish answers) st5 with
  | (Sent outcome, st6) => (outcome, st6)
  | (Waiting _ k6, _) => match k6 with end
  end end end end end end.

End Chat.

(** ** The upload page ([src/app/(dashboard)/dashboard/page.tsx]):
       [onDrop] *)

Module Dashboard.
Import JS.

(** The [File] objects the drop zone hands over. *)
Record File := mkFile {
  file_name : list N;
  file_size : N;
  file_type : list N
}.

(** ['uploading' | 'classifying' | 'success' | 'error'] *)
Inductive FileStatus :=
  | StatusUploading
  | StatusClassifying
  | StatusSuccess
  | StatusError.

(** [interface UploadedFile]; an optional field that is absent is
    [None]. *)
Record UploadedFile := mkUploaded {
  entry_name : list N;
  entry_size : N;
  entry_type : list N;
  entry_status : FileStatus;
  entry_error : option (list N);
  entry_publicUrl : option (list N);
  entry_filePath : option (list N)
}.

(** The two cells of the page. *)
Record PageState := mkPage {
  files : list UploadedFile;
  error : list N
}.

(** [acceptedFiles.map(file => ({ ..., status: 'uploading' }))] *)
Definition newFile (file : File) : UploadedFile :=
  mkUploaded (file_name file) (file_size file) (file_type file)
    StatusUploading None None None.

(** [prev.map((f, index) => index === i ? update(f) : f)] *)
Definition updateAt (i : nat) (update : UploadedFile -> UploadedFile)
    (prev : list UploadedFile) : list UploadedFile :=
  imap (fun index f => if Nat.eqb index i then update f else f) prev.

(** [{ ...f, status: 'classifying', publicUrl, filePath }] *)
Definition toClassifying (publicUrl filePath : list N) (f : UploadedFile)
  : UploadedFile :=
  mkUploaded (entry_name f) (entry_size f) (entry_type f) StatusClassifying
    (entry_error f) (Some publicUrl) (Some filePath).

(** [{ ...f, status: 'success' }] *)
Definition toSuccess (f : UploadedFile) : UploadedFile :=
  mkUploaded (entry_name f) (entry_size f) (entry_type f) StatusSuccess
    (entry_error f) (entry_publicUrl f) (entry_filePath f).

(** [{ ...f, status: 'error', error: err.message }] *)
Definition toError (err : exn) (f : UploadedFile) : UploadedFile :=
  mkUploaded (entry_name f) (entry_size f) (entry_type f) StatusError
    (Some (message err)) (entry_publicUrl f) (entry_filePath f).

(** The body of both [catch] clauses. *)
Definition failed (i : nat) (err : exn) (page : PageState) : PageState :=
  mkPage (updateAt i (toError err) (files page)) (message err).

(** [name.split('.').pop()] *)
Fixpoint extension (segment s : list N) : list N :=
  match s with
  | [] => segment
  | c :: s' =>
      if c =? 46 then extension [] s' else extension (segment ++ [c]) s'
  end.

(** What the collaborators answer while one file is handled: the
    signed-in user ([None] for an error or no user), the random part of
    the file name and the clock, the public URL the storage client
    derives from a path, the error of the upload and of the insert of
    the row (returned, or a rejection thrown), the rejection of the
    first activity insert, the answers to [classifyDocument], the error
    of the update and the rejection of the second activity insert. *)
Record UploadRun := mkUploadRun {
  run_user : completion (option (list N));
  run_random : list N;
  run_now : N;
  run_getPublicUrl : list N -> list N;
  run_uploadError : option exn;
  run_dbError : option exn;
  run_activityRejected : option exn;
  run_start : Z;
  run_file : Classifier.FileResponse;
  run_model : Classifier.ModelResponse;
  run_finish : Z;
  run_updateError : option exn;
  run_classifyActivityRejected : option exn
}.

(** [`${user.id}/${random}-${Date.now()}.${fileExt}`] *)
Definition filePathOf (user : list N) (answers : UploadRun) (file : File)
  : list N :=
  user ++ str "/" ++ run_random answers ++ str "-"
  ++ numberToString (run_now answers) ++ str "."
  ++ extension [] (file_name file).

(** The inner [try] and its [catch]: classification of the uploaded
    file. *)
Definition classifyUploaded (apiKey : option (list N)) (answers : UploadRun)
    (i : nat) (publicUrl : list N) (page : PageState)
    (hook : Classifier.HookState) : PageState * Classifier.HookState :=
  match Classifier.classifyDocument_run apiKey (run_start answers) publicUrl
          (run_file answers) (run_model answers) (run_finish answers) hook
  with
  | (Throw classifyError, hook') => (failed i classifyError page, hook')
  | (Normal classificationResult, hook') =>
      match run_updateError answers with
      | Some updateError => (failed i updateError page, hook')
      | None =>
          match run_classifyActivityRejected answers with
          | Some classifyError => (failed i classifyError page, hook')
          | None =>
              (mkPage (updateAt i toSuccess (files page)) (error page), hook')
          end
      end
  end.

(** One turn of the loop [for (let i = 0; i < acceptedFiles.length;
    i++)]. *)
Definition uploadOne (apiKey : option (list N)) (answers : UploadRun)
    (i : nat) (file : File) (page : PageState) (hook : Classifier.HookState)
  : PageState * Classifier.HookState :=
  match run_user answers with
  | Throw err => (failed i err page, hook)
  | Normal None => (failed i (Error (str "Not authenticated")) page, hook)
  | Normal (Some user) =>
      let filePath := filePathOf user answers file in
      match run_uploadError answers with
      | Some uploadError => (failed i uploadError page, hook)
      | None =>
          let publicUrl := run_getPublicUrl answers filePath in
          match run_dbError answers with
          | Some dbError => (failed i dbError page, hook)
          | None =>
              match run_activityRejected answers with
              | Some err => (failed i err page, hook)
              | None =>
                  classifyUploaded apiKey answers i publicUrl
                    (mkPage
                       (updateAt i (toClassifying publicUrl filePath)
                          (files page))
                       (error page))
                    hook
              end
          end
      end
  end.

Fixpoint uploadLoop (apiKey : option (list N)) (answers : nat -> UploadRun)
    (i : nat) (acceptedFiles : list File) (page : PageState)
    (hook : Classifier.HookState) : PageState * Classifier.HookState :=
  match acceptedFiles with
  | [] => (page, hook)
  | file :: rest =>
      let '(page1, hook1) := uploadOne apiKey (answers i) i file page hook in
      uploadLoop apiKey answers (S i) rest page1 hook1
  end.

(** [onDrop], followed to its end with nothing else running in
    between. *)
Definition onDrop (apiKey : option (list N)) (answers : nat -> UploadRun)
    (acceptedFiles : list File) (page : PageState)
    (hook : Classifier.HookState) : PageState * Classifier.HookState :=
  uploadLoop apiKey answers 0 acceptedFiles
    (mkPage (files page ++ List.map newFile acceptedFiles) [])
    hook.

End Dashboard.

(** ** The document page
       ([src/app/(dashboard)/document/[id]/loading.tsx]): the chat *)

Module DocumentPage.
Import JS.

(** [interface Document], the fields the chat handlers read. *)
Record Document := mkDocument {
  id : list N;
  file_name : list N;
  file_type : option (list N);
  public_url : list N
}.

(** The cells of the page that the chat handlers read or write. *)
Record PageState := mkPage {
  document : option Document;
  newMessage : list N;
  chatMessages : list Chat.ChatMessage;
  error : option (list N)
}.

(** The effect [fetchChatMessages], followed to its end: [response] is
    what the query gives if the call sends one, [finish] the clock when
    it stores the rows. *)
Definition fetchChatMessages (now : Z) (response : Chat.QueryResponse)
    (finish : Z) (page : PageState) (hook : Chat.HookState)
  : PageState * Chat.HookState :=
  match document page with
  | None => (page, hook)
  | Some doc =>
      let '(history, hook') :=
        match Chat.getChatHistory now (id doc) hook with
        | (Chat.Returned history, hook1) => (history, hook1)
        | (Chat.Awaiting _, hook1) =>
            Chat.getChatHistory_afterQuery (id doc) response finish hook1
        end in
      (mkPage (document page) (newMessage page) history (error page), hook')
  end.

(** [handleSendMessage], followed to its end. *)
Definition handleSendMessage (apiKey : option (list N))
    (answers : Chat.SendAnswers) (page : PageState) (hook : Chat.HookState)
  : PageState * Chat.HookState :=
  match document page with
  | None => (page, hook)
  | Some doc =>
      if truthy (trim (newMessage page)) then
        match Chat.sendMessage_run apiKey (id doc) (newMessage page)
                (Chat.mkContext (public_url doc) (file_type doc)
                   (file_name doc))
                answers hook with
        | (Normal rows, hook') =>
            (mkPage (document page) [] (chatMessages page ++ rows)
               (error page),
             hook')
        | (Throw err, hook') =>
            (mkPage (document page) (newMessage page) (chatMessages page)
               (Some (message err)),
             hook')
        end
      else (page, hook)
  end.

End DocumentPage.
(** * Properties *)

Import JS TaxSchema.

(** ** Definitions used in the statements *)

Module Statements.
Import Classifier.

Definition LF : list N := [10].
Definition quote : list N := [34].

(** [country] is one of the keys of the taxonomy table. *)
Definition isTaxonomyKey (country : list N) : Prop :=
  is_Some (ownProperty country taxSchema).

(** The category that is not [category]. *)
Definition otherCategory (category : list N) : list N :=
  if eqString category CompanyDocuments then EmployeeDocuments
  else CompanyDocuments.

(** Every entry of the taxonomy has a non-empty name and both lists. *)
Definition wellFormedCountry
    (entry : list N * list (list N * list (list N))) : bool :=
  truthy (fst entry)
  && bool_decide (is_Some (ownProperty CompanyDocuments (snd entry)))
  && bool_decide (is_Some (ownProperty EmployeeDocuments (snd entry))).

(** The three conditions of the status policy, as the code evaluates
    them: a string counts as present when it is neither [null] nor
    empty. *)
Definition bothPresent (d : Details) : Prop :=
  exists t c, details_documentType d = Some t /\ t <> []
           /\ details_country d = Some c /\ c <> [].

Definition categoryValid (d : Details) : Prop :=
  details_category d = CompanyDocuments
  \/ details_category d = EmployeeDocuments.

Definition countryPresent (d : Details) : Prop :=
  details_country d <> None.

(** The status policy in the words of the specification: condition (a)
    is "documentType is non-null and country is non-null". *)
Definition specifiedConditions (d : Details) : list bool :=
  [ bool_decide (details_documentType d <> None
                 /\ details_country d <> None);
    isDocumentCategory (details_category d);
    bool_decide (details_country d <> None) ].

Definition specifiedStatus (d : Details) : Status :=
  let count := length (List.filter (fun b => b) (specifiedConditions d)) in
  if bool_decide (2 <= count)%nat then classified
  else if bool_decide (count = 1)%nat then pending_review
  else non_classified.

(** The characters a JSON text can start with: white space, an opening
    brace or bracket, a quote, the first letter of [true], [false] or
    [null], a minus sign or a digit. *)
Definition startsJSON (c : N) : bool :=
  isJSONWhiteSpace c || (c =? 123) || (c =? 91) || (c =? 34)
  || (c =? 116) || (c =? 102) || (c =? 110) || (c =? 45) || isDigit c.

(** The scenario of the specification. *)
Definition scenarioText : list N :=
  str "Country of Origin: India" ++ LF
  ++ str "Document Type: PAN Card" ++ LF
  ++ str "Document Category: CompanyDocuments" ++ LF
  ++ str "Confidence Score: 0.92".

Definition scenarioCandidate : Details :=
  {| details_country := Some (str "India");
     details_documentType := Some (str "PAN Card");
     details_category := CompanyDocuments;
     details_subtype := None;
     details_confidence_score := Finite false 92 (-2) |}.

(** A document type that is white space only, after an unrecognised
    category. *)
Definition blankTypeText : list N :=
  str "Country of Origin: India" ++ LF
  ++ str "Document Category: Other" ++ LF
  ++ str "Document Type:  ".

Definition blankTypeCandidate : Details :=
  {| details_country := Some (str "India");
     details_documentType := Some [];
     details_category := str "Other";
     details_subtype := None;
     details_confidence_score := zero |}.

(** The same without a category line. *)
Definition blankTypeOnlyText : list N :=
  str "Country of Origin: India" ++ LF ++ str "Document Type:  ".

(** An employee document named without a category line. *)
Definition aadhaarText : list N :=
  str "Country of Origin: India" ++ LF ++ str "Document Type: Aadhaar Card".

Definition aadhaarCandidate : Details :=
  {| details_country := Some (str "India");
     details_documentType := Some (str "Aadhaar Card");
     details_category := CompanyDocuments;
     details_subtype := None;
     details_confidence_score := zero |}.

Definition otherCategoryText : list N := str "Document Category: Other".

(** The second scenario of the specification. *)
Definition unknownDocumentText : list N :=
  str "Country of Origin: India" ++ LF
  ++ str "Document Type: Totally Unknown Doc" ++ LF
  ++ str "Document Category: CompanyDocuments".

(** A category that is the name of a method of every object. *)
Definition inheritedCategoryText : list N :=
  str "Country of Origin: India" ++ LF
  ++ str "Document Type: PAN Card" ++ LF
  ++ str "Document Category: toString".

Definition highConfidenceText : list N := str "Confidence Score: high".

(** A JSON answer that names a document type the taxonomy does not
    have. *)
Definition jsonText : list N :=
  str "{" ++ quote ++ str "Country of Origin" ++ quote ++ str ": "
    ++ quote ++ str "India" ++ quote ++ str ", "
  ++ quote ++ str "Document Type" ++ quote ++ str ": "
    ++ quote ++ str "Totally Unknown Doc" ++ quote ++ str ", "
  ++ quote ++ str "Document Category" ++ quote ++ str ": "
    ++ quote ++ str "CompanyDocuments" ++ quote ++ str ", "
  ++ quote ++ str "Document Subtype" ++ quote ++ str ": null, "
  ++ quote ++ str "Confidence Score" ++ quote ++ str ": 0.5}".

Definition jsonMembers : list (list N * value) :=
  [ (str "Country of Origin", VString (str "India"));
    (str "Document Type", VString (str "Totally Unknown Doc"));
    (str "Document Category", VString (str "CompanyDocuments"));
    (str "Document Subtype", VNull);
    (str "Confidence Score", VNumber (Finite false 5 (-1))) ].

(** A call enters its [try] block: it passes the in-flight guard and
    finds no fresh cache entry. *)
Definition entersTry (now : Z) (fileUrl : list N) (st : HookState) : Prop :=
  lastClassificationRef st <> Some fileUrl
  /\ fresh now (classificationCache st !! fileUrl) = None.

(** The event touches the cache entry or a call of [fileUrl]. *)
Definition concerns (fileUrl : list N) (e : Event) : bool :=
  match eventUrl e with
  | Some url => eqString url fileUrl
  | None => true
  end.

Definition exampleUrl : list N :=
  str "https://files.example/storage/pan-card.pdf".

Definition exampleKey : option (list N) := Some (str "sk-or-example").

Definition idle : HookState := mkHook ∅ None false None.

(** A hook with a classification of [exampleUrl] in flight. *)
Definition busy : HookState := mkHook ∅ (Some exampleUrl) true None.

Definition fileOk : FileResponse :=
  FetchResolved true (Normal (str "data:application/pdf;base64,JVBERi0=")).

Definition modelOk : ModelResponse :=
  PostResolved true 200 (str "OK") (Normal (Some scenarioText)).

Definition modelDown : ModelResponse :=
  PostResolved false 503 (str "Service Unavailable") (Normal None).

(** The entry of [fileUrl] and the fact that the marker does not hold
    [fileUrl]. *)
Definition settledEntry (fileUrl : list N) (entry : ClassificationResult * Z)
    (st : HookState) : Prop :=
  classificationCache st !! fileUrl = Some entry
  /\ lastClassificationRef st <> Some fileUrl.

(** The hook after the first call for [exampleUrl] has stored its result
    at time 2000. *)
Definition afterFirst : HookState :=
  mkHook {[ exampleUrl := (toResult scenarioCandidate, 2000%Z) ]} None false
    None.

Definition otherUrl : list N :=
  str "https://files.example/storage/form-16.png".

(** Activity for another file. *)
Definition otherEvents : list Event :=
  [ Call exampleKey 3000 otherUrl;
    FileArrives (mkFileStage (str "sk-or-example") otherUrl)
      (FetchResolved false (Normal []));
    ClearCache otherUrl ].

(** Three documents of one user and a row of somebody else. *)
Definition exampleUser : list N := str "user-1".

Definition exampleTable : list Document :=
  [ mkDocument (str "doc-1") exampleUser (str "https://files.example/a.pdf");
    mkDocument (str "doc-2") exampleUser (str "https://files.example/b.pdf");
    mkDocument (str "doc-9") (str "user-2")
      (str "https://files.example/z.pdf");
    mkDocument (str "doc-3") exampleUser
      (str "https://files.example/c.png") ].

Definition exampleIds : list (list N) :=
  [str "doc-1"; str "doc-2"; str "doc-3"; str "doc-9"].

(** The model endpoint fails for the second document only. *)
Definition exampleAnswers (index : nat) : DocumentRun :=
  {| run_start := 1000 * Z.of_nat index;
     run_file := fileOk;
     run_model := if Nat.eqb index 1 then modelDown else modelOk;
     run_finish := 1000 * Z.of_nat index + 500;
     run_updateError := None;
     run_insertRejected := None |}.

Definition exampleWorld : BatchWorld :=
  {| world_apiKey := exampleKey;
     world_user := Normal (Some exampleUser);
     world_table := Normal (Some exampleTable);
     world_answers := exampleAnswers |}.

(** A chat hook that holds an expired history of one document. *)
Definition exampleDocument : list N := str "doc-1".

Definition oldMessage : Chat.ChatMessage :=
  Chat.mkMessage (str "m-1") exampleDocument exampleUser
    (str "What is this document?") true (str "2025-01-01T00:00:00Z").

Definition chatIdle : Chat.HookState :=
  Chat.mkHook {[ exampleDocument := ([oldMessage], 0%Z) ]} None [oldMessage]
    None false.

Definition chatFetching : Chat.HookState :=
  Chat.mkHook {[ exampleDocument := ([oldMessage], 0%Z) ]}
    (Some exampleDocument) [oldMessage] None false.

Definition queryFailure : exn := Error (str "JWT expired").

(** *** Definitions for the further properties *)

(** The category the text fallback reads before validation. *)
Definition categoryRead (text : list N) : list N :=
  default CompanyDocuments (matchTrimmed "Document Category:" text).

(** A string as [trim] leaves it, without line feed and asterisk. *)
Definition clean (s : list N) : Prop :=
  Forall (fun c => c <> 10 /\ c <> 42) s /\ trim s = s.


(** An answer in the prescribed layout about a country the taxonomy does
    not have. *)
Definition franceText : list N :=
  str "Country of Origin: France" ++ LF
  ++ str "Document Type: Kbis" ++ LF
  ++ str "Document Category: CompanyDocuments" ++ LF
  ++ str "Document Subtype: null" ++ LF
  ++ str "Confidence Score: 0.4".

(** An answer whose first three lines follow the layout the prompt
    prescribes; [rest] is what comes after them. *)
Definition prescribedAnswer (c t g rest : list N) : list N :=
  str "Country of Origin: " ++ c ++ LF
  ++ str "Document Type: " ++ t ++ LF
  ++ str "Document Category: " ++ g ++ LF
  ++ rest.

(** The triples (country, category, document type) of the taxonomy. *)
Definition taxonomyEntries : list (list N * list N * list N) :=
  flat_map
    (fun country =>
       flat_map
         (fun category =>
            List.map (fun t => (fst country, fst category, t)) (snd category))
         (snd country))
    taxSchema.

(** The first three fields of the prescribed answer for an entry are
    read back as the entry. *)
Definition readsBack (rest : list N) (entry : list N * list N * list N)
  : bool :=
  let '(c, g, t) := entry in
  let text := prescribedAnswer c t g rest in
  bool_decide (matchTrimmed "Country of Origin:" text = Some c)
  && bool_decide (matchTrimmed "Document Type:" text = Some t)
  && bool_decide (matchTrimmed "Document Category:" text = Some g).

Definition subtypeAndScore : list N :=
  str "Document Subtype: null" ++ LF ++ str "Confidence Score: 0.92".

(** A JSON value that is neither [null] nor an object. *)
Definition notRecord (v : value) : Prop :=
  match v with
  | VBool _ | VNumber _ | VString _ | VArray _ => True
  | VUndefined | VNull | VObject _ => False
  end.

(** The hook state a call leaves when it fails inside its [try]
    block. *)
Definition failedWith (e : exn) (st : HookState) : HookState :=
  mkHook (classificationCache st) None false (Some (message e)).

(** The hook state a call leaves when it stores [result] at [finish]. *)
Definition storedAt (fileUrl : list N) (result : ClassificationResult)
    (finish : Z) (st : HookState) : HookState :=
  mkHook (<[fileUrl := (result, finish)]> (classificationCache st)) None
    false None.

(** The request to the model is answered with status [ok] and a body
    whose [choices[0].message.content] is [content]. *)
Definition answersWith (content : list N) (response : ModelResponse) : Prop :=
  exists status statusText,
    response = PostResolved true status statusText (Normal (Some content)).

(** The event removes entries from the cache. *)
Definition isClear (e : Event) : bool :=
  match e with
  | ClearCache _ | ClearAllCache => true
  | _ => false
  end.

Definition modelThrows : ModelResponse :=
  PostResolved true 200 (str "OK") (Normal (Some inheritedCategoryText)).

(** The call is answered from the cache with [result]. *)
Definition servedFromCache (p : Progress FileStage)
    (result : ClassificationResult) : Prop :=
  p = Settled (Normal result).

(** The call has sent the request for the file and waits. *)
Definition requestsFile (fileUrl : list N) (p : Progress FileStage) : Prop :=
  exists k, p = Awaiting (FetchFile fileUrl) k.

Definition slashUrl : list N := str "https://files.example/storage/".

(** Every selected document has a fresh cache entry when its pipeline
    starts. *)
Definition allCached (w : BatchWorld) (documents : list Document)
    (st : HookState) : Prop :=
  forall i document,
    documents !! i = Some document ->
    is_Some (fresh (run_start (world_answers w i))
               (classificationCache st !! public_url document)).

(** A hook whose cache holds a result for each of the three documents of
    [exampleUser], stored at time 0. *)
Definition allStored : HookState :=
  mkHook
    (<[str "https://files.example/a.pdf" := (toResult scenarioCandidate, 0%Z)]>
       (<[str "https://files.example/b.pdf" := (failureResult, 0%Z)]>
          {[ str "https://files.example/c.png"
             := (toResult scenarioCandidate, 0%Z) ]}))
    None false (Some (str "old error")).

(** Nobody is signed in. *)
Definition signedOutWorld : BatchWorld :=
  {| world_apiKey := exampleKey;
     world_user := Normal None;
     world_table := Normal (Some exampleTable);
     world_answers := exampleAnswers |}.

(** *** The chat hook *)

Definition exampleContext : Chat.DocumentContext :=
  Chat.mkContext exampleUrl (Some (str "application/pdf"))
    (str "pan-card.pdf").

Definition userRow : Chat.ChatMessage :=
  Chat.mkMessage (str "m-2") exampleDocument exampleUser
    (str "Who issued it?") true (str "2025-01-02T00:00:00Z").

Definition aiRow : Chat.ChatMessage :=
  Chat.mkMessage (str "m-3") exampleDocument exampleUser
    (str "The Income Tax Department.") false (str "2025-01-02T00:00:01Z").

Definition chatFileOk : Chat.FileResponse :=
  Chat.FetchResolved true
    (Normal (str "data:application/pdf;base64,JVBERi0=")).

(** Every collaborator answers. *)
Definition sendOk : Chat.SendAnswers :=
  {| Chat.answer_user := Normal (Some exampleUser);
     Chat.answer_file := chatFileOk;
     Chat.answer_model :=
       Chat.PostResolved true
         (Normal (VString (str "The Income Tax Department.")));
     Chat.answer_userInsert := Chat.InsertRow userRow;
     Chat.answer_aiInsert := Chat.InsertRow aiRow;
     Chat.answer_finish := 200000 |}.

(** The second insert fails after the first has stored the question. *)
Definition sendAiInsertFails : Chat.SendAnswers :=
  {| Chat.answer_user := Normal (Some exampleUser);
     Chat.answer_file := chatFileOk;
     Chat.answer_model :=
       Chat.PostResolved true
         (Normal (VString (str "The Income Tax Department.")));
     Chat.answer_userInsert := Chat.InsertRow userRow;
     Chat.answer_aiInsert := Chat.InsertError queryFailure;
     Chat.answer_finish := 200000 |}.

(** The hook state a call of [sendMessage] leaves when it fails. *)
Definition sendFailedWith (e : exn) (st : Chat.HookState) : Chat.HookState :=
  Chat.mkHook (Chat.chatHistoryCache st) (Chat.lastFetchRef st)
    (Chat.messages st) (Some (message e)) false.

(** A history loaded while a question is on its way. *)
Definition loadedMeanwhile : list Chat.ChatMessage :=
  [ oldMessage;
    Chat.mkMessage (str "m-1b") exampleDocument exampleUser
      (str "It is a PAN card.") false (str "2025-01-01T00:00:01Z") ].

(** *** The upload page *)

(** The entry has reached one of its two final states. *)
Definition isSettled (f : Dashboard.UploadedFile) : bool :=
  match Dashboard.entry_status f with
  | Dashboard.StatusSuccess | Dashboard.StatusError => true
  | Dashboard.StatusUploading | Dashboard.StatusClassifying => false
  end.

(** Two entries show the same file. *)
Definition sameFile (f g : Dashboard.UploadedFile) : Prop :=
  Dashboard.entry_name g = Dashboard.entry_name f
  /\ Dashboard.entry_size g = Dashboard.entry_size f
  /\ Dashboard.entry_type g = Dashboard.entry_type f.

Definition panFile : Dashboard.File :=
  Dashboard.mkFile (str "pan-card.pdf") 52130 (str "application/pdf").

Definition formFile : Dashboard.File :=
  Dashboard.mkFile (str "form-16.png") 1310720 (str "image/png").

(** Every collaborator answers, the model with the scenario of the
    specification. *)
Definition uploadOk (i : nat) : Dashboard.UploadRun :=
  {| Dashboard.run_user := Normal (Some exampleUser);
     Dashboard.run_random := str "k3x9a7";
     Dashboard.run_now := 1700000000000 + N.of_nat i;
     Dashboard.run_getPublicUrl :=
       fun filePath => str "https://files.example/storage/" ++ filePath;
     Dashboard.run_uploadError := None;
     Dashboard.run_dbError := None;
     Dashboard.run_activityRejected := None;
     Dashboard.run_start := 1000;
     Dashboard.run_file := fileOk;
     Dashboard.run_model := modelOk;
     Dashboard.run_finish := 2000;
     Dashboard.run_updateError := None;
     Dashboard.run_classifyActivityRejected := None |}.

(** The page after [panFile] has been dropped on the empty page. *)
Definition afterFirstDrop : Dashboard.PageState :=
  fst (Dashboard.onDrop exampleKey uploadOk [panFile]
         (Dashboard.mkPage [] []) idle).

(** *** The document page *)

Definition examplePageDocument : DocumentPage.Document :=
  DocumentPage.mkDocument exampleDocument (str "pan-card.pdf")
    (Some (str "application/pdf")) exampleUrl.

(** The page shows the history the hook holds. *)
Definition chatPage : DocumentPage.PageState :=
  DocumentPage.mkPage (Some examplePageDocument) (str "Who issued it?")
    [oldMessage] None.

(** The page and the hook show the same messages. *)
Definition inSync (page : DocumentPage.PageState) (hook : Chat.HookState)
  : Prop :=
  DocumentPage.chatMessages page = Chat.messages hook.

(** *** Answers without labels *)

(** The five labels the text fallback looks for. *)
Definition fieldLabels : list string :=
  [ "Country of Origin:"; "Document Type:"; "Document Category:";
    "Document Subtype:"; "Confidence Score:" ]%string.

(** No label occurs in the text, in whatever case of its letters. *)
Definition unlabelled (text : list N) : Prop :=
  Forall (fun label => occurs (str label) text = false) fieldLabels.

Definition proseText : list N :=
  str "I cannot determine what kind of document this is.".

(** *** When the validator throws, and when it replaces the category *)

(** The names of the properties that a key can find above an object
    literal or on a built-in function. *)
Definition inheritedPropertyNames : list (list N) :=
  objectPrototypeProperties ++ functionPrototypeProperties
  ++ objectConstructorProperties.

(** The validator reaches [categoryTypes?.includes(details.documentType)]
    and that call throws: the country and the document type read from
    the text are not empty, and the property of the looked-up country
    that the category read names is neither nullish nor has a method
    [includes]. *)
Definition validatorThrows (text : list N) : Prop :=
  exists c t,
    matchTrimmed "Country of Origin:" text = Some c /\ c <> []
    /\ matchTrimmed "Document Type:" text = Some t /\ t <> []
    /\ includes (lookupCountry c) (categoryRead text) t = IncludesTypeError.

(** The validator replaces the category read by [category]: the country
    read is a key of the taxonomy, the document type read is not empty
    and not listed under the category read, and [category] is the first
    of [CompanyDocuments], [EmployeeDocuments] that lists it. *)
Definition repairedTo (text : list N) (category : list N) : Prop :=
  exists c t,
    matchTrimmed "Country of Origin:" text = Some c /\ isTaxonomyKey c
    /\ matchTrimmed "Document Type:" text = Some t /\ t <> []
    /\ (t ∉ typesOf c (categoryRead text))
    /\ t ∈ typesOf c category
    /\ (category = CompanyDocuments
        \/ (category = EmployeeDocuments
            /\ (t ∉ typesOf c CompanyDocuments))).

(** An employee document of India under a category that is not
    recognised, with the score written with a trailing zero. *)
Definition otherScenarioText : list N :=
  str "Country of Origin: India" ++ LF
  ++ str "Document Type: Aadhaar Card" ++ LF
  ++ str "Document Category: Other" ++ LF
  ++ str "Confidence Score: 0.90".

(** *** The pipelines of a batch *)

(** The number of steps a pipeline can still take, at most. *)
Definition remaining (pipeline : Pipeline) : nat :=
  match pipeline with
  | Delayed => 5
  | AwaitingFile _ => 4
  | AwaitingModel _ => 3
  | AwaitingUpdate _ => 2
  | AwaitingInsert _ => 1
  | SettledWith _ => 0
  end.


(** A pipeline alone, after [n] of its steps. *)
Definition solo (apiKey : option (list N)) (answers : DocumentRun)
    (document : Document) (st : HookState) (n : nat)
  : Pipeline * HookState :=
  Nat.iter n (fun s => advance apiKey answers document (fst s) (snd s))
    (Delayed, st).

(** Events that let every pipeline of [n] documents run to its end: five
    for each, in the order of the documents. *)
Definition toTheEnd (n : nat) : list nat :=
  flat_map (fun index => replicate 5 index) (seq 0 n).

(** The documents a batch works on. *)
Definition batchDocuments (w : BatchWorld) (documentIds : list (list N))
  : list Document :=
  match world_user w, world_table w with
  | Normal (Some user), Normal (Some table) =>
      selectDocuments documentIds user table
  | _, _ => []
  end.






(** The pipeline of index [i] starts at [1000 * i] ms and its call to the
    model stores its result [latency] ms later; the model endpoint fails
    for the indices in [down]. *)
Definition answersAfter (latency : Z) (down : list nat) (index : nat)
  : DocumentRun :=
  {| run_start := 1000 * Z.of_nat index;
     run_file := fileOk;
     run_model := if bool_decide (index ∈ down) then modelDown else modelOk;
     run_finish := 1000 * Z.of_nat index + latency;
     run_updateError := None;
     run_insertRejected := None |}.

(** The documents of the example with a slow model: every call takes
    2.5 s, so the three calls overlap; the second fails. *)
Definition slowWorld : BatchWorld :=
  {| world_apiKey := exampleKey;
     world_user := Normal (Some exampleUser);
     world_table := Normal (Some exampleTable);
     world_answers := answersAfter 2500 [1%nat] |}.

(** The three pipelines start one after the other, and then take their
    steps in turn. *)
Definition overlapping : list nat :=
  [0; 1; 2; 0; 1; 2; 0; 1; 2; 0; 1; 2; 0; 1; 2]%nat.

(** Two rows of one user with the same file. *)
Definition sharedTable : list Document :=
  [ mkDocument (str "doc-1") exampleUser (str "https://files.example/a.pdf");
    mkDocument (str "doc-2") exampleUser (str "https://files.example/a.pdf") ].

Definition sharedWorld (latency : Z) : BatchWorld :=
  {| world_apiKey := exampleKey;
     world_user := Normal (Some exampleUser);
     world_table := Normal (Some sharedTable);
     world_answers := answersAfter latency [] |}.
End Statements.

Import Statements.

(** ** The parser, the validator and the status policy *)

Section ExtractDocumentDetails.
Import Classifier.

(** *** Facts about the taxonomy table *)

Lemma ownProperty_elem {A : Type} (key : list N) (obj : list (list N * A)) v :
  ownProperty key obj = Some v -> In (key, v) obj.
Proof.
  induction obj as [|[k x] obj IH]; cbn; [discriminate|].
  unfold eqString. case_bool_decide as Hk.
  - intros [= ->]. subst. now left.
  - intros H. right. auto.
Qed.

Lemma taxSchema_wellFormed : forallb wellFormedCountry taxSchema = true.
Proof. vm_compute. reflexivity. Qed.

Lemma taxonomy_key country countrySchema :
  ownProperty country taxSchema = Some countrySchema ->
  truthy country = true
  /\ lookupCountry country = Country countrySchema
  /\ ownProperty CompanyDocuments countrySchema
       = Some (typesOf country CompanyDocuments)
  /\ ownProperty EmployeeDocuments countrySchema
       = Some (typesOf country EmployeeDocuments).
Proof.
  intros Hown. pose proof (ownProperty_elem _ _ _ Hown) as Hin.
  pose proof taxSchema_wellFormed as Hwf. rewrite forallb_forall in Hwf.
  specialize (Hwf _ Hin). unfold wellFormedCountry in Hwf.
  cbn [fst snd] in Hwf.
  apply andb_prop in Hwf as [Hwf H2]. apply andb_prop in Hwf as [H0 H1].
  apply bool_decide_eq_true in H1 as [l1 H1].
  apply bool_decide_eq_true in H2 as [l2 H2].
  unfold lookupCountry, typesOf. rewrite Hown, H1, H2. auto.
Qed.

(** A built-in object has neither of the two category properties. *)
Lemma host_never_lists o category documentType :
  category ∈ allCategories ->
  hostIncludes o category documentType = IncludesUndefined.
Proof.
  intros Hcat. unfold allCategories in Hcat.
  apply elem_of_cons in Hcat as [-> | Hcat];
    [| apply elem_of_cons in Hcat as [-> | Hcat]; [| inversion Hcat]].
  all: destruct o as [|name]; cbn; [reflexivity|].
  all: rewrite andb_false_r; reflexivity.
Qed.

Lemma includes_true_listed c category documentType :
  category ∈ allCategories ->
  includes (lookupCountry c) category documentType = IncludesBool true ->
  documentType ∈ typesOf c category.
Proof.
  intros Hcat. unfold lookupCountry, typesOf.
  destruct (ownProperty c taxSchema) as [cs|].
  - cbn. destruct (ownProperty category cs) as [l|]; cbn.
    + intros [= H]. now apply bool_decide_eq_true in H.
    + case_bool_decide; discriminate.
  - destruct (inherited c) as [o|]; cbn; [|discriminate].
    rewrite host_never_lists by assumption. discriminate.
Qed.

Lemma findCategory_found c documentType categories category :
  categories ⊆ allCategories ->
  findCategory (lookupCountry c) documentType categories
    = Some (Some category) ->
  category ∈ allCategories /\ documentType ∈ typesOf c category.
Proof.
  induction categories as [|cat rest IH]; cbn; [discriminate|].
  intros Hsub.
  assert (Hcat : cat ∈ allCategories) by (apply Hsub; left).
  assert (Hrest : rest ⊆ allCategories)
    by (intros x Hx; apply Hsub; now right).
  destruct (includes (lookupCountry c) cat documentType) as [|[|]|] eqn:Hinc;
    try discriminate; auto.
  intros [= <-]. split; [assumption|]. now apply includes_true_listed.
Qed.

(** *** What validation can do to a candidate *)

Lemma validateCountry_fields d :
  details_documentType (validateCountry d) = details_documentType d
  /\ details_category (validateCountry d) = details_category d
  /\ details_subtype (validateCountry d) = details_subtype d
  /\ details_confidence_score (validateCountry d)
       = details_confidence_score d.
Proof.
  unfold validateCountry. destruct (details_country d) as [c|]; [|auto].
  destruct (truthy c), (lookupCountry c); auto.
Qed.

(** The subtype and the confidence score are never touched; the category
    is either kept or replaced by one that lists the document type. *)
Lemma validateAgainstSchema_cases d d' :
  validateAgainstSchema d = Some d' ->
  details_subtype d' = details_subtype d
  /\ details_confidence_score d' = details_confidence_score d
  /\ (details_category d' = details_category d
      \/ exists c documentType,
           details_country d' = Some c
           /\ details_documentType d' = Some documentType
           /\ details_category d' ∈ allCategories
           /\ documentType ∈ typesOf c (details_category d')
           /\ documentType ∉ typesOf c (details_category d)).
Proof.
  unfold validateAgainstSchema.
  destruct (validateCountry_fields d) as (Ht & Hg & Hs & Hf).
  revert Ht Hg Hs Hf. generalize (validateCountry d) as d1.
  intros d1 Ht Hg Hs Hf. unfold validateDocumentType.
  destruct (details_country d1) as [c|] eqn:Hc; [|intros [= <-]; auto].
  destruct (details_documentType d1) as [t|] eqn:Hdt;
    [|intros [= <-]; auto].
  destruct (truthy c && truthy t); [|intros [= <-]; auto].
  destruct (includes (lookupCountry c) (details_category d1) t)
    as [|[|]|] eqn:Hinc;
    try discriminate; try (intros [= <-]; now auto).
  all: destruct (findCategory (lookupCountry c) t allCategories)
         as [[cat|]|] eqn:Hfind;
    try discriminate; intros [= <-]; cbn;
    (split; [assumption|]); (split; [assumption|]).
  all: try (left; assumption).
  all: right; exists c, t;
    destruct (findCategory_found _ _ _ _ (reflexivity _) Hfind) as [Hin Hl];
    repeat split; try assumption.
  all: rewrite <- Hg.
  all: unfold typesOf in *; unfold lookupCountry in Hinc;
    destruct (ownProperty c taxSchema) as [cs|]; [|inversion Hl].
  all: cbn in Hinc; destruct (ownProperty (details_category d1) cs) as [l|];
    cbn; [| apply not_elem_of_nil].
  all: try discriminate.
  injection Hinc as Hinc. now apply bool_decide_eq_false in Hinc.
Qed.

(** *** The pattern of a label *)

Lemma matchHere_occurs label s cap :
  matchHere label s = Some cap -> occurs label s = true.
Proof.
  unfold matchHere. destruct s; cbn;
    destruct (matchLiteral label _); congruence.
Qed.

(** When the label does not occur in the text, its pattern has no
    match. *)
Lemma absent_label_no_match label text :
  occurs label text = false -> matchLabel label text = None.
Proof.
  induction text as [|c text IH]; cbn.
  - destruct (matchHere label []) eqn:H; [|reflexivity].
    apply matchHere_occurs in H. cbn in H. congruence.
  - destruct (matchHere label (c :: text)) eqn:H.
    + apply matchHere_occurs in H. cbn in H. congruence.
    + destruct (matchLiteral label (c :: text)); [discriminate|]. exact IH.
Qed.

(** *** The status policy *)

Lemma bothPresent_spec d :
  isTruthy (details_documentType d) && isTruthy (details_country d) = true
  <-> bothPresent d.
Proof.
  unfold bothPresent, isTruthy, truthy. split.
  - destruct (details_documentType d) as [[|? ?]|],
      (details_country d) as [[|? ?]|]; try discriminate.
    intros _. eauto 10.
  - intros (t & c & -> & Ht & -> & Hc). destruct t, c; simpl; congruence.
Qed.

Lemma categoryValid_spec d :
  isDocumentCategory (details_category d) = true <-> categoryValid d.
Proof.
  unfold isDocumentCategory, categoryValid, eqString.
  rewrite orb_true_iff, !bool_decide_eq_true. reflexivity.
Qed.

Lemma countryPresent_spec d :
  bool_decide (details_country d ≠ None) = true <-> countryPresent d.
Proof. apply bool_decide_eq_true. Qed.

(** C1 (as amended).  For every candidate [d] that the text fallback
    obtains from a response (the details after validation), the returned
    status is [classified] when at least two of the three conditions
    hold, [pending_review] when exactly one holds and [non_classified]
    when none holds, where the conditions are: (a) documentType and
    country are both non-null and non-empty, (b) category is
    [CompanyDocuments] or [EmployeeDocuments], (c) country is
    non-null. *)
Theorem status_follows_policy (text : list N) (d : Details) :
  validateAgainstSchema (parseDetails text) = Some d ->
  let a := bothPresent d in
  let b := categoryValid d in
  let c := countryPresent d in
  textFallback text = Some (toResult d)
  /\ ((a /\ b) \/ (a /\ c) \/ (b /\ c) -> status (toResult d) = classified)
  /\ ((a /\ ~ b /\ ~ c) \/ (~ a /\ b /\ ~ c) \/ (~ a /\ ~ b /\ c)
      -> status (toResult d) = pending_review)
  /\ (~ a /\ ~ b /\ ~ c -> status (toResult d) = non_classified).
Proof.
  intros Hv a b c. subst a b c. split.
  { unfold textFallback. rewrite Hv. reflexivity. }
  rewrite <- bothPresent_spec, <- categoryValid_spec, <- countryPresent_spec.
  cbn [status toResult].
  unfold determineStatus, validFields, statusConditions.
  destruct (isTruthy (details_documentType d)
            && isTruthy (details_country d)),
    (isDocumentCategory (details_category d)),
    (bool_decide (details_country d ≠ None)); cbn; intuition congruence.
Qed.

(** The scenario of the specification: all three conditions hold. *)
Lemma status_follows_policy_witness :
  validateAgainstSchema (parseDetails scenarioText) = Some scenarioCandidate
  /\ textFallback scenarioText = Some (toResult scenarioCandidate)
  /\ status (toResult scenarioCandidate) = classified.
Proof.
  assert (H : validateAgainstSchema (parseDetails scenarioText)
              = Some scenarioCandidate) by (vm_compute; reflexivity).
  split; [exact H|].
  destruct (status_follows_policy scenarioText scenarioCandidate H)
    as (Hr & Hc & _).
  split; [exact Hr|]. apply Hc. left. split.
  - exists (str "PAN Card"), (str "India").
    repeat split; vm_compute; congruence.
  - left. reflexivity.
Defined.

(** C1 (as stated) fails: with a document type that is white space only
    and an unrecognised category, the candidate has a non-null
    documentType and a non-null country, so conditions (a) and (c) of the
    claim hold and the claim gives [classified]; the code counts one
    condition and returns [pending_review]. *)
Lemma status_counts_empty_type_as_absent :
  jsonBranch blankTypeText = None
  /\ validateAgainstSchema (parseDetails blankTypeText)
     = Some blankTypeCandidate
  /\ details_documentType blankTypeCandidate <> None
  /\ details_country blankTypeCandidate <> None
  /\ specifiedStatus blankTypeCandidate = classified
  /\ status (extractDocumentDetails blankTypeText) = pending_review.
Proof. vm_compute. repeat split; congruence. Qed.

(** Apart from empty strings the policy in the words of the
    specification and the code agree. *)
Lemma specified_status_agrees d :
  details_documentType d <> Some [] ->
  details_country d <> Some [] ->
  specifiedStatus d = determineStatus d.
Proof.
  intros Ht Hc. unfold specifiedStatus, determineStatus, validFields.
  unfold specifiedConditions, statusConditions.
  assert (Ha : bool_decide (details_documentType d <> None
                            /\ details_country d <> None)
               = isTruthy (details_documentType d)
                 && isTruthy (details_country d)).
  { destruct (details_documentType d) as [[|? ?]|],
      (details_country d) as [[|? ?]|]; try congruence; reflexivity. }
  rewrite Ha.
  destruct (isTruthy (details_documentType d)
            && isTruthy (details_country d)),
    (isDocumentCategory (details_category d)),
    (bool_decide (details_country d ≠ None)); reflexivity.
Qed.

(** C2 (as amended).  For a candidate whose country is a key of the
    taxonomy, whose category is one of the two recognised values and
    whose documentType is non-null and non-empty but not a member of
    [taxonomy[country][category]]: validation returns normally and keeps
    the country; when the other category of that country lists
    documentType, the category becomes that other category and
    documentType is kept; otherwise documentType becomes null and the
    category is kept. *)
Theorem validator_repairs_category (d : Details) (c documentType : list N) :
  details_country d = Some c ->
  isTaxonomyKey c ->
  details_documentType d = Some documentType ->
  documentType <> [] ->
  categoryValid d ->
  documentType ∉ typesOf c (details_category d) ->
  exists d', validateAgainstSchema d = Some d'
    /\ details_country d' = Some c
    /\ (documentType ∈ typesOf c (otherCategory (details_category d)) ->
        details_category d' = otherCategory (details_category d)
        /\ details_documentType d' = Some documentType)
    /\ (documentType ∉ typesOf c (otherCategory (details_category d)) ->
        details_documentType d' = None
        /\ details_category d' = details_category d).
Proof.
  intros Hc [cs Hown] Ht Hne Hcat Hnot.
  destruct (taxonomy_key _ _ Hown) as (Htr & Hlook & Hco & Hem).
  assert (Hdt : truthy documentType = true)
    by (destruct documentType; [congruence|reflexivity]).
  unfold validateAgainstSchema.
  assert (Hvc : validateCountry d = d).
  { unfold validateCountry. rewrite Hc, Htr, Hlook. reflexivity. }
  rewrite Hvc. unfold validateDocumentType.
  rewrite Hc, Ht, Htr, Hdt, Hlook. cbn [andb].
  destruct d as [dc dd dcat ds df]. unfold categoryValid in Hcat.
  cbn [details_country details_documentType details_category
       details_subtype details_confidence_score] in *.
  destruct Hcat as [-> | ->].
  - unfold includes at 1. rewrite Hco.
    rewrite bool_decide_eq_false_2 by assumption.
    unfold allCategories, findCategory, includes. rewrite Hco, Hem.
    rewrite (bool_decide_eq_false_2 _ Hnot).
    change (otherCategory CompanyDocuments) with EmployeeDocuments.
    case_bool_decide as Hin; eexists; (split; [reflexivity|]); cbn;
      intuition.
  - unfold includes at 1. rewrite Hem.
    rewrite bool_decide_eq_false_2 by assumption.
    unfold allCategories, findCategory, includes. rewrite Hco, Hem.
    rewrite (bool_decide_eq_false_2 _ Hnot).
    change (otherCategory EmployeeDocuments) with CompanyDocuments.
    case_bool_decide as Hin; eexists; (split; [reflexivity|]); cbn;
      intuition.
Qed.

(** "Aadhaar Card" for India under the default category: it is listed
    for employees only, so the category is reassigned. *)
Lemma validator_repairs_category_witness :
  parseDetails aadhaarText = aadhaarCandidate
  /\ exists d', validateAgainstSchema aadhaarCandidate = Some d'
       /\ details_country d' = Some (str "India")
       /\ details_category d' = EmployeeDocuments
       /\ details_documentType d' = Some (str "Aadhaar Card").
Proof.
  split; [vm_compute; reflexivity|].
  destruct (validator_repairs_category aadhaarCandidate (str "India")
              (str "Aadhaar Card"))
    as (d' & Hv & Hc & Hyes & _).
  - reflexivity.
  - vm_compute. eauto.
  - reflexivity.
  - vm_compute. congruence.
  - left. reflexivity.
  - apply (bool_decide_eq_false_1 _). vm_compute. reflexivity.
  - exists d'. split; [exact Hv|]. split; [exact Hc|].
    apply Hyes. apply (bool_decide_eq_true_1 _). vm_compute. reflexivity.
Defined.

(** C2 (as stated) fails: a documentType that is white space only is
    captured as the empty string, which is non-null and in neither list
    of India; validation leaves it in place instead of making it null. *)
Lemma validator_keeps_empty_type :
  jsonBranch blankTypeOnlyText = None
  /\ details_country (parseDetails blankTypeOnlyText) = Some (str "India")
  /\ isTaxonomyKey (str "India")
  /\ details_documentType (parseDetails blankTypeOnlyText) = Some []
  /\ ([] ∉ typesOf (str "India") CompanyDocuments)
  /\ ([] ∉ typesOf (str "India") EmployeeDocuments)
  /\ validateAgainstSchema (parseDetails blankTypeOnlyText)
     = Some (parseDetails blankTypeOnlyText)
  /\ document_type (extractDocumentDetails blankTypeOnlyText) = VString [].
Proof.
  repeat split; try (vm_compute; reflexivity).
  - vm_compute. eauto.
  - apply (bool_decide_eq_false_1 _). vm_compute. reflexivity.
  - apply (bool_decide_eq_false_1 _). vm_compute. reflexivity.
Qed.

(** *** The two branches of [extractDocumentDetails] *)

(** When the text decodes to anything but [null], the inner [try]
    returns and the text fallback is not consulted. *)
Lemma extract_json_object text members :
  JSON_parse text = Some (VObject members) ->
  let field (key : string) :=
    default VUndefined (lookupMember (str key) members) in
  jsonBranch text
  = Some (mkResult (field "Country of Origin"%string)
            (field "Document Type"%string) (field "Document Category"%string)
            (field "Document Subtype"%string) classified
            (field "Confidence Score"%string)).
Proof.
  intros H field. unfold jsonBranch. rewrite H. reflexivity.
Qed.

Lemma extract_text text :
  jsonBranch text = None ->
  extractDocumentDetails text
  = match validateAgainstSchema (parseDetails text) with
    | Some d => toResult d
    | None => failureResult
    end.
Proof.
  intros H. unfold extractDocumentDetails, textFallback. rewrite H.
  destruct (validateAgainstSchema (parseDetails text)); reflexivity.
Qed.

(** C3.  When the response decodes as a JSON object that has the five
    expected keys, the inner [try] returns the values of these keys as
    they are, with status [classified]: the result does not depend on the
    taxonomy, so a documentType the taxonomy does not list is accepted
    verbatim, and since the [try] block returns, the text fallback of the
    [catch] clause does not run and does not contribute to the result. *)
Theorem json_answer_is_trusted (text : list N)
    (members : list (list N * value)) (c t g u f : value) :
  JSON_parse text = Some (VObject members) ->
  lookupMember (str "Country of Origin") members = Some c ->
  lookupMember (str "Document Type") members = Some t ->
  lookupMember (str "Document Category") members = Some g ->
  lookupMember (str "Document Subtype") members = Some u ->
  lookupMember (str "Confidence Score") members = Some f ->
  jsonBranch text = Some (mkResult c t g u classified f)
  /\ extractDocumentDetails text = mkResult c t g u classified f.
Proof.
  intros H Hc Ht Hg Hu Hf.
  pose proof (extract_json_object text members H) as Hj. cbv beta zeta in Hj.
  rewrite Hc, Ht, Hg, Hu, Hf in Hj. cbn [default] in Hj.
  split; [exact Hj|]. unfold extractDocumentDetails. rewrite Hj. reflexivity.
Qed.

(** A JSON answer naming "Totally Unknown Doc", which no list of India
    has, is returned as it is with status [classified]. *)
Lemma json_answer_is_trusted_witness :
  JSON_parse jsonText = Some (VObject jsonMembers)
  /\ (str "Totally Unknown Doc" ∉ typesOf (str "India") CompanyDocuments)
  /\ (str "Totally Unknown Doc" ∉ typesOf (str "India") EmployeeDocuments)
  /\ extractDocumentDetails jsonText
     = mkResult (VString (str "India")) (VString (str "Totally Unknown Doc"))
         (VString CompanyDocuments) VNull classified
         (VNumber (Finite false 5 (-1))).
Proof.
  assert (H : JSON_parse jsonText = Some (VObject jsonMembers))
    by (vm_compute; reflexivity).
  split; [exact H|].
  split; [apply (bool_decide_eq_false_1 _); vm_compute; reflexivity|].
  split; [apply (bool_decide_eq_false_1 _); vm_compute; reflexivity|].
  apply (json_answer_is_trusted jsonText jsonMembers); try exact H;
    vm_compute; reflexivity.
Defined.

(** *** When validation throws, and what it does to the category *)

Lemma includes_throws_inherited countrySchema category documentType :
  includes countrySchema category documentType = IncludesTypeError ->
  category ∈ inheritedPropertyNames.
Proof.
  unfold inheritedPropertyNames. rewrite !elem_of_app.
  destruct countrySchema as [|cs|[|name]]; cbn [includes hostIncludes];
    try discriminate.
  - destruct (ownProperty category cs); [discriminate|].
    case_bool_decide; [auto | discriminate].
  - destruct (eqString category (str "__proto__")); [discriminate|].
    case_bool_decide; [auto | discriminate].
  - destruct (eqString category (str "name")); [discriminate|].
    destruct (bool_decide (category ∈ functionPrototypeProperties)) eqn:H1;
      [apply bool_decide_eq_true in H1; auto|].
    destruct (bool_decide (category ∈ objectPrototypeProperties)) eqn:H2;
      [apply bool_decide_eq_true in H2; auto|].
    cbn [orb].
    destruct (eqString name (str "Object")); cbn [andb]; [|discriminate].
    destruct (bool_decide (category ∈ objectConstructorProperties)) eqn:H3;
      [apply bool_decide_eq_true in H3; auto | discriminate].
Qed.

Lemma findCategory_key c cs documentType :
  ownProperty c taxSchema = Some cs ->
  findCategory (Country cs) documentType allCategories
  = Some (if bool_decide (documentType ∈ typesOf c CompanyDocuments)
          then Some CompanyDocuments
          else if bool_decide (documentType ∈ typesOf c EmployeeDocuments)
               then Some EmployeeDocuments
               else None).
Proof.
  intros Hown. destruct (taxonomy_key _ _ Hown) as (_ & _ & Hco & Hem).
  unfold allCategories, findCategory, includes. rewrite Hco, Hem.
  repeat case_bool_decide; reflexivity.
Qed.

Lemma findCategory_host o documentType :
  findCategory (Host o) documentType allCategories = Some None.
Proof.
  unfold allCategories, findCategory, includes.
  rewrite !host_never_lists
    by (unfold allCategories; rewrite !elem_of_cons; auto).
  reflexivity.
Qed.

(** Validation of a candidate whose country and document type are not
    empty. *)
Lemma validate_present c t g u f :
  c <> [] -> t <> [] ->
  validateAgainstSchema (mkDetails (Some c) (Some t) g u f)
  = match lookupCountry c with
    | NoCountry => Some (mkDetails None (Some t) g u f)
    | countrySchema =>
        match includes countrySchema g t with
        | IncludesTypeError => None
        | IncludesBool true => Some (mkDetails (Some c) (Some t) g u f)
        | _ =>
            match findCategory countrySchema t allCategories with
            | None => None
            | Some (Some category) =>
                Some (mkDetails (Some c) (Some t) category u f)
            | Some None => Some (mkDetails (Some c) None g u f)
            end
        end
    end.
Proof.
  intros Hc Ht.
  assert (Htc : truthy c = true) by (destruct c; [contradiction|reflexivity]).
  assert (Htt : truthy t = true) by (destruct t; [contradiction|reflexivity]).
  unfold validateAgainstSchema, validateCountry.
  cbn [details_country details_documentType details_category
       details_subtype details_confidence_score].
  rewrite Htc.
  destruct (lookupCountry c) as [|cs|o] eqn:Hlook; [reflexivity| |];
    unfold validateDocumentType;
    cbn [details_country details_documentType details_category
         details_subtype details_confidence_score];
    rewrite Htc, Htt, Hlook; reflexivity.
Qed.

(** Validation leaves a candidate without a country or a document type,
    or with an empty one, as it is, up to the country being made null. *)
Lemma validate_absent oc ot g u f :
  (forall c t, oc = Some c -> ot = Some t -> c = [] \/ t = []) ->
  exists oc',
    validateAgainstSchema (mkDetails oc ot g u f)
    = Some (mkDetails oc' ot g u f).
Proof.
  intros Habs. unfold validateAgainstSchema, validateCountry.
  cbn [details_country details_documentType details_category
       details_subtype details_confidence_score].
  destruct oc as [c|]; [|eexists; reflexivity].
  destruct (truthy c) eqn:Htc.
  - destruct (lookupCountry c) eqn:Hlook; [eexists; reflexivity| |];
      unfold validateDocumentType;
      cbn [details_country details_documentType details_category
           details_subtype details_confidence_score];
      (destruct ot as [t|]; [|eexists; reflexivity]);
      rewrite Htc;
      (destruct (Habs c t eq_refl eq_refl) as [-> | ->];
       [discriminate | eexists; reflexivity]).
  - unfold validateDocumentType.
    cbn [details_country details_documentType details_category
         details_subtype details_confidence_score].
    destruct ot as [t|]; [|eexists; reflexivity].
    rewrite Htc. eexists. reflexivity.
Qed.

Lemma present_or_absent (oc ot : option (list N)) :
  (exists c t, oc = Some c /\ ot = Some t /\ c <> [] /\ t <> [])
  \/ (forall c t, oc = Some c -> ot = Some t -> c = [] \/ t = []).
Proof.
  destruct oc as [[|c0 c]|], ot as [[|t0 t]|];
    try (right; intros c1 t1 [=] [=]; subst; auto; fail);
    try (right; intros c1 t1 H1 H2; discriminate).
  left. eexists _, _. repeat split; discriminate.
Qed.

(** What validation makes of the candidate read from a text: whether it
    throws, and the score and the category it leaves. *)
Lemma validate_text_exact text :
  (validateAgainstSchema (parseDetails text) = None <-> validatorThrows text)
  /\ forall d,
       validateAgainstSchema (parseDetails text) = Some d ->
       details_confidence_score d
       = details_confidence_score (parseDetails text)
       /\ (forall g, repairedTo text g -> details_category d = g)
       /\ ((forall g, ~ repairedTo text g) ->
           details_category d = categoryRead text).
Proof.
  unfold validatorThrows, repairedTo, categoryRead.
  assert (Hd : parseDetails text
               = mkDetails (matchTrimmed "Country of Origin:" text)
                   (matchTrimmed "Document Type:" text)
                   (default CompanyDocuments
                      (matchTrimmed "Document Category:" text))
                   (matchTrimmed "Document Subtype:" text)
                   (details_confidence_score (parseDetails text)))
    by reflexivity.
  revert Hd.
  generalize (details_confidence_score (parseDetails text)) as f.
  generalize (matchTrimmed "Document Subtype:" text) as u.
  generalize (default CompanyDocuments
                (matchTrimmed "Document Category:" text)) as g0.
  generalize (matchTrimmed "Document Type:" text) as ot.
  generalize (matchTrimmed "Country of Origin:" text) as oc.
  generalize (parseDetails text) as d0.
  intros d0 oc ot g0 u f ->.
  cbn [details_confidence_score].
  destruct (present_or_absent oc ot) as [(c & t & -> & -> & Hc & Ht) | Habs].
  2:{ destruct (validate_absent oc ot g0 u f Habs) as [oc' ->]. split.
      - split; [discriminate|].
        intros (c & t & -> & Hc & -> & Ht & _).
        destruct (Habs c t eq_refl eq_refl); contradiction.
      - intros d [= <-]. cbn [details_category details_confidence_score]. split; [reflexivity|]. split; [|reflexivity].
        intros g (c & t & -> & [cs Hcs] & -> & Ht & _).
        destruct (taxonomy_key _ _ Hcs) as [Htr _].
        destruct (Habs c t eq_refl eq_refl) as [-> | ->];
          [discriminate | contradiction]. }
  rewrite (validate_present c t g0 u f Hc Ht).
  assert (Hthrow : (exists c1 t1,
                       Some c = Some c1 /\ c1 <> [] /\ Some t = Some t1
                       /\ t1 <> []
                       /\ includes (lookupCountry c1) g0 t1
                          = IncludesTypeError)
                   <-> includes (lookupCountry c) g0 t = IncludesTypeError).
  { split.
    - intros (c1 & t1 & [= <-] & _ & [= <-] & _ & H). exact H.
    - intros H. exists c, t. auto. }
  assert (Hrep : forall g,
             (exists c1 t1,
                 Some c = Some c1 /\ isTaxonomyKey c1
                 /\ Some t = Some t1 /\ t1 <> []
                 /\ (t1 ∉ typesOf c1 g0) /\ t1 ∈ typesOf c1 g
                 /\ (g = CompanyDocuments
                     \/ (g = EmployeeDocuments
                         /\ (t1 ∉ typesOf c1 CompanyDocuments))))
             <-> isTaxonomyKey c /\ (t ∉ typesOf c g0) /\ t ∈ typesOf c g
                 /\ (g = CompanyDocuments
                     \/ (g = EmployeeDocuments
                         /\ (t ∉ typesOf c CompanyDocuments)))).
  { intros g. split.
    - intros (c1 & t1 & [= <-] & Hk & [= <-] & _ & H). auto.
    - intros (Hk & H). exists c, t. auto. }
  rewrite Hthrow. setoid_rewrite Hrep. clear Hthrow Hrep.
  destruct (lookupCountry c) as [|cs|o] eqn:Hlook; cbv zeta.
  - (* not a property: the country is made null *)
    split; [split; discriminate|].
    intros d [= <-]. cbn [details_category details_confidence_score]. split; [reflexivity|]. split; [|reflexivity].
    intros g ([cs Hcs] & _). destruct (taxonomy_key _ _ Hcs) as (_ & Hl & _).
    congruence.
  - (* a country of the taxonomy *)
    assert (Hown : ownProperty c taxSchema = Some cs).
    { unfold lookupCountry in Hlook.
      destruct (ownProperty c taxSchema) as [cs'|]; [congruence|].
      destruct (inherited c); discriminate. }
    assert (Hkey : isTaxonomyKey c) by (now exists cs).
    rewrite (findCategory_key c cs t Hown).
    assert (Htypes : typesOf c g0 = default [] (ownProperty g0 cs))
      by (unfold typesOf; now rewrite Hown).
    rewrite Htypes. unfold includes.
    destruct (ownProperty g0 cs) as [l|]; cbn [default].
    + destruct (bool_decide (t ∈ l)) eqn:Hl.
      * apply bool_decide_eq_true in Hl. split; [split; discriminate|].
        intros d [= <-]. cbn [details_category details_confidence_score]. split; [reflexivity|]. split; [|reflexivity].
        intros g (_ & Hn & _). contradiction.
      * apply bool_decide_eq_false in Hl.
        repeat case_bool_decide; (split; [split; discriminate|]);
          intros d [= <-]; cbn [details_category details_confidence_score]; (split; [reflexivity|]); split;
          try (intros g (_ & _ & Hg & [-> | [-> Hnc]]);
               reflexivity || contradiction);
          try (intros _; reflexivity); intros Hno; exfalso.
        -- apply (Hno CompanyDocuments). split; [exact Hkey|].
           split; [exact Hl|]. split; [assumption|]. now left.
        -- apply (Hno EmployeeDocuments). split; [exact Hkey|].
           split; [exact Hl|]. split; [assumption|]. right. now split.
    + case_bool_decide as Hproto.
      * split; [split; reflexivity|]. discriminate.
      * repeat case_bool_decide; (split; [split; discriminate|]);
          intros d [= <-]; cbn [details_category details_confidence_score]; (split; [reflexivity|]); split;
          try (intros g (_ & _ & Hg & [-> | [-> Hnc]]);
               reflexivity || contradiction);
          try (intros _; reflexivity); intros Hno; exfalso.
        -- apply (Hno CompanyDocuments). split; [exact Hkey|].
           split; [apply not_elem_of_nil|]. split; [assumption|]. now left.
        -- apply (Hno EmployeeDocuments). split; [exact Hkey|].
           split; [apply not_elem_of_nil|]. split; [assumption|].
           right. now split.
  - (* a built-in object *)
    assert (Hnokey : ~ isTaxonomyKey c).
    { intros [cs Hcs]. destruct (taxonomy_key _ _ Hcs) as (_ & Hl & _).
      congruence. }
    rewrite findCategory_host.
    destruct (includes (Host o) g0 t) as [|[|]|];
      (split; [split; (reflexivity || discriminate)|]);
      try discriminate; intros d [= <-]; cbn [details_category details_confidence_score]; (split; [reflexivity|]);
      (split; [|reflexivity]); intros g (Hkey & _); contradiction.
Qed.

(** The failure result is returned only when validation throws: a
    validated candidate whose category is [CompanyDocuments] has a status
    other than [non_classified]. *)
Lemma toResult_not_failure d : toResult d <> failureResult.
Proof.
  intros H.
  assert (Hc : details_category d = CompanyDocuments).
  { apply (f_equal document_category) in H.
    cbn [document_category toResult failureResult] in H. now injection H. }
  apply (f_equal status) in H. cbn [status toResult failureResult] in H.
  unfold determineStatus, validFields, statusConditions in H.
  rewrite Hc in H.
  destruct (isTruthy (details_documentType d) && isTruthy (details_country d)),
    (bool_decide (details_country d ≠ None)); cbn in H; discriminate.
Qed.

Lemma throws_iff_failure text :
  jsonBranch text = None ->
  validatorThrows text <-> extractDocumentDetails text = failureResult.
Proof.
  intros Hj. rewrite (extract_text text Hj).
  destruct (validate_text_exact text) as [Hthrows _].
  destruct (validateAgainstSchema (parseDetails text)) as [d|].
  - split.
    + intros H. apply Hthrows in H. discriminate.
    + intros H. now apply toResult_not_failure in H.
  - split; [reflexivity|]. intros _. now apply Hthrows.
Qed.

Lemma throws_needs_inherited_name text :
  validatorThrows text -> categoryRead text ∈ inheritedPropertyNames.
Proof.
  intros (c & t & _ & _ & _ & _ & H).
  eapply includes_throws_inherited, H.
Qed.

(** C4 (as amended).  On the text path the category read from the
    response is [CompanyDocuments] when the pattern of the label
    "Document Category:" has no match (in particular when the label is
    absent), and the trimmed captured text, recognised or not, when it
    has one.  The returned category is then determined as follows.  The
    failure result, with [CompanyDocuments], is returned exactly when
    the validator throws, which needs a category read that is the name
    of an inherited property.  Otherwise, when the country read is a key
    of the taxonomy and the document type read is not empty and not
    listed under the category read, the returned category is the first
    of [CompanyDocuments], [EmployeeDocuments] that lists the document
    type; and in every other case it is the category read. *)
Theorem category_read_or_repaired (text : list N) :
  jsonBranch text = None ->
  let r := extractDocumentDetails text in
  (occurs (str "Document Category:") text = false ->
   matchLabel (str "Document Category:") text = None)
  /\ (matchLabel (str "Document Category:") text = None ->
      categoryRead text = CompanyDocuments)
  /\ (forall cap,
        matchLabel (str "Document Category:") text = Some cap ->
        categoryRead text = trim cap)
  /\ (validatorThrows text <-> r = failureResult)
  /\ (validatorThrows text -> categoryRead text ∈ inheritedPropertyNames)
  /\ (~ validatorThrows text ->
      (forall g, repairedTo text g -> document_category r = VString g)
      /\ ((forall g, ~ repairedTo text g) ->
          document_category r = VString (categoryRead text))).
Proof.
  intros Hj r. subst r.
  split; [apply absent_label_no_match|].
  split; [intros Hm; unfold categoryRead, matchTrimmed; now rewrite Hm|].
  split; [intros cap Hm; unfold categoryRead, matchTrimmed; now rewrite Hm|].
  split; [apply (throws_iff_failure text Hj)|].
  split; [apply throws_needs_inherited_name|].
  intros Hno. rewrite (extract_text text Hj).
  destruct (validate_text_exact text) as [Hthrows Hcat].
  destruct (validateAgainstSchema (parseDetails text)) as [d|];
    [|exfalso; now apply Hno, Hthrows].
  destruct (Hcat d eq_refl) as (_ & Hrep & Hkeep).
  cbn [toResult document_category]. split.
  - intros g Hg. now rewrite (Hrep g Hg).
  - intros Hnone. now rewrite (Hkeep Hnone).
Qed.

(** A category line "Other" with nothing the validator could use: the
    category is returned as read.  Without a category line, the employee
    document of India is moved to [EmployeeDocuments]. *)
Lemma category_read_or_repaired_witness :
  (jsonBranch otherCategoryText = None
   /\ categoryRead otherCategoryText = str "Other"
   /\ document_category (extractDocumentDetails otherCategoryText)
      = VString (str "Other"))
  /\ (jsonBranch aadhaarText = None
      /\ categoryRead aadhaarText = CompanyDocuments
      /\ repairedTo aadhaarText EmployeeDocuments
      /\ document_category (extractDocumentDetails aadhaarText)
         = VString EmployeeDocuments).
Proof.
  assert (Hj1 : jsonBranch otherCategoryText = None)
    by (vm_compute; reflexivity).
  assert (Hj2 : jsonBranch aadhaarText = None) by (vm_compute; reflexivity).
  destruct (category_read_or_repaired otherCategoryText Hj1)
    as (_ & _ & Hread1 & _ & Hname1 & Hcat1).
  destruct (category_read_or_repaired aadhaarText Hj2)
    as (_ & Hread2 & _ & _ & Hname2 & Hcat2).
  assert (Hr1 : categoryRead otherCategoryText = str "Other")
    by (rewrite (Hread1 (str "Other")); vm_compute; reflexivity).
  assert (Hr2 : categoryRead aadhaarText = CompanyDocuments)
    by (apply Hread2; vm_compute; reflexivity).
  assert (Hno1 : ~ validatorThrows otherCategoryText).
  { intros H. apply Hname1 in H. rewrite Hr1 in H.
    apply (bool_decide_eq_true_2 _) in H. vm_compute in H. discriminate. }
  assert (Hno2 : ~ validatorThrows aadhaarText).
  { intros H. apply Hname2 in H. rewrite Hr2 in H.
    apply (bool_decide_eq_true_2 _) in H. vm_compute in H. discriminate. }
  assert (Hrep : repairedTo aadhaarText EmployeeDocuments).
  { exists (str "India"), (str "Aadhaar Card"). rewrite Hr2.
    split; [vm_compute; reflexivity|].
    split; [vm_compute; eauto|].
    split; [vm_compute; reflexivity|].
    split; [vm_compute; congruence|].
    assert (Hn : str "Aadhaar Card" ∉ typesOf (str "India") CompanyDocuments)
      by (apply (bool_decide_eq_false_1 _); vm_compute; reflexivity).
    split; [exact Hn|].
    split; [apply (bool_decide_eq_true_1 _); vm_compute; reflexivity|].
    right. split; [reflexivity | exact Hn]. }
  split.
  - split; [exact Hj1|]. split; [exact Hr1|].
    rewrite <- Hr1. apply (proj2 (Hcat1 Hno1)).
    intros g (c & t & Hc & _). vm_compute in Hc. discriminate.
  - split; [exact Hj2|]. split; [exact Hr2|]. split; [exact Hrep|].
    apply (proj1 (Hcat2 Hno2)), Hrep.
Defined.

(** C4 (as stated) fails in both halves: a captured category that is not
    recognised is returned as it is, and without any category label the
    validator can still return [EmployeeDocuments]. *)
Lemma category_is_not_always_defaulted :
  (jsonBranch otherCategoryText = None
   /\ matchLabel (str "Document Category:") otherCategoryText
      = Some (str "Other")
   /\ isDocumentCategory (str "Other") = false
   /\ document_category (extractDocumentDetails otherCategoryText)
      = VString (str "Other")
   /\ str "Other" <> CompanyDocuments)
  /\ (jsonBranch aadhaarText = None
      /\ occurs (str "Document Category:") aadhaarText = false
      /\ document_category (extractDocumentDetails aadhaarText)
         = VString EmployeeDocuments
      /\ EmployeeDocuments <> CompanyDocuments).
Proof. vm_compute. repeat split; congruence. Qed.

(** C5 (as amended).  On the text path the failure result, whose
    confidence score is [0], is returned exactly when the validator
    throws, which needs a category read that is the name of an inherited
    property.  In every other case the confidence score is [0] when the
    pattern of the label "Confidence Score:" has no match (in particular
    when the label is absent), and when it has one the score is what
    [parseFloat] makes of the trimmed captured text, stored as it is: a
    text that does not parse gives [NaN], not [0]. *)
Theorem confidence_is_parseFloat (text : list N) :
  jsonBranch text = None ->
  let r := extractDocumentDetails text in
  (occurs (str "Confidence Score:") text = false ->
   matchLabel (str "Confidence Score:") text = None)
  /\ (validatorThrows text <-> r = failureResult)
  /\ (validatorThrows text -> categoryRead text ∈ inheritedPropertyNames)
  /\ (~ validatorThrows text ->
      (matchLabel (str "Confidence Score:") text = None ->
       confidence_score r = VNumber zero)
      /\ (forall cap,
            matchLabel (str "Confidence Score:") text = Some cap ->
            confidence_score r = VNumber (parseFloat (trim cap))
            /\ (parseFloat (trim cap) = NaN ->
                confidence_score r = VNumber NaN))).
Proof.
  intros Hj r. subst r.
  split; [apply absent_label_no_match|].
  split; [apply (throws_iff_failure text Hj)|].
  split; [apply throws_needs_inherited_name|].
  intros Hno. rewrite (extract_text text Hj).
  destruct (validate_text_exact text) as [Hthrows Hcat].
  destruct (validateAgainstSchema (parseDetails text)) as [d|];
    [|exfalso; now apply Hno, Hthrows].
  destruct (Hcat d eq_refl) as (Hf & _).
  cbn [toResult confidence_score]. rewrite Hf.
  unfold parseDetails, matchTrimmed. cbn [details_confidence_score].
  split.
  - intros ->. reflexivity.
  - intros cap ->. cbn. split; [reflexivity|]. now intros ->.
Qed.

(** The scenario of the specification: the score 0.92 is read from its
    line.  With an unrecognised category and the score written 0.90 the
    score is the number 0.9. *)
Lemma confidence_is_parseFloat_witness :
  (jsonBranch scenarioText = None
   /\ matchLabel (str "Confidence Score:") scenarioText = Some (str "0.92")
   /\ confidence_score (extractDocumentDetails scenarioText)
      = VNumber (Finite false 92 (-2)))
  /\ (jsonBranch otherScenarioText = None
      /\ matchLabel (str "Confidence Score:") otherScenarioText
         = Some (str "0.90")
      /\ confidence_score (extractDocumentDetails otherScenarioText)
         = VNumber (Finite false 9 (-1))).
Proof.
  assert (Hj1 : jsonBranch scenarioText = None) by (vm_compute; reflexivity).
  assert (Hj2 : jsonBranch otherScenarioText = None)
    by (vm_compute; reflexivity).
  assert (Hm1 : matchLabel (str "Confidence Score:") scenarioText
                = Some (str "0.92")) by (vm_compute; reflexivity).
  assert (Hm2 : matchLabel (str "Confidence Score:") otherScenarioText
                = Some (str "0.90")) by (vm_compute; reflexivity).
  destruct (confidence_is_parseFloat scenarioText Hj1)
    as (_ & _ & Hname1 & Hscore1).
  destruct (confidence_is_parseFloat otherScenarioText Hj2)
    as (_ & _ & Hname2 & Hscore2).
  assert (Hno1 : ~ validatorThrows scenarioText).
  { intros H. apply Hname1 in H.
    apply (bool_decide_eq_true_2 _) in H. vm_compute in H. discriminate. }
  assert (Hno2 : ~ validatorThrows otherScenarioText).
  { intros H. apply Hname2 in H.
    apply (bool_decide_eq_true_2 _) in H. vm_compute in H. discriminate. }
  split.
  - split; [exact Hj1|]. split; [exact Hm1|].
    rewrite (proj1 (proj2 (Hscore1 Hno1) _ Hm1)). vm_compute. reflexivity.
  - split; [exact Hj2|]. split; [exact Hm2|].
    rewrite (proj1 (proj2 (Hscore2 Hno2) _ Hm2)). vm_compute. reflexivity.
Defined.

(** C5 (as stated) fails in its second half: the label is present, the
    captured text "high" does not parse, and the returned score is [NaN],
    not [0]. *)
Lemma unparsable_confidence_is_NaN :
  jsonBranch highConfidenceText = None
  /\ matchLabel (str "Confidence Score:") highConfidenceText
     = Some (str "high")
  /\ parseFloat (str "high") = NaN
  /\ confidence_score (extractDocumentDetails highConfidenceText)
     = VNumber NaN
  /\ VNumber NaN <> VNumber zero.
Proof. vm_compute. repeat split; congruence. Qed.

(** [parseFloat] rounds to binary64: a literal beyond the range is
    infinite or zero, and two literals that round to the same value are
    the same number. *)
Example parseFloat_rounds_to_binary64 :
  parseFloat (str "1e999") = Infinity false
  /\ parseFloat (str "-1e999") = Infinity true
  /\ parseFloat (str "1e-999") = zero
  /\ parseFloat (str "0.90") = parseFloat (str "0.9")
  /\ parseFloat (str "0.1000000000000000055511151231257827")
     = Finite false 1 (-1)
  /\ parseFloat (str "9007199254740993") = Finite false 9007199254740992 0
  /\ parseFloat (str "1.7976931348623159e308") = Infinity false
  /\ parseFloat (str "5e-324") = Finite false 5 (-324)
  /\ parseFloat (str "2e-324") = zero.
Proof. vm_compute. repeat split. Qed.

(** *** The scenarios of the specification *)

Example scenario_pan_card :
  extractDocumentDetails scenarioText
  = {| country := VString (str "India");
       document_type := VString (str "PAN Card");
       document_category := VString CompanyDocuments;
       document_subtype := VNull;
       status := classified;
       confidence_score := VNumber (Finite false 92 (-2)) |}.
Proof. vm_compute. reflexivity. Qed.

(** A document type that neither list of India has is made null; the
    category and the country still count, so the status is
    [classified]. *)
Example scenario_unknown_document :
  extractDocumentDetails unknownDocumentText
  = {| country := VString (str "India");
       document_type := VNull;
       document_category := VString CompanyDocuments;
       document_subtype := VNull;
       status := classified;
       confidence_score := VNumber zero |}.
Proof. vm_compute. reflexivity. Qed.

(** The text [null] decodes as JSON, but reading a property of [null]
    throws inside the inner [try], so the text fallback answers. *)
Example null_falls_back_to_text :
  JSON_parse (str "null") = Some VNull
  /\ jsonBranch (str "null") = None
  /\ extractDocumentDetails (str "null")
     = {| country := VNull; document_type := VNull;
          document_category := VString CompanyDocuments;
          document_subtype := VNull; status := pending_review;
          confidence_score := VNumber zero |}.
Proof. repeat split; vm_compute; reflexivity. Qed.

(** A category that names a property of [Object.prototype] makes the
    validator throw; the outer [catch] returns the failure result. *)
Example inherited_category_fails :
  validateAgainstSchema (parseDetails inheritedCategoryText) = None
  /\ extractDocumentDetails inheritedCategoryText = failureResult.
Proof. split; vm_compute; reflexivity. Qed.

End ExtractDocumentDetails.

(** ** [JSON.parse]: the fuel is enough *)

Section JSONFuel.

Lemma headIs_Some c s t : headIs c s = Some t -> s = c :: t.
Proof.
  destruct s as [|c' s']; cbn; [discriminate|].
  destruct (N.eqb_spec c' c); [|discriminate]. intros [= <-]. now subst.
Qed.

Lemma skipWS_length s : (length (skipWS s) <= length s)%nat.
Proof.
  induction s as [|c s IH]; cbn; [lia|].
  destruct (isJSONWhiteSpace c); cbn; lia.
Qed.

Lemma takeDigits_length s ds rest :
  takeDigits s = (ds, rest) -> (length s = length ds + length rest)%nat.
Proof.
  revert ds rest. induction s as [|c s IH]; cbn; intros ds rest.
  - intros [= <- <-]. reflexivity.
  - destruct (isDigit c).
    + destruct (takeDigits s) as [ds' rest'].
      intros [= <- <-]. cbn. rewrite (IH _ _ eq_refl). lia.
    + intros [= <- <-]. cbn. lia.
Qed.

Lemma takeSign_length s neg t :
  takeSign s = (neg, t) -> (length t <= length s)%nat.
Proof.
  unfold takeSign.
  destruct (headIs 43 s) as [t1|] eqn:H1.
  { apply headIs_Some in H1 as ->. intros [= <- <-]. cbn. lia. }
  destruct (headIs 45 s) as [t2|] eqn:H2.
  { apply headIs_Some in H2 as ->. intros [= <- <-]. cbn. lia. }
  intros [= <- <-]. lia.
Qed.

Lemma takeExponent_length s e rest :
  takeExponent s = (e, rest) -> (length rest <= length s)%nat.
Proof.
  unfold takeExponent. destruct s as [|c s']; [intros [= <- <-]; cbn; lia|].
  destruct ((c =? 101) || (c =? 69)); [|intros [= <- <-]; lia].
  destruct (takeSign s') as [neg s''] eqn:Hs.
  apply takeSign_length in Hs.
  destruct (takeDigits s'') as [[|d ds] rest'] eqn:Hd;
    intros [= <- <-]; [lia|].
  apply takeDigits_length in Hd. cbn in *. lia.
Qed.

Lemma parseChars_length s :
  forall cs rest,
    parseChars s = Some (cs, rest) -> (length rest < length s)%nat.
Proof.
  induction s as [s IH] using (induction_ltof1 _ (@length N)).
  unfold ltof in IH.
  intros cs rest. destruct s as [|c s]; cbn; [discriminate|].
  destruct (c =? 34); [intros [= <- <-]; lia|].
  destruct (c =? 92).
  - destruct s as [|e s1]; [discriminate|].
    destruct (e =? 117).
    + destruct s1 as [|a [|b [|c' [|d s2]]]]; try discriminate.
      destruct (hex4 a b c' d); [|discriminate].
      destruct (parseChars s2) as [[cs' rest']|] eqn:Hp; [|discriminate].
      intros [= <- <-]. apply IH in Hp; cbn in *; lia.
    + destruct (unescape e); [|discriminate].
      destruct (parseChars s1) as [[cs' rest']|] eqn:Hp; [|discriminate].
      intros [= <- <-]. apply IH in Hp; cbn in *; lia.
  - destruct (c <? 32); [discriminate|].
    destruct (parseChars s) as [[cs' rest']|] eqn:Hp; [|discriminate].
    intros [= <- <-]. apply IH in Hp; cbn in *; lia.
Qed.

Lemma parseJSONNumber_length s n rest :
  parseJSONNumber s = Some (n, rest) -> (length rest < length s)%nat.
Proof.
  unfold parseJSONNumber.
  assert (Hs0 : forall neg s0,
    (match headIs 45 s with Some t => (true, t) | None => (false, s) end)
      = (neg, s0) -> (length s0 <= length s)%nat).
  { intros neg s0. destruct (headIs 45 s) as [t|] eqn:H.
    - apply headIs_Some in H as ->. intros [= <- <-]. cbn. lia.
    - intros [= <- <-]. lia. }
  destruct (match headIs 45 s with
            | Some t => (true, t) | None => (false, s) end) as [neg s0].
  specialize (Hs0 _ _ eq_refl).
  destruct (takeDigits s0) as [[|d ds] s1] eqn:Hd; [discriminate|].
  apply takeDigits_length in Hd. cbn in Hd.
  destruct (leadingZero (d :: ds)); [discriminate|].
  destruct (headIs 46 s1) as [s2|] eqn:Hdot.
  - apply headIs_Some in Hdot as ->.
    destruct (takeDigits s2) as [[|f fs] s3] eqn:Hf; [discriminate|].
    apply takeDigits_length in Hf.
    destruct (takeExponent s3) as [e s4] eqn:He.
    apply takeExponent_length in He. intros [= <- <-]. cbn in *. lia.
  - destruct (takeExponent s1) as [e s2] eqn:He.
    apply takeExponent_length in He. intros [= <- <-]. lia.
Qed.

Lemma expect_length word v s v' rest :
  word <> [] ->
  expect word v s = Some (v', rest) -> (length rest < length s)%nat.
Proof.
  unfold expect. intros Hw.
  destruct (isPrefix word s) eqn:Hp; [|discriminate]. intros [= <- <-].
  destruct word as [|a w]; [contradiction|].
  destruct s as [|c s]; [discriminate|]. cbn. rewrite length_drop. lia.
Qed.

Lemma parseScalar_length c s v rest :
  parseScalar c (c :: s) = Some (v, rest) ->
  (length rest < length (c :: s))%nat.
Proof.
  unfold parseScalar.
  destruct (c =? 34).
  { change (drop 1 (c :: s)) with s.
    destruct (parseChars s) as [[cs s']|] eqn:Hp; [|discriminate].
    intros [= <- <-]. apply parseChars_length in Hp. cbn. lia. }
  assert (Hword : forall (word : string) w,
            word <> ""%string ->
            expect (str word) w (c :: s) = Some (v, rest) ->
            (length rest < length (c :: s))%nat).
  { intros word w Hw. apply expect_length.
    destruct word; [contradiction | discriminate]. }
  destruct (c =? 116); [apply Hword; discriminate|].
  destruct (c =? 102); [apply Hword; discriminate|].
  destruct (c =? 110); [apply Hword; discriminate|].
  destruct ((c =? 45) || isDigit c); [|discriminate].
  destruct (parseJSONNumber (c :: s)) as [[n s']|] eqn:Hp; [|discriminate].
  intros [= <- <-]. now apply parseJSONNumber_length in Hp.
Qed.

(** A successful parse has consumed something, and succeeds in the same
    way with any fuel that is at least the number of characters it has
    consumed. *)
Lemma parse_fuel (fuel : nat) :
  (forall s v rest,
      parseValue fuel s = Some (v, rest) ->
      (length rest < length s)%nat
      /\ forall fuel', (length s - length rest <= fuel')%nat ->
                       parseValue fuel' s = Some (v, rest))
  /\ (forall s ms rest,
        parseMembers fuel s = Some (ms, rest) ->
        (length rest < length s)%nat
        /\ forall fuel', (length s - length rest <= fuel')%nat ->
                         parseMembers fuel' s = Some (ms, rest))
  /\ (forall s vs rest,
        parseElements fuel s = Some (vs, rest) ->
        (length rest < length s)%nat
        /\ forall fuel', (length s - length rest <= fuel')%nat ->
                         parseElements fuel' s = Some (vs, rest)).
Proof.
  induction fuel as [|fuel (IHv & IHm & IHe)];
    [repeat split; discriminate|].
  split; [|split].
  - intros s v rest. cbn [parseValue].
    pose proof (skipWS_length s) as Hws.
    destruct (skipWS s) as [|c s1] eqn:Hskip; [discriminate|].
    cbn [length] in Hws.
    destruct (c =? 123) eqn:Hobj.
    { pose proof (skipWS_length s1) as Hws1.
      destruct (headIs 125 (skipWS s1)) as [s2|] eqn:Hclose.
      - apply headIs_Some in Hclose. rewrite Hclose in Hws1. cbn in Hws1.
        intros [= <- <-]. split; [lia|].
        intros [|fuel'] Hf; [lia|]. cbn [parseValue].
        rewrite Hskip, Hobj, Hclose. cbn [headIs].
        rewrite N.eqb_refl. reflexivity.
      - destruct (parseMembers fuel s1) as [[ms s2]|] eqn:Hm; [|discriminate].
        intros [= <- <-]. destruct (IHm _ _ _ Hm) as [Hlt Hfuel].
        split; [lia|]. intros [|fuel'] Hf; [lia|]. cbn [parseValue].
        rewrite Hskip, Hobj, Hclose, Hfuel by lia. reflexivity. }
    destruct (c =? 91) eqn:Harr.
    { pose proof (skipWS_length s1) as Hws1.
      destruct (headIs 93 (skipWS s1)) as [s2|] eqn:Hclose.
      - apply headIs_Some in Hclose. rewrite Hclose in Hws1. cbn in Hws1.
        intros [= <- <-]. split; [lia|].
        intros [|fuel'] Hf; [lia|]. cbn [parseValue].
        rewrite Hskip, Hobj, Harr, Hclose. cbn [headIs].
        rewrite N.eqb_refl. reflexivity.
      - destruct (parseElements fuel s1) as [[vs s2]|] eqn:He;
          [|discriminate].
        intros [= <- <-]. destruct (IHe _ _ _ He) as [Hlt Hfuel].
        split; [lia|]. intros [|fuel'] Hf; [lia|]. cbn [parseValue].
        rewrite Hskip, Hobj, Harr, Hclose, Hfuel by lia. reflexivity. }
    intros Hp. pose proof (parseScalar_length _ _ _ _ Hp) as Hlt.
    cbn [length] in Hlt. split; [lia|].
    intros [|fuel'] Hf; [lia|]. cbn [parseValue].
    rewrite Hskip, Hobj, Harr. exact Hp.
  - intros s ms rest. cbn [parseMembers].
    pose proof (skipWS_length s) as Hws.
    destruct (headIs 34 (skipWS s)) as [s1|] eqn:Hq; [|discriminate].
    pose proof (headIs_Some _ _ _ Hq) as Hq'. rewrite Hq' in Hws.
    cbn [length] in Hws.
    destruct (parseChars s1) as [[key s2]|] eqn:Hk; [|discriminate].
    pose proof (parseChars_length _ _ _ Hk) as Hk'.
    pose proof (skipWS_length s2) as Hws2.
    destruct (headIs 58 (skipWS s2)) as [s3|] eqn:Hcolon; [|discriminate].
    pose proof (headIs_Some _ _ _ Hcolon) as Hcolon'.
    rewrite Hcolon' in Hws2. cbn [length] in Hws2.
    destruct (parseValue fuel s3) as [[v s4]|] eqn:Hv; [|discriminate].
    destruct (IHv _ _ _ Hv) as [Hvlt Hvfuel].
    pose proof (skipWS_length s4) as Hws4.
    destruct (headIs 44 (skipWS s4)) as [s5|] eqn:Hcomma.
    + pose proof (headIs_Some _ _ _ Hcomma) as Hcomma'.
      rewrite Hcomma' in Hws4. cbn [length] in Hws4.
      destruct (parseMembers fuel s5) as [[ms' s6]|] eqn:Hm; [|discriminate].
      destruct (IHm _ _ _ Hm) as [Hmlt Hmfuel].
      intros [= <- <-]. split; [lia|].
      intros [|fuel'] Hf; [lia|]. cbn [parseMembers].
      rewrite Hq, Hk, Hcolon, Hvfuel by lia.
      rewrite Hcomma, Hmfuel by lia. reflexivity.
    + destruct (headIs 125 (skipWS s4)) as [s5|] eqn:Hclose; [|discriminate].
      pose proof (headIs_Some _ _ _ Hclose) as Hclose'.
      rewrite Hclose' in Hws4. cbn [length] in Hws4.
      intros [= <- <-]. split; [lia|].
      intros [|fuel'] Hf; [lia|]. cbn [parseMembers].
      rewrite Hq, Hk, Hcolon, Hvfuel by lia.
      rewrite Hcomma, Hclose. reflexivity.
  - intros s vs rest. cbn [parseElements].
    destruct (parseValue fuel s) as [[v s1]|] eqn:Hv; [|discriminate].
    destruct (IHv _ _ _ Hv) as [Hvlt Hvfuel].
    pose proof (skipWS_length s1) as Hws1.
    destruct (headIs 44 (skipWS s1)) as [s2|] eqn:Hcomma.
    + pose proof (headIs_Some _ _ _ Hcomma) as Hcomma'.
      rewrite Hcomma' in Hws1. cbn [length] in Hws1.
      destruct (parseElements fuel s2) as [[vs' s3]|] eqn:He; [|discriminate].
      destruct (IHe _ _ _ He) as [Helt Hefuel].
      intros [= <- <-]. split; [lia|].
      intros [|fuel'] Hf; [lia|]. cbn [parseElements].
      rewrite Hvfuel by lia. rewrite Hcomma, Hefuel by lia. reflexivity.
    + destruct (headIs 93 (skipWS s1)) as [s2|] eqn:Hclose; [|discriminate].
      pose proof (headIs_Some _ _ _ Hclose) as Hclose'.
      rewrite Hclose' in Hws1. cbn [length] in Hws1.
      intros [= <- <-]. split; [lia|].
      intros [|fuel'] Hf; [lia|]. cbn [parseElements].
      rewrite Hvfuel by lia. rewrite Hcomma, Hclose. reflexivity.
Qed.

(** The fuel that [JSON_parse] gives is enough: a text that some fuel
    parses is parsed, to the same value, by [JSON_parse]. *)
Lemma JSON_parse_fuel text fuel v rest :
  parseValue fuel text = Some (v, rest) ->
  skipWS rest = [] ->
  JSON_parse text = Some v.
Proof.
  intros Hp Hrest. destruct (parse_fuel fuel) as (Hv & _ & _).
  destruct (Hv _ _ _ Hp) as [_ Hfuel]. unfold JSON_parse.
  rewrite Hfuel by lia. now rewrite Hrest.
Qed.

(** A text whose first character cannot start a JSON text does not
    decode: an answer in the prescribed format, which starts with the
    label "Country of Origin:", goes to the text fallback. *)
Lemma first_character_not_JSON c rest :
  startsJSON c = false -> JSON_parse (c :: rest) = None.
Proof.
  unfold startsJSON. intros H.
  do 8 (apply orb_false_elim in H as [H ?]).
  unfold JSON_parse. cbn [parseValue skipWS]. rewrite H.
  unfold parseScalar.
  repeat match goal with
         | Hc : (c =? _) = false |- _ => rewrite Hc; clear Hc
         end.
  match goal with Hd : isDigit c = false |- _ => rewrite Hd end.
  reflexivity.
Qed.

Lemma labelled_answer_takes_text_path rest :
  Classifier.jsonBranch (str "Country of Origin:" ++ rest) = None.
Proof.
  unfold Classifier.jsonBranch.
  change (str "Country of Origin:" ++ rest)
    with (67 :: (str "ountry of Origin:" ++ rest)).
  now rewrite first_character_not_JSON.
Qed.

End JSONFuel.

(** ** The classification client: in-flight marker and cache *)

Section ClassifyDocument.
Import Classifier.

Lemma fresh_Some {A : Type} (now timestamp : Z) (result : A) :
  (now - timestamp < CACHE_EXPIRATION)%Z ->
  fresh now (Some (result, timestamp)) = Some result.
Proof. intros H. unfold fresh. now rewrite bool_decide_eq_true_2. Qed.

(** *** Where the marker is cleared *)

Lemma rethrow_marker {K : Type} e st (p : Progress K) st' :
  rethrow e st = (p, st') ->
  lastClassificationRef st' = None
  /\ classificationCache st' = classificationCache st.
Proof. unfold rethrow. intros [= <- <-]. auto. Qed.

(** The first part of a call either leaves the state as it is (early
    rejection, cache hit), or sets the marker and awaits the file, or
    fails and clears the marker. *)
Lemma classifyDocument_cases apiKey now fileUrl st :
  let '(p, st') := classifyDocument apiKey now fileUrl st in
  classificationCache st' = classificationCache st
  /\ ((lastClassificationRef st = Some fileUrl
       /\ p = Settled (Throw alreadyInProgress) /\ st' = st)
      \/ (lastClassificationRef st <> Some fileUrl
          /\ (exists result,
                 fresh now (classificationCache st !! fileUrl) = Some result
                 /\ p = Settled (Normal result) /\ st' = st))
      \/ (entersTry now fileUrl st
          /\ ((exists k, p = Awaiting (FetchFile fileUrl) k
                         /\ file_fileUrl k = fileUrl
                         /\ lastClassificationRef st' = Some fileUrl)
              \/ (p = Settled (Throw notConfigured)
                  /\ lastClassificationRef st' = None)))).
Proof.
  unfold classifyDocument, entersTry. case_bool_decide as Href.
  { split; [reflexivity|]. left. auto. }
  destruct (fresh now (classificationCache st !! fileUrl)) as [result|] eqn:Hf.
  { split; [reflexivity|]. right; left. eauto. }
  destruct apiKey as [key|]; [destruct (truthy key)|]; cbn;
    (split; [reflexivity|]); right; right; (split; [auto|]).
  - left. eexists. eauto.
  - right. auto.
  - right. auto.
Qed.

Lemma afterFile_settled k fileResponse st outcome st' :
  classifyDocument_afterFile k fileResponse st = (Settled outcome, st') ->
  lastClassificationRef st' = None
  /\ classificationCache st' = classificationCache st
  /\ exists e, outcome = Throw e.
Proof.
  unfold classifyDocument_afterFile.
  destruct fileResponse as [e | [|] [content | e]]; try discriminate;
    unfold rethrow; intros [= <- <-]; eauto.
Qed.

Lemma afterFile_awaiting k fileResponse st request k' st' :
  classifyDocument_afterFile k fileResponse st = (Awaiting request k', st') ->
  st' = st /\ model_fileUrl k' = file_fileUrl k.
Proof.
  unfold classifyDocument_afterFile.
  destruct fileResponse as [e | [|] [content | e]]; try discriminate.
  intros [= <- <- <-]. auto.
Qed.

Lemma afterModel_marker k response now st p st' :
  classifyDocument_afterModel k response now st = (p, st') ->
  lastClassificationRef st' = None.
Proof.
  unfold classifyDocument_afterModel.
  destruct response as [e | [|] status statusText [content | e]];
    try (unfold rethrow; intros [= <- <-]; reflexivity).
  destruct (isTruthy content); unfold rethrow; intros [= <- <-]; reflexivity.
Qed.

(** A successful end stores the result under the file URL with the clock
    of that moment. *)
Lemma afterModel_success k response now st result st' :
  classifyDocument_afterModel k response now st
    = (Settled (Normal result), st') ->
  classificationCache st' !! model_fileUrl k = Some (result, now)
  /\ lastClassificationRef st' = None.
Proof.
  unfold classifyDocument_afterModel.
  destruct response as [e | [|] status statusText [content | e]];
    try (unfold rethrow; discriminate).
  destruct (isTruthy content); [|unfold rethrow; discriminate].
  intros [= <- <-]. cbn. split; [apply lookup_insert_eq | reflexivity].
Qed.

Lemma not_rejected_when_idle apiKey now fileUrl st :
  lastClassificationRef st = None ->
  fst (classifyDocument apiKey now fileUrl st)
    <> Settled (Throw alreadyInProgress).
Proof.
  intros Href. unfold classifyDocument. rewrite Href.
  rewrite bool_decide_eq_false_2 by discriminate.
  destruct (fresh now (classificationCache st !! fileUrl)); [discriminate|].
  destruct apiKey as [key|]; [destruct (truthy key)|]; cbn;
    try discriminate; intros [= H]; vm_compute in H; discriminate.
Qed.

(** C7.  A call for a file URL that the in-flight marker holds is
    rejected at once with the error "Classification already in
    progress": it settles without awaiting anything, so no request is
    sent, and it leaves the hook state as it is, so nothing is queued. *)
Theorem in_flight_call_is_rejected (apiKey : option (list N)) (now : Z)
    (fileUrl : list N) (st : HookState) :
  lastClassificationRef st = Some fileUrl ->
  classifyDocument apiKey now fileUrl st
  = (Settled (Throw (Error (str "Classification already in progress"))), st).
Proof.
  intros Href. unfold classifyDocument.
  rewrite bool_decide_eq_true_2 by assumption. reflexivity.
Qed.

Lemma in_flight_call_is_rejected_witness :
  lastClassificationRef busy = Some exampleUrl
  /\ classifyDocument exampleKey 1000 exampleUrl busy
     = (Settled (Throw (Error (str "Classification already in progress"))),
        busy).
Proof.
  split; [reflexivity|].
  apply (in_flight_call_is_rejected exampleKey 1000 exampleUrl busy).
  reflexivity.
Defined.

Lemma run_marker apiKey start fileUrl fileResponse response finish st :
  entersTry start fileUrl st ->
  lastClassificationRef
    (snd (classifyDocument_run apiKey start fileUrl fileResponse response
            finish st)) = None.
Proof.
  intros [Href Hfresh]. unfold classifyDocument_run.
  pose proof (classifyDocument_cases apiKey start fileUrl st) as Hc.
  destruct (classifyDocument apiKey start fileUrl st) as [[outcome|rq k] st1].
  - destruct Hc as (_ & [(H & _) | [(_ & r & H & _) | (_ & [H | H])]]).
    + contradiction.
    + congruence.
    + destruct H as (k & H & _). discriminate.
    + apply H.
  - destruct (classifyDocument_afterFile k fileResponse st1)
      as [[outcome|rq' k'] st2] eqn:Hf.
    + apply (afterFile_settled _ _ _ _ _ Hf).
    + destruct (classifyDocument_afterModel k' response finish st2)
        as [[outcome|rq'' []] st3] eqn:Hm.
      apply (afterModel_marker _ _ _ _ _ _ Hm).
Qed.

(** C8 (as amended).  A call that enters its [try] block (it passed the
    in-flight guard and found no fresh cache entry) leaves the marker
    cleared when it settles, on success and on every failure: this holds
    for each of the three parts of the call whatever the hook state is
    when that part runs, and so for a call followed from start to end;
    with the marker cleared, a later call for the same file URL is not
    rejected as already in progress.  The two early exits do not touch
    the marker: an early rejection and a cache hit leave the hook state
    as it is. *)
Theorem marker_cleared_after_try (fileUrl : list N) :
  (forall apiKey now st outcome st',
      entersTry now fileUrl st ->
      classifyDocument apiKey now fileUrl st = (Settled outcome, st') ->
      lastClassificationRef st' = None)
  /\ (forall k fileResponse st outcome st',
        classifyDocument_afterFile k fileResponse st = (Settled outcome, st') ->
        lastClassificationRef st' = None)
  /\ (forall k response now st outcome st',
        classifyDocument_afterModel k response now st
          = (Settled outcome, st') ->
        lastClassificationRef st' = None)
  /\ (forall apiKey start fileResponse response finish st,
        entersTry start fileUrl st ->
        lastClassificationRef
          (snd (classifyDocument_run apiKey start fileUrl fileResponse
                  response finish st)) = None)
  /\ (forall apiKey now st,
        lastClassificationRef st = None ->
        fst (classifyDocument apiKey now fileUrl st)
          <> Settled (Throw alreadyInProgress))
  /\ (forall apiKey now st,
        ~ entersTry now fileUrl st ->
        snd (classifyDocument apiKey now fileUrl st) = st).
Proof.
  repeat split.
  - intros apiKey now st outcome st' [Href Hfresh] Hcall.
    pose proof (classifyDocument_cases apiKey now fileUrl st) as Hc.
    rewrite Hcall in Hc.
    destruct Hc as (_ & [(H & _) | [(_ & r & H & _) | (_ & [H | H])]]).
    + contradiction.
    + congruence.
    + destruct H as (k & H & _). discriminate.
    + apply H.
  - intros k fileResponse st outcome st' H.
    apply (afterFile_settled _ _ _ _ _ H).
  - intros k response now st outcome st' H.
    apply (afterModel_marker _ _ _ _ _ _ H).
  - intros. now apply run_marker.
  - intros. now apply not_rejected_when_idle.
  - intros apiKey now st Hnot.
    pose proof (classifyDocument_cases apiKey now fileUrl st) as Hc.
    destruct (classifyDocument apiKey now fileUrl st) as [p st1].
    destruct Hc as (_ & [(_ & _ & H) | [(_ & r & _ & _ & H) | (H & _)]]);
      [exact H | exact H | contradiction].
Qed.

(** A call whose request to the model is answered by status 503 fails
    and clears the marker. *)
Lemma marker_cleared_after_try_witness :
  entersTry 1000 exampleUrl idle
  /\ fst (classifyDocument_run exampleKey 1000 exampleUrl fileOk modelDown
            2000 idle)
     = Throw (Error (str "OpenRouter API error: 503 Service Unavailable"))
  /\ lastClassificationRef
       (snd (classifyDocument_run exampleKey 1000 exampleUrl fileOk modelDown
               2000 idle)) = None.
Proof.
  assert (H : entersTry 1000 exampleUrl idle).
  { split; [discriminate | reflexivity]. }
  split; [exact H|]. split; [vm_compute; reflexivity|].
  destruct (marker_cleared_after_try exampleUrl) as (_ & _ & _ & Hrun & _).
  exact (Hrun exampleKey 1000%Z fileOk modelDown 2000%Z idle H).
Defined.

(** C8 (as stated) fails on the early rejection: that exit is taken
    before the [try] block, so its [finally] does not run and the marker
    still holds the file URL.  ([busy] is the hook after a first call
    for [exampleUrl] has begun.) *)
Lemma early_rejection_keeps_marker :
  snd (classifyDocument exampleKey 500 exampleUrl idle) = busy
  /\ fst (classifyDocument exampleKey 1000 exampleUrl busy)
     = Settled (Throw alreadyInProgress)
  /\ lastClassificationRef
       (snd (classifyDocument exampleKey 1000 exampleUrl busy))
     = Some exampleUrl
  /\ Some exampleUrl <> (None : option (list N)).
Proof. repeat split; try (vm_compute; reflexivity). discriminate. Qed.

(** *** The cache entry of a file URL under the events of other URLs *)

Lemma step_keeps_entry fileUrl entry e st :
  concerns fileUrl e = false ->
  settledEntry fileUrl entry st ->
  settledEntry fileUrl entry (step st e).
Proof.
  unfold concerns, settledEntry. intros Hother [Hcache Href].
  destruct e as [apiKey now url | k fileResponse | k response now | url |];
    cbn in Hother; try discriminate;
    apply bool_decide_eq_false in Hother; cbn [step].
  - pose proof (classifyDocument_cases apiKey now url st) as Hc.
    destruct (classifyDocument apiKey now url st) as [p st']. cbn [snd].
    destruct Hc as (Hsame & Hc). rewrite Hsame. split; [assumption|].
    destruct Hc as [(_ & _ & ->) | [(_ & r & _ & _ & ->) | (_ & [H | H])]];
      try assumption.
    + destruct H as (k & _ & _ & ->). congruence.
    + destruct H as (_ & ->). discriminate.
  - destruct (classifyDocument_afterFile k fileResponse st)
      as [[outcome|rq k'] st'] eqn:Hf; cbn [snd].
    + destruct (afterFile_settled _ _ _ _ _ Hf) as (-> & -> & _).
      split; [assumption | discriminate].
    + destruct (afterFile_awaiting _ _ _ _ _ _ Hf) as (-> & _). auto.
  - destruct (classifyDocument_afterModel k response now st)
      as [p st'] eqn:Hm; cbn [snd].
    rewrite (afterModel_marker _ _ _ _ _ _ Hm). split; [|discriminate].
    revert Hm. unfold classifyDocument_afterModel.
    destruct response as [e | [|] status statusText [content | e]];
      try (unfold rethrow; intros [= <- <-]; assumption).
    destruct (isTruthy content); unfold rethrow; intros [= <- <-];
      [|assumption].
    cbn. rewrite lookup_insert_ne by assumption. assumption.
  - unfold clearCache. cbn. rewrite lookup_delete_ne by assumption. auto.
Qed.

Lemma run_keeps_entry fileUrl entry events st :
  Forall (fun e => concerns fileUrl e = false) events ->
  settledEntry fileUrl entry st ->
  settledEntry fileUrl entry (run events st).
Proof.
  unfold run. intros Hall. revert st.
  induction Hall as [|e events He _ IH]; intros st Hst; cbn; [assumption|].
  apply IH. now apply step_keeps_entry.
Qed.

(** C6 (as amended).  When a call for [fileUrl] that queried the model
    completes successfully, its result is cached with the clock of that
    moment ([finish]).  If after that only events of other file URLs
    happen (calls, answers to their requests, removals of their cache
    entries), a call for [fileUrl] at a time [now] with
    [now - finish < 5 minutes] returns the identical result from the
    cache: it settles without awaiting anything, so no request is sent,
    and it leaves the hook state as it is. *)
Theorem second_call_served_from_cache (fileUrl : list N)
    (response : ModelResponse) (finish : Z) (st0 st1 : HookState)
    (result : ClassificationResult) (events : list Event)
    (apiKey : option (list N)) (now : Z) :
  classifyDocument_afterModel (mkModelStage fileUrl) response finish st0
    = (Settled (Normal result), st1) ->
  Forall (fun e => concerns fileUrl e = false) events ->
  (now - finish < CACHE_EXPIRATION)%Z ->
  classifyDocument apiKey now fileUrl (run events st1)
  = (Settled (Normal result), run events st1).
Proof.
  intros Hfirst Hevents Hnow.
  destruct (afterModel_success _ _ _ _ _ _ Hfirst) as [Hcache Href].
  cbn [model_fileUrl] in Hcache.
  assert (Hst : settledEntry fileUrl (result, finish) st1).
  { split; [assumption|]. rewrite Href. discriminate. }
  destruct (run_keeps_entry _ _ events _ Hevents Hst) as [Hc Hr].
  unfold classifyDocument. rewrite bool_decide_eq_false_2 by assumption.
  rewrite Hc, (fresh_Some _ _ _ Hnow). reflexivity.
Qed.

(** A first call that queries the model at time 1000 and stores its
    result at time 2000; then a failed call for another file and the
    removal of that file's entry; the second call comes one millisecond
    before the five minutes are over. *)
Lemma second_call_served_from_cache_witness :
  classifyDocument_afterModel (mkModelStage exampleUrl) modelOk 2000 busy
  = (Settled (Normal (toResult scenarioCandidate)), afterFirst)
  /\ Forall (fun e => concerns exampleUrl e = false) otherEvents
  /\ (301999 - 2000 < CACHE_EXPIRATION)%Z
  /\ classifyDocument exampleKey 301999 exampleUrl (run otherEvents afterFirst)
     = (Settled (Normal (toResult scenarioCandidate)),
        run otherEvents afterFirst).
Proof.
  assert (H1 : classifyDocument_afterModel (mkModelStage exampleUrl) modelOk
                 2000 busy
               = (Settled (Normal (toResult scenarioCandidate)), afterFirst))
    by (vm_compute; reflexivity).
  assert (H2 : Forall (fun e => concerns exampleUrl e = false) otherEvents)
    by (repeat constructor).
  assert (H3 : (301999 - 2000 < CACHE_EXPIRATION)%Z) by reflexivity.
  split; [exact H1|]. split; [exact H2|]. split; [exact H3|].
  exact (second_call_served_from_cache exampleUrl modelOk 2000
           busy afterFirst (toResult scenarioCandidate) otherEvents
           exampleKey 301999 H1 H2 H3).
Defined.

(** C6 (as stated) fails: the five minutes run from the moment the entry
    was written, and a cache hit does not renew it.  A first call stores
    its result at time 2000.  A call at 4 minutes completes successfully
    from the cache.  The next call, 2 minutes after that one and with no
    cache clear in between, finds the entry expired and sends a new
    request for the file. *)
Lemma cache_hit_does_not_renew_entry :
  classifyDocument_run exampleKey 1000 exampleUrl fileOk modelOk 2000 idle
  = (Normal (toResult scenarioCandidate), afterFirst)
  /\ classifyDocument exampleKey 240000 exampleUrl afterFirst
     = (Settled (Normal (toResult scenarioCandidate)), afterFirst)
  /\ (360000 - 240000 < CACHE_EXPIRATION)%Z
  /\ classifyDocument exampleKey 360000 exampleUrl afterFirst
     = (Awaiting (FetchFile exampleUrl)
          (mkFileStage (str "sk-or-example") exampleUrl),
        mkHook (classificationCache afterFirst) (Some exampleUrl) true None).
Proof. repeat split; vm_compute; reflexivity. Qed.

End ClassifyDocument.

(** ** The batch verifier *)

Section BatchVerify.
Import Classifier.

(** The text printed for a count is its decimal numeral. *)
Lemma digits_acc u : forall acc : positive,
  fold_left (fun a c => 10 * a + (c - 48)) (digitsOfUint u) (Npos acc)
  = Npos (Pos.of_uint_acc u acc).
Proof.
  induction u; intros acc; cbn [digitsOfUint fold_left Pos.of_uint_acc];
    try reflexivity; rewrite <- IHu; f_equal; lia.
Qed.

Lemma digits_of_uint u : digitsValue (digitsOfUint u) = N.of_uint u.
Proof.
  unfold digitsValue, N.of_uint.
  induction u; cbn [digitsOfUint fold_left Pos.of_uint]; try reflexivity;
    try exact IHu.
  all: rewrite <- digits_acc; reflexivity.
Qed.

Lemma numberToString_value n : digitsValue (numberToString n) = n.
Proof.
  unfold numberToString. rewrite digits_of_uint.
  apply DecimalN.Unsigned.of_to.
Qed.

Lemma numberToString_digits n :
  Forall (fun c => isDigit c = true) (numberToString n).
Proof.
  unfold numberToString. induction (N.to_uint n); cbn; constructor;
    try reflexivity; assumption.
Qed.


(** *** One pipeline *)

Lemma advance_remaining apiKey answers document pipeline st :
  (remaining (fst (advance apiKey answers document pipeline st))
   <= pred (remaining pipeline))%nat.
Proof.
  destruct pipeline as [|k|k|r|r|o]; cbn [advance remaining pred].
  - destruct (fresh (run_start answers)
                (classificationCache st !! public_url document));
      [cbn; lia|].
    destruct (classifyDocument apiKey (run_start answers)
                (public_url document) st) as [[[r | e] | request k] st'];
      cbn; lia.
  - destruct (classifyDocument_afterFile k (run_file answers) st)
      as [[[r | e] | request k'] st']; cbn; lia.
  - destruct (classifyDocument_afterModel k (run_model answers)
                (run_finish answers) st)
      as [[[r | e] | request k'] st']; [cbn; lia | cbn; lia | destruct k'].
  - destruct (run_updateError answers); cbn; lia.
  - destruct (run_insertRejected answers); cbn; lia.
  - cbn. lia.
Qed.

Lemma advance_started apiKey answers document pipeline st :
  started (fst (advance apiKey answers document pipeline st)) = true
  \/ pipeline = Delayed /\ False.
Proof.
  left. pose proof (advance_remaining apiKey answers document pipeline st) as H.
  destruct (fst (advance apiKey answers document pipeline st));
    [|reflexivity..].
  destruct pipeline; cbn in H; lia.
Qed.





Lemma solo_S apiKey answers document st n :
  solo apiKey answers document st (S n)
  = advance apiKey answers document
      (fst (solo apiKey answers document st n))
      (snd (solo apiKey answers document st n)).
Proof. unfold solo. now rewrite Nat.iter_succ. Qed.




Lemma solo_started apiKey answers document st m :
  fst (solo apiKey answers document st (S m)) <> Delayed.
Proof.
  rewrite solo_S.
  destruct (advance_started apiKey answers document
              (fst (solo apiKey answers document st m))
              (snd (solo apiKey answers document st m)))
    as [H | [_ []]].
  intros Heq. rewrite Heq in H. discriminate.
Qed.

(** *** The events of a schedule *)

Lemma deliver_cases apiKey answers documents index pipelines st :
  deliver apiKey answers documents index (pipelines, st) = (pipelines, st)
  \/ exists document pipeline,
       documents !! index = Some document
       /\ pipelines !! index = Some pipeline
       /\ (started pipeline = true
           \/ forallb started (take index pipelines) = true)
       /\ deliver apiKey answers documents index (pipelines, st)
          = (<[index := fst (advance apiKey (answers index) document
                               pipeline st)]> pipelines,
             snd (advance apiKey (answers index) document pipeline st)).
Proof.
  unfold deliver.
  destruct (documents !! index) as [document|]; [|now left].
  destruct (pipelines !! index) as [pipeline|] eqn:Hp; [|now left].
  destruct (started pipeline || forallb started (take index pipelines))
    eqn:Hen; [|now left].
  right. exists document, pipeline. split; [reflexivity|].
  split; [reflexivity|]. split; [now apply orb_true_iff|].
  now destruct (advance apiKey (answers index) document pipeline st).
Qed.

Lemma deliver_length apiKey answers documents index state :
  length (fst (deliver apiKey answers documents index state))
  = length (fst state).
Proof.
  destruct state as [pipelines st].
  destruct (deliver_cases apiKey answers documents index pipelines st)
    as [-> | (d & p & _ & _ & _ & ->)]; [reflexivity|].
  cbn. apply length_insert.
Qed.

Lemma deliverAll_length apiKey answers documents schedule : forall state,
  length (fst (deliverAll apiKey answers documents schedule state))
  = length (fst state).
Proof.
  unfold deliverAll.
  induction schedule as [|index schedule IH]; intros state; [reflexivity|].
  cbn [fold_left]. rewrite IH. apply deliver_length.
Qed.

Lemma deliverAll_app apiKey answers documents s1 s2 state :
  deliverAll apiKey answers documents (s1 ++ s2) state
  = deliverAll apiKey answers documents s2
      (deliverAll apiKey answers documents s1 state).
Proof. unfold deliverAll. apply fold_left_app. Qed.

Lemma outcomes_lookup pipelines : forall results,
  outcomes pipelines = Some results ->
  length results = length pipelines
  /\ forall i,
       pipelines !! i = SettledWith <$> results !! i.
Proof.
  induction pipelines as [|p pipelines IH]; intros results; cbn [outcomes].
  - intros [= <-]. split; [reflexivity|]. intros i. reflexivity.
  - destruct p as [| | | | |o]; try discriminate.
    destruct (outcomes pipelines) as [rs|]; [|discriminate].
    intros [= <-]. destruct (IH rs eq_refl) as [Hlen Hi].
    split; [cbn; now rewrite Hlen|]. intros [|i]; [reflexivity|]. apply Hi.
Qed.

Lemma outcomes_settled pipelines :
  (forall i pipeline,
      pipelines !! i = Some pipeline -> remaining pipeline = 0%nat) ->
  is_Some (outcomes pipelines).
Proof.
  induction pipelines as [|p pipelines IH]; intros Hall; cbn [outcomes];
    [eauto|].
  pose proof (Hall 0%nat p eq_refl) as Hp.
  destruct p; try discriminate.
  destruct IH as [rs ->]; [|eauto].
  intros i q Hq. apply (Hall (S i) q Hq).
Qed.

(** Once every pipeline has settled, no event changes anything. *)
Lemma deliver_settled apiKey answers documents index pipelines st results :
  outcomes pipelines = Some results ->
  deliver apiKey answers documents index (pipelines, st) = (pipelines, st).
Proof.
  intros Hout.
  destruct (deliver_cases apiKey answers documents index pipelines st)
    as [-> | (d & p & _ & Hp & _ & ->)]; [reflexivity|].
  destruct (outcomes_lookup _ _ Hout) as [_ Hi]. rewrite Hi in Hp.
  destruct (results !! index) as [o|] eqn:Ho; [|discriminate].
  injection Hp as <-. cbn [advance fst snd].
  rewrite list_insert_id; [reflexivity|]. now rewrite Hi, Ho.
Qed.

Lemma deliverAll_settled apiKey answers documents schedule pipelines st
    results :
  outcomes pipelines = Some results ->
  deliverAll apiKey answers documents schedule (pipelines, st)
  = (pipelines, st).
Proof.
  intros Hout. unfold deliverAll.
  induction schedule as [|index schedule IH]; [reflexivity|].
  cbn [fold_left]. now rewrite (deliver_settled _ _ _ _ _ _ _ Hout).
Qed.

Lemma started_prefix pipelines : forall index,
  (forall j pipeline,
      (j < index)%nat -> pipelines !! j = Some pipeline ->
      started pipeline = true) ->
  forallb started (take index pipelines) = true.
Proof.
  induction pipelines as [|p pipelines IH]; intros [|index] Hall;
    try reflexivity.
  cbn [take forallb]. rewrite (Hall 0%nat p); [|lia | reflexivity].
  apply IH. intros j q Hj Hq. apply (Hall (S j) q); [lia | exact Hq].
Qed.

(** Steps for one pipeline, as many as it can still take, settle it and
    leave the others where they are. *)
Lemma complete_one apiKey answers documents index document : forall k
    pipelines st pipeline,
  documents !! index = Some document ->
  (forall j q,
      (j < index)%nat -> pipelines !! j = Some q -> started q = true) ->
  pipelines !! index = Some pipeline ->
  (remaining pipeline <= k)%nat ->
  let after :=
    deliverAll apiKey answers documents (replicate k index) (pipelines, st)
  in
  (forall j, j <> index -> fst after !! j = pipelines !! j)
  /\ exists q, fst after !! index = Some q /\ remaining q = 0%nat.
Proof.
  induction k as [|k IH]; intros pipelines st pipeline Hd Hbefore Hp Hrem
    after; subst after.
  - cbn. split; [reflexivity|]. exists pipeline. split; [exact Hp | lia].
  - cbn [replicate]. unfold deliverAll. cbn [fold_left].
    fold (deliverAll apiKey answers documents (replicate k index)).
    assert (Hstep : deliver apiKey answers documents index (pipelines, st)
                    = (<[index := fst (advance apiKey (answers index)
                                         document pipeline st)]> pipelines,
                       snd (advance apiKey (answers index) document
                              pipeline st))).
    { unfold deliver. rewrite Hd, Hp.
      rewrite (started_prefix pipelines index Hbefore), orb_true_r.
      now destruct (advance apiKey (answers index) document pipeline st). }
    rewrite Hstep.
    set (q := fst (advance apiKey (answers index) document pipeline st)).
    assert (Hlt : (index < length pipelines)%nat)
      by (apply lookup_lt_is_Some; eauto).
    destruct (IH (<[index := q]> pipelines)
                (snd (advance apiKey (answers index) document pipeline st))
                q Hd) as [Hother Hat].
    + intros j r Hj Hr. rewrite list_lookup_insert_ne in Hr by lia.
      now apply (Hbefore j).
    + now apply list_lookup_insert_eq.
    + pose proof (advance_remaining apiKey (answers index) document
                    pipeline st) as H. fold q in H. lia.
    + split; [|exact Hat].
      intros j Hj. rewrite Hother by exact Hj.
      apply list_lookup_insert_ne. congruence.
Qed.

Lemma complete_all apiKey answers documents : forall n pipelines st,
  (n <= length documents)%nat ->
  length pipelines = length documents ->
  let after :=
    deliverAll apiKey answers documents (toTheEnd n) (pipelines, st) in
  (forall j, (n <= j)%nat -> fst after !! j = pipelines !! j)
  /\ forall j q,
       (j < n)%nat -> fst after !! j = Some q -> remaining q = 0%nat.
Proof.
  induction n as [|n IH]; intros pipelines st Hn Hlen after; subst after.
  - cbn. split; [reflexivity|]. intros j q Hj. lia.
  - unfold toTheEnd. rewrite seq_S, flat_map_app. cbn [flat_map Nat.add].
    rewrite app_nil_r, deliverAll_app.
    fold (toTheEnd n).
    destruct (IH pipelines st ltac:(lia) Hlen) as [Hrest Hdone].
    pose proof (deliverAll_length apiKey answers documents (toTheEnd n)
                  (pipelines, st)) as Hlen1. cbn [fst] in Hlen1.
    destruct (deliverAll apiKey answers documents (toTheEnd n)
                (pipelines, st)) as [pipelines1 st1]. cbn [fst] in *.
    destruct (lookup_lt_is_Some_2 documents n ltac:(lia)) as [document Hd].
    destruct (lookup_lt_is_Some_2 pipelines1 n ltac:(lia)) as [p Hp].
    destruct (complete_one apiKey answers documents n document 5
                pipelines1 st1 p Hd) as [Hother [q [Hq Hq0]]].
    + intros j r Hj Hr. specialize (Hdone j r Hj Hr).
      destruct r; (discriminate || reflexivity).
    + exact Hp.
    + destruct p; cbn; lia.
    + split.
      * intros j Hj. rewrite Hother by lia. apply Hrest. lia.
      * intros j r Hj Hr. destruct (decide (j = n)) as [-> | Hne].
        -- rewrite Hq in Hr. congruence.
        -- rewrite Hother in Hr by exact Hne. apply (Hdone j r); [lia|].
           exact Hr.
Qed.

(** Every run can be brought to its end. *)
Lemma settleAll_completes apiKey answers documents schedule st :
  is_Some (settleAll apiKey answers documents
             (schedule ++ toTheEnd (length documents)) st).
Proof.
  unfold settleAll. rewrite deliverAll_app.
  pose proof (deliverAll_length apiKey answers documents schedule
                (replicate (length documents) Delayed, st)) as Hlen.
  cbn [fst] in Hlen. rewrite length_replicate in Hlen.
  destruct (deliverAll apiKey answers documents schedule
              (replicate (length documents) Delayed, st))
    as [pipelines1 st1]. cbn [fst] in Hlen.
  destruct (complete_all apiKey answers documents (length documents)
              pipelines1 st1 ltac:(lia) Hlen) as [_ Hdone].
  pose proof (deliverAll_length apiKey answers documents
                (toTheEnd (length documents)) (pipelines1, st1)) as Hlen2.
  destruct (deliverAll apiKey answers documents
              (toTheEnd (length documents)) (pipelines1, st1))
    as [pipelines2 st2]. cbn [fst] in *.
  destruct (outcomes_settled pipelines2) as [results ->]; [|eauto].
  intros i p Hp. apply (Hdone i p); [|exact Hp].
  apply lookup_lt_Some in Hp. lia.
Qed.

(** A run that has come to its end is not changed by further events. *)
Lemma settleAll_stable apiKey answers documents schedule more st x :
  settleAll apiKey answers documents schedule st = Some x ->
  settleAll apiKey answers documents (schedule ++ more) st = Some x.
Proof.
  unfold settleAll. rewrite deliverAll_app.
  destruct (deliverAll apiKey answers documents schedule
              (replicate (length documents) Delayed, st))
    as [pipelines1 st1].
  destruct (outcomes pipelines1) as [results|] eqn:Hout; [|discriminate].
  intros [= <-]. rewrite (deliverAll_settled _ _ _ _ _ _ _ Hout), Hout.
  reflexivity.
Qed.

Lemma settleAll_count apiKey answers documents schedule st results st' :
  settleAll apiKey answers documents schedule st = Some (results, st') ->
  length results = length documents.
Proof.
  unfold settleAll.
  pose proof (deliverAll_length apiKey answers documents schedule
                (replicate (length documents) Delayed, st)) as Hlen.
  cbn [fst] in Hlen. rewrite length_replicate in Hlen.
  destruct (deliverAll apiKey answers documents schedule
              (replicate (length documents) Delayed, st))
    as [pipelines1 st1]. cbn [fst] in Hlen.
  destruct (outcomes pipelines1) as [rs|] eqn:Hout; [|discriminate].
  intros [= <- <-]. destruct (outcomes_lookup _ _ Hout) as [H _]. congruence.
Qed.

(** *** A pipeline among the others *)



(** *** Whose outcome it is *)






(** Two rows with the same file.  When the second pipeline starts while
    the first still waits for its answers, it is rejected by the
    in-flight guard; when it starts after the first has stored its
    result, it is served from the cache. *)
Example shared_url_depends_on_schedule :
  fst <$> batchVerify (sharedWorld 1500) [0; 1; 0; 0; 0; 0]%nat exampleIds
            idle
  = Some {| success := true;
            result_error := Some (str "1 documents failed to process") |}
  /\ fst <$> settleAll exampleKey (answersAfter 1500 []) sharedTable
               [0; 1; 0; 0; 0; 0]%nat (dispatched idle)
     = Some [ Fulfilled
                (mkDocument (str "doc-1") exampleUser
                   (str "https://files.example/a.pdf"))
                (toResult scenarioCandidate);
              Rejected alreadyInProgress ]
  /\ fst <$> batchVerify (sharedWorld 500) [0; 0; 0; 0; 0; 1]%nat exampleIds
               idle
     = Some {| success := true; result_error := None |}.
Proof. vm_compute. repeat split. Qed.

End BatchVerify.

(** ** The chat history loader *)

Section GetChatHistory.
Import Chat.

(** C10.  When the query that [getChatHistory] awaits fails (it resolves
    with an error, or it is rejected), the call returns the empty list
    instead of throwing, stores the message of the error in the [error]
    state, clears the fetch marker, and leaves the chat-history cache and
    the message list as they are. *)
Theorem failed_history_query_is_swallowed (documentId : list N)
    (response : QueryResponse) (err : exn) (now : Z) (st : HookState) :
  response = QueryError err \/ response = QueryRejected err ->
  getChatHistory_afterQuery documentId response now st
  = ([], mkHook (chatHistoryCache st) None (messages st)
           (Some (message err)) (isSending st))
  /\ chatHistoryCache (snd (getChatHistory_afterQuery documentId response
                              now st)) !! documentId
     = chatHistoryCache st !! documentId.
Proof.
  intros [-> | ->]; split; reflexivity.
Qed.

(** The history of a document is asked for after its cache entry has
    expired, and the query comes back with an error. *)
Lemma failed_history_query_is_swallowed_witness :
  getChatHistory 100000 exampleDocument chatIdle
  = (Awaiting (SelectChat exampleDocument), chatFetching)
  /\ getChatHistory_afterQuery exampleDocument (QueryError queryFailure)
       100200 chatFetching
     = ([], mkHook (chatHistoryCache chatFetching) None [oldMessage]
              (Some (str "JWT expired")) false).
Proof.
  split; [vm_compute; reflexivity|].
  apply (failed_history_query_is_swallowed exampleDocument
           (QueryError queryFailure) queryFailure 100200 chatFetching).
  left. reflexivity.
Defined.

End GetChatHistory.

(** * Further properties *)

(** ** The text fallback, end to end *)

Section TextFallback.
Import Classifier.

Lemma validateCountry_country d c :
  details_country (validateCountry d) = Some c ->
  details_country d = Some c.
Proof.
  unfold validateCountry. destruct (details_country d) as [c0|] eqn:Hc;
    [|now rewrite Hc].
  destruct (truthy c0), (lookupCountry c0); cbn; congruence.
Qed.

Lemma validateDocumentType_country d d' :
  validateDocumentType d = Some d' ->
  details_country d' = details_country d.
Proof.
  unfold validateDocumentType.
  destruct (details_country d) as [c|] eqn:Hc; [|intros [= <-]; auto].
  destruct (details_documentType d) as [t|]; [|intros [= <-]; auto].
  destruct (truthy c && truthy t); [|intros [= <-]; auto].
  destruct (includes (lookupCountry c) (details_category d) t) as [|[|]|];
    try discriminate; try (intros [= <-]; now auto).
  all: destruct (findCategory (lookupCountry c) t allCategories)
         as [[cat|]|]; try discriminate; intros [= <-]; cbn; auto.
Qed.

Lemma includes_true_own c category documentType :
  isTaxonomyKey c ->
  includes (lookupCountry c) category documentType = IncludesBool true ->
  documentType ∈ typesOf c category.
Proof.
  intros [cs Hown]. unfold lookupCountry, typesOf. rewrite Hown. cbn.
  destruct (ownProperty category cs) as [l|]; cbn.
  - intros [= H]. now apply bool_decide_eq_true in H.
  - case_bool_decide; discriminate.
Qed.

(** After validation a non-empty document type of a taxonomy country is
    listed under the category of the candidate. *)
Lemma validated_type_listed d d' c documentType :
  validateAgainstSchema d = Some d' ->
  details_country d' = Some c ->
  isTaxonomyKey c ->
  details_documentType d' = Some documentType ->
  documentType <> [] ->
  documentType ∈ typesOf c (details_category d').
Proof.
  unfold validateAgainstSchema. intros Hv Hc Hkey Ht Hne.
  pose proof (validateDocumentType_country _ _ Hv) as Hsame.
  rewrite Hc in Hsame. revert Hv Hsame.
  generalize (validateCountry d) as d1. intros d1 Hv Hc1.
  destruct Hkey as [cs Hown].
  destruct (taxonomy_key _ _ Hown) as (Htr & Hlook & _).
  assert (Hkey : isTaxonomyKey c) by (now exists cs).
  unfold validateDocumentType in Hv. rewrite <- Hc1 in Hv.
  destruct (details_documentType d1) as [t|] eqn:Ht1.
  2:{ injection Hv as <-. congruence. }
  rewrite Htr in Hv. cbn [andb] in Hv.
  destruct (truthy t) eqn:Htt.
  2:{ injection Hv as <-. rewrite Ht1 in Ht. injection Ht as ->.
      destruct documentType; [contradiction | discriminate]. }
  destruct (includes (lookupCountry c) (details_category d1) t)
    as [|[|]|] eqn:Hinc; try discriminate.
  2:{ injection Hv as <-. rewrite Ht1 in Ht. injection Ht as <-.
      now apply includes_true_own. }
  all: destruct (findCategory (lookupCountry c) t allCategories)
         as [[cat|]|] eqn:Hfind; try discriminate;
    injection Hv as <-; cbn in *; try discriminate.
  all: injection Ht as <-;
    now destruct (findCategory_found _ _ _ _ (reflexivity _) Hfind).
Qed.

Lemma validate_country d d' c :
  validateAgainstSchema d = Some d' ->
  details_country d' = Some c ->
  details_country d = Some c.
Proof.
  unfold validateAgainstSchema. intros Hv Hc.
  apply validateCountry_country.
  now rewrite <- (validateDocumentType_country _ _ Hv).
Qed.

Lemma validate_documentType d d' t :
  validateAgainstSchema d = Some d' ->
  details_documentType d' = Some t ->
  details_documentType d = Some t.
Proof.
  unfold validateAgainstSchema.
  destruct (validateCountry_fields d) as (Ht & _). rewrite <- Ht.
  generalize (validateCountry d) as d1. intros d1.
  unfold validateDocumentType.
  destruct (details_country d1) as [c|]; [|now intros [= <-]].
  destruct (details_documentType d1) as [t1|] eqn:Ht1;
    [|intros [= <-]; congruence].
  destruct (truthy c && truthy t1); [|intros [= <-]; congruence].
  destruct (includes (lookupCountry c) (details_category d1) t1)
    as [|[|]|]; try discriminate; try (intros [= <-]; congruence).
  all: destruct (findCategory (lookupCountry c) t1 allCategories)
    as [[cat|]|]; try discriminate; intros [= <-]; cbn; congruence.
Qed.

(** With a taxonomy country and a recognised category the validator
    does not throw and keeps the country. *)
Lemma validate_recognised d c :
  details_country d = Some c ->
  isTaxonomyKey c ->
  categoryValid d ->
  exists d', validateAgainstSchema d = Some d'
             /\ details_country d' = Some c.
Proof.
  intros Hc [cs Hown] Hcat.
  destruct (taxonomy_key _ _ Hown) as (Htr & Hlook & Hco & Hem).
  unfold validateAgainstSchema.
  assert (Hvc : validateCountry d = d).
  { unfold validateCountry. rewrite Hc, Htr, Hlook. reflexivity. }
  rewrite Hvc. unfold validateDocumentType. rewrite Hc.
  destruct (details_documentType d) as [t|]; [|eauto].
  destruct (truthy c && truthy t); [|eauto]. rewrite Hlook.
  assert (Hinc : exists b,
             includes (Country cs) (details_category d) t = IncludesBool b).
  { unfold includes. destruct Hcat as [-> | ->];
      [rewrite Hco | rewrite Hem]; eauto. }
  destruct Hinc as [[|] ->]; [eauto|].
  unfold allCategories, findCategory, includes. rewrite Hco, Hem.
  repeat case_bool_decide; eauto.
Qed.

(** X1.  On the text path, a returned document type that is not empty,
    for a returned country that is a key of the taxonomy, is listed in
    the taxonomy under that country and the returned category. *)
Theorem returned_type_is_listed (text : list N) (c documentType cat : list N) :
  jsonBranch text = None ->
  country (extractDocumentDetails text) = VString c ->
  isTaxonomyKey c ->
  document_type (extractDocumentDetails text) = VString documentType ->
  documentType <> [] ->
  document_category (extractDocumentDetails text) = VString cat ->
  documentType ∈ typesOf c cat.
Proof.
  intros Hj. rewrite (extract_text text Hj).
  destruct (validateAgainstSchema (parseDetails text)) as [d|] eqn:Hv;
    [|discriminate].
  cbn [country document_type document_category toResult].
  intros Hc Hkey Ht Hne [= <-].
  apply (validated_type_listed _ _ _ _ Hv); try assumption.
  - destruct (details_country d); cbn in Hc; congruence.
  - destruct (details_documentType d); cbn in Ht; congruence.
Qed.

Lemma returned_type_is_listed_witness :
  jsonBranch aadhaarText = None
  /\ country (extractDocumentDetails aadhaarText) = VString (str "India")
  /\ document_type (extractDocumentDetails aadhaarText)
     = VString (str "Aadhaar Card")
  /\ document_category (extractDocumentDetails aadhaarText)
     = VString EmployeeDocuments
  /\ str "Aadhaar Card" ∈ typesOf (str "India") EmployeeDocuments.
Proof.
  assert (Hj : jsonBranch aadhaarText = None) by (vm_compute; reflexivity).
  assert (Hc : country (extractDocumentDetails aadhaarText)
               = VString (str "India")) by (vm_compute; reflexivity).
  assert (Ht : document_type (extractDocumentDetails aadhaarText)
               = VString (str "Aadhaar Card")) by (vm_compute; reflexivity).
  assert (Hg : document_category (extractDocumentDetails aadhaarText)
               = VString EmployeeDocuments) by (vm_compute; reflexivity).
  repeat (split; [assumption|]).
  apply (returned_type_is_listed aadhaarText (str "India")
           (str "Aadhaar Card") EmployeeDocuments Hj Hc); try assumption.
  - vm_compute. eauto.
  - vm_compute. congruence.
Defined.

(** X2.  On the text path, a country that is not empty, not a key of
    the taxonomy and not the name of a property of [Object.prototype] is
    returned as null.  The document type is then not validated: it is
    returned as captured, with the category as read, and the status is
    [pending_review] when that category is one of the two recognised
    values and [non_classified] otherwise. *)
Theorem unknown_country_is_dropped (text c : list N) :
  jsonBranch text = None ->
  matchTrimmed "Country of Origin:" text = Some c ->
  c <> [] ->
  ~ isTaxonomyKey c ->
  c ∉ objectPrototypeProperties ->
  let r := extractDocumentDetails text in
  country r = VNull
  /\ document_type r = ofNullable (matchTrimmed "Document Type:" text)
  /\ document_category r = VString (categoryRead text)
  /\ document_subtype r = ofNullable (matchTrimmed "Document Subtype:" text)
  /\ status r = (if isDocumentCategory (categoryRead text)
                 then pending_review else non_classified).
Proof.
  intros Hj Hm Hne Hkey Hproto r. subst r. rewrite (extract_text text Hj).
  assert (Hlook : lookupCountry c = NoCountry).
  { unfold lookupCountry, inherited.
    destruct (ownProperty c taxSchema) as [cs|] eqn:Hown.
    - exfalso. apply Hkey. now exists cs.
    - now rewrite bool_decide_eq_false_2. }
  assert (Htr : truthy c = true) by (destruct c; [contradiction|reflexivity]).
  unfold validateAgainstSchema, validateCountry, parseDetails.
  cbn [details_country]. rewrite Hm, Htr, Hlook.
  cbn [validateDocumentType details_country details_documentType
       details_category details_subtype details_confidence_score].
  unfold toResult, determineStatus, validFields, statusConditions, categoryRead.
  cbn [details_country details_documentType details_category
       details_subtype country document_type document_category
       document_subtype status isTruthy ofNullable].
  repeat split. rewrite andb_false_r.
  destruct (isDocumentCategory
              (default CompanyDocuments
                 (matchTrimmed "Document Category:" text))); reflexivity.
Qed.

Lemma unknown_country_is_dropped_witness :
  jsonBranch franceText = None
  /\ matchTrimmed "Country of Origin:" franceText = Some (str "France")
  /\ country (extractDocumentDetails franceText) = VNull
  /\ document_type (extractDocumentDetails franceText) = VString (str "Kbis")
  /\ status (extractDocumentDetails franceText) = pending_review.
Proof.
  assert (Hj : jsonBranch franceText = None) by (vm_compute; reflexivity).
  assert (Hm : matchTrimmed "Country of Origin:" franceText
               = Some (str "France")) by (vm_compute; reflexivity).
  assert (Hne : str "France" <> []) by (vm_compute; congruence).
  assert (Hkey : ~ isTaxonomyKey (str "France"))
    by (intros [cs Hcs]; vm_compute in Hcs; congruence).
  assert (Hproto : str "France" ∉ objectPrototypeProperties)
    by (apply (bool_decide_eq_false_1 _); vm_compute; reflexivity).
  destruct (unknown_country_is_dropped franceText (str "France")
              Hj Hm Hne Hkey Hproto) as (Hc & Ht & _ & _ & Hs).
  split; [exact Hj|]. split; [exact Hm|]. split; [exact Hc|].
  split; [rewrite Ht; vm_compute; reflexivity|].
  rewrite Hs. vm_compute. reflexivity.
Defined.

(** X3.  On the text path, when the country read is a key of the
    taxonomy and the category read is one of the two recognised values
    (in particular when no category line is present), validation does
    not throw, the country is returned, the returned category is again
    one of the two recognised values and the status is [classified],
    whatever the document type. *)
Theorem taxonomy_country_is_classified (text c : list N) :
  jsonBranch text = None ->
  matchTrimmed "Country of Origin:" text = Some c ->
  isTaxonomyKey c ->
  isDocumentCategory (categoryRead text) = true ->
  let r := extractDocumentDetails text in
  country r = VString c
  /\ status r = classified
  /\ (document_category r = VString CompanyDocuments
      \/ document_category r = VString EmployeeDocuments).
Proof.
  intros Hj Hm Hkey Hcat r. subst r. rewrite (extract_text text Hj).
  assert (Hc : details_country (parseDetails text) = Some c) by exact Hm.
  assert (Hv : categoryValid (parseDetails text))
    by (apply categoryValid_spec; exact Hcat).
  destruct (validate_recognised _ _ Hc Hkey Hv) as (d' & Hd' & Hc').
  rewrite Hd'.
  assert (Hcat' : categoryValid d').
  { destruct (validateAgainstSchema_cases _ _ Hd') as (_ & _ & [Heq | Hex]).
    - unfold categoryValid. rewrite Heq. exact Hv.
    - destruct Hex as (_ & _ & _ & _ & Hin & _).
      unfold allCategories in Hin. unfold categoryValid.
      rewrite !elem_of_cons in Hin.
      destruct Hin as [H | [H | H]]; auto. inversion H. }
  cbn [toResult country status document_category]. rewrite Hc'.
  split; [reflexivity|]. split.
  - apply categoryValid_spec in Hcat'.
    unfold determineStatus, validFields, statusConditions.
    rewrite Hcat', Hc'.
    destruct (isTruthy (details_documentType d') && isTruthy (Some c));
      reflexivity.
  - destruct Hcat' as [-> | ->]; auto.
Qed.

Lemma taxonomy_country_is_classified_witness :
  jsonBranch unknownDocumentText = None
  /\ country (extractDocumentDetails unknownDocumentText)
     = VString (str "India")
  /\ status (extractDocumentDetails unknownDocumentText) = classified
  /\ document_type (extractDocumentDetails unknownDocumentText) = VNull.
Proof.
  assert (Hj : jsonBranch unknownDocumentText = None)
    by (vm_compute; reflexivity).
  assert (Hm : matchTrimmed "Country of Origin:" unknownDocumentText
               = Some (str "India")) by (vm_compute; reflexivity).
  assert (Hkey : isTaxonomyKey (str "India")) by (vm_compute; eauto).
  assert (Hcat : isDocumentCategory (categoryRead unknownDocumentText) = true)
    by (vm_compute; reflexivity).
  destruct (taxonomy_country_is_classified unknownDocumentText (str "India")
              Hj Hm Hkey Hcat) as (Hc & Hs & _).
  split; [exact Hj|]. split; [exact Hc|]. split; [exact Hs|].
  vm_compute. reflexivity.
Defined.

(** *** What [trim] and the capture group leave *)

Lemma trimStart_Forall (P : N -> Prop) s :
  Forall P s -> Forall P (trimStart s).
Proof.
  induction 1 as [|c s Hc Hs IH]; cbn; [constructor|].
  destruct (isWhiteSpace c); [exact IH | now constructor].
Qed.

Lemma trim_Forall (P : N -> Prop) s : Forall P s -> Forall P (trim s).
Proof.
  intros H. unfold trim, trimEnd.
  apply Forall_rev, trimStart_Forall, Forall_rev, trimStart_Forall, H.
Qed.

Lemma trimStart_idem s : trimStart (trimStart s) = trimStart s.
Proof.
  induction s as [|c s IH]; cbn; [reflexivity|].
  destruct (isWhiteSpace c) eqn:Hc; [exact IH|]. cbn. now rewrite Hc.
Qed.

Lemma trimStart_snoc s c :
  isWhiteSpace c = false -> trimStart (s ++ [c]) = trimStart s ++ [c].
Proof.
  intros Hc. induction s as [|a s IH]; cbn; [now rewrite Hc|].
  destruct (isWhiteSpace a); [exact IH | reflexivity].
Qed.

Lemma trim_idem s : trim (trim s) = trim s.
Proof.
  unfold trim, trimEnd.
  set (a := trimStart s).
  assert (Ha : trimStart a = a) by apply trimStart_idem.
  assert (Hb : trimStart (rev (trimStart (rev a))) = rev (trimStart (rev a))).
  { destruct a as [|c a']; [reflexivity|].
    assert (Hc : isWhiteSpace c = false).
    { cbn in Ha. destruct (isWhiteSpace c) eqn:E; [|reflexivity].
      exfalso. assert (Hlen : (length (trimStart a') <= length a')%nat).
      { clear. induction a' as [|x l IH]; cbn; [lia|].
        destruct (isWhiteSpace x); cbn; lia. }
      rewrite Ha in Hlen. cbn in Hlen. lia. }
    cbn [rev]. rewrite (trimStart_snoc _ _ Hc), rev_app_distr. cbn.
    now rewrite Hc. }
  rewrite Hb, rev_involutive, trimStart_idem. reflexivity.
Qed.

Lemma takeClass_Forall s :
  Forall (fun c => notNewlineOrStar c = true) (takeClass s).
Proof.
  induction s as [|c s IH]; cbn; [constructor|].
  destruct (notNewlineOrStar c) eqn:Hc; now constructor.
Qed.

Lemma afterLabel_Forall s cap :
  afterLabel s = Some cap ->
  Forall (fun c => notNewlineOrStar c = true) cap.
Proof.
  assert (Hcap : forall s cap, captureGroup s = Some cap ->
            Forall (fun c => notNewlineOrStar c = true) cap).
  { intros s0 cap0. unfold captureGroup.
    pose proof (takeClass_Forall s0) as H.
    destruct (takeClass s0); [discriminate|]. now intros [= <-]. }
  revert cap. induction s as [|c s IH]; intros cap; cbn [afterLabel];
    [discriminate|].
  destruct (isWhiteSpace c); [|apply Hcap].
  destruct (afterLabel s) as [cap'|]; [|apply Hcap].
  intros [= <-]. now apply IH.
Qed.

Lemma matchLabel_Forall label s cap :
  matchLabel label s = Some cap ->
  Forall (fun c => notNewlineOrStar c = true) cap.
Proof.
  revert cap. induction s as [|c s IH]; intros cap; cbn [matchLabel].
  - unfold matchHere. destruct (matchLiteral label []) as [rest|];
      [|discriminate].
    destruct (afterLabel rest) eqn:E; [|discriminate].
    intros [= <-]. eapply afterLabel_Forall, E.
  - unfold matchHere. destruct (matchLiteral label (c :: s)) as [rest|];
      [|apply IH].
    destruct (afterLabel rest) eqn:E; [|apply IH].
    intros [= <-]. eapply afterLabel_Forall, E.
Qed.

Lemma matchTrimmed_clean label text s :
  matchTrimmed label text = Some s -> clean s.
Proof.
  unfold matchTrimmed.
  destruct (matchLabel (str label) text) as [cap|] eqn:E; [|discriminate].
  intros [= <-]. split; [|apply trim_idem].
  apply trim_Forall. eapply Forall_impl; [eapply matchLabel_Forall, E|].
  intros c Hc. unfold notNewlineOrStar in Hc.
  apply negb_true_iff, orb_false_elim in Hc. destruct Hc as [H1 H2].
  apply N.eqb_neq in H1, H2. auto.
Qed.

(** X4.  Every string the text path returns in the fields country,
    document_type, document_category and document_subtype is free of
    line feeds and asterisks and is unchanged by [trim]: the capture
    group excludes the two characters, [trim] removes the surrounding
    white space, and validation only keeps a field, nulls it or assigns
    one of the two category names. *)
Theorem returned_strings_are_clean (text s : list N) :
  jsonBranch text = None ->
  country (extractDocumentDetails text) = VString s
  \/ document_type (extractDocumentDetails text) = VString s
  \/ document_category (extractDocumentDetails text) = VString s
  \/ document_subtype (extractDocumentDetails text) = VString s ->
  clean s.
Proof.
  intros Hj. rewrite (extract_text text Hj).
  assert (Hnames : forall g, g ∈ allCategories -> clean g).
  { intros g Hg. unfold allCategories in Hg. rewrite !elem_of_cons in Hg.
    destruct Hg as [-> | [-> | Hg]]; [| |inversion Hg];
      (split; [|vm_compute; reflexivity]);
      vm_compute; repeat (constructor; [split; discriminate|]);
      constructor. }
  assert (Hfail : clean CompanyDocuments)
    by (apply Hnames; unfold allCategories; rewrite !elem_of_cons; auto).
  destruct (validateAgainstSchema (parseDetails text)) as [d|] eqn:Hv.
  - destruct (validateAgainstSchema_cases _ _ Hv) as (Hsub & _ & Hcat).
    cbn [toResult country document_type document_category document_subtype].
    intros [H | [H | [H | H]]].
    + destruct (details_country d) as [c|] eqn:Hc; [|discriminate].
      injection H as ->.
      apply (validate_country _ _ _ Hv) in Hc.
      eapply matchTrimmed_clean, Hc.
    + destruct (details_documentType d) as [t|] eqn:Ht; [|discriminate].
      injection H as ->.
      apply (validate_documentType _ _ _ Hv) in Ht.
      eapply matchTrimmed_clean, Ht.
    + injection H as <-. destruct Hcat as [-> | Hex].
      * cbn [parseDetails details_category].
        destruct (matchTrimmed "Document Category:" text) as [g|] eqn:Hg;
          [eapply matchTrimmed_clean, Hg | exact Hfail].
      * destruct Hex as (_ & _ & _ & _ & Hin & _). now apply Hnames.
    + rewrite Hsub in H. cbn [parseDetails details_subtype] in H.
      destruct (matchTrimmed "Document Subtype:" text) as [u|] eqn:Hu;
        [|discriminate].
      injection H as ->. eapply matchTrimmed_clean, Hu.
  - cbn [failureResult country document_type document_category
         document_subtype].
    intros [H | [H | [H | H]]]; try discriminate.
    injection H as <-. exact Hfail.
Qed.

Lemma returned_strings_are_clean_witness :
  jsonBranch franceText = None
  /\ document_subtype (extractDocumentDetails franceText)
     = VString (str "null")
  /\ clean (str "null").
Proof.
  assert (Hj : jsonBranch franceText = None) by (vm_compute; reflexivity).
  assert (Hu : document_subtype (extractDocumentDetails franceText)
               = VString (str "null")) by (vm_compute; reflexivity).
  split; [exact Hj|]. split; [exact Hu|].
  apply (returned_strings_are_clean franceText (str "null") Hj). auto.
Defined.

(** *** Validation as a function on candidates *)

Lemma findCategory_includes countrySchema documentType categories category :
  findCategory countrySchema documentType categories = Some (Some category) ->
  includes countrySchema category documentType = IncludesBool true.
Proof.
  induction categories as [|cat rest IH]; cbn; [discriminate|].
  destruct (includes countrySchema cat documentType) as [|[|]|] eqn:Hinc;
    try discriminate; auto.
  now intros [= <-].
Qed.

Lemma validateCountry_same_country d d' :
  details_country d' = details_country d ->
  validateCountry d = d ->
  validateCountry d' = d'.
Proof.
  unfold validateCountry. intros ->.
  destruct (details_country d) as [c|] eqn:Hc; [|reflexivity].
  destruct (truthy c), (lookupCountry c); try reflexivity.
  intros H. rewrite <- H in Hc. discriminate.
Qed.

Lemma validateCountry_idem d :
  validateCountry (validateCountry d) = validateCountry d.
Proof.
  destruct d as [[c|] t g u f]; [|reflexivity].
  unfold validateCountry; cbn [details_country].
  destruct (truthy c) eqn:Ht, (lookupCountry c) eqn:Hl;
    cbn [details_country]; rewrite ?Ht, ?Hl; reflexivity.
Qed.

(** X5.  Validation is idempotent: a candidate that validation returns
    is returned unchanged when it is validated again.  So what the text
    path returns is consistent with the taxonomy in the sense of the
    validator itself. *)
Theorem validation_is_idempotent (d d' : Details) :
  validateAgainstSchema d = Some d' ->
  validateAgainstSchema d' = Some d'.
Proof.
  unfold validateAgainstSchema. intros Hv.
  pose proof (validateDocumentType_country _ _ Hv) as Hc.
  rewrite (validateCountry_same_country (validateCountry d) d' Hc
             (validateCountry_idem d)).
  revert Hv Hc. generalize (validateCountry d) as d1. intros d1.
  unfold validateDocumentType at 1.
  destruct (details_country d1) as [c|] eqn:Hc1;
    [|intros [= <-] _; unfold validateDocumentType; now rewrite Hc1].
  destruct (details_documentType d1) as [t|] eqn:Ht1;
    [|intros [= <-] _; unfold validateDocumentType; now rewrite Hc1, Ht1].
  destruct (truthy c && truthy t) eqn:Htr;
    [|intros [= <-] _; unfold validateDocumentType;
      now rewrite Hc1, Ht1, Htr].
  destruct (includes (lookupCountry c) (details_category d1) t)
    as [|[|]|] eqn:Hinc; try discriminate.
  2: { intros [= <-] _. unfold validateDocumentType.
       now rewrite Hc1, Ht1, Htr, Hinc. }
  all: destruct (findCategory (lookupCountry c) t allCategories)
         as [[cat|]|] eqn:Hfind; try discriminate; intros [= <-] _;
    unfold validateDocumentType; cbn [details_country details_documentType
      details_category details_subtype details_confidence_score];
    rewrite ?Hc1, ?Ht1, ?Htr; try reflexivity;
    rewrite (findCategory_includes _ _ _ _ Hfind); reflexivity.
Qed.

Lemma validation_is_idempotent_witness :
  validateAgainstSchema aadhaarCandidate
  = Some (mkDetails (Some (str "India")) (Some (str "Aadhaar Card"))
            EmployeeDocuments None zero)
  /\ validateAgainstSchema
       (mkDetails (Some (str "India")) (Some (str "Aadhaar Card"))
          EmployeeDocuments None zero)
     = Some (mkDetails (Some (str "India")) (Some (str "Aadhaar Card"))
               EmployeeDocuments None zero).
Proof.
  assert (H : validateAgainstSchema aadhaarCandidate
              = Some (mkDetails (Some (str "India"))
                        (Some (str "Aadhaar Card"))
                        EmployeeDocuments None zero))
    by (vm_compute; reflexivity).
  split; [exact H|]. exact (validation_is_idempotent _ _ H).
Defined.

(** *** The layout the prompt prescribes *)

(** A candidate that names a listed document type under a recognised
    category passes validation unchanged. *)
Lemma validate_listed d c t :
  details_country d = Some c ->
  details_documentType d = Some t ->
  details_category d ∈ allCategories ->
  t ∈ typesOf c (details_category d) ->
  validateAgainstSchema d = Some d.
Proof.
  intros Hc Ht Hg Hin.
  destruct (ownProperty c taxSchema) as [cs|] eqn:Hown;
    [|unfold typesOf in Hin; rewrite Hown in Hin; inversion Hin].
  destruct (taxonomy_key _ _ Hown) as (Htr & Hlook & Hco & Hem).
  unfold validateAgainstSchema.
  assert (Hvc : validateCountry d = d).
  { unfold validateCountry. rewrite Hc, Htr, Hlook. reflexivity. }
  rewrite Hvc. unfold validateDocumentType. rewrite Hc, Ht, Hlook.
  destruct (truthy c && truthy t); [|reflexivity].
  assert (Hinc : includes (Country cs) (details_category d) t
                 = IncludesBool true).
  { unfold includes. unfold allCategories in Hg. rewrite !elem_of_cons in Hg.
    destruct Hg as [Hg | [Hg | Hg]]; [| |inversion Hg]; rewrite Hg in *;
      [rewrite Hco | rewrite Hem]; now rewrite bool_decide_eq_true_2. }
  now rewrite Hinc.
Qed.

Lemma listed_entry c g t :
  t ∈ typesOf c g -> In (c, g, t) taxonomyEntries.
Proof.
  unfold typesOf, taxonomyEntries. intros Hin.
  destruct (ownProperty c taxSchema) as [cs|] eqn:Hc; [|inversion Hin].
  destruct (ownProperty g cs) as [ts|] eqn:Hg; [|inversion Hin].
  cbn [default] in Hin.
  apply in_flat_map. exists (c, cs). split; [now apply ownProperty_elem|].
  apply in_flat_map. exists (g, ts). split; [now apply ownProperty_elem|].
  cbn [fst snd]. apply in_map_iff. exists t. split; [reflexivity|].
  now apply list_elem_of_In.
Qed.

Lemma entries_read_back rest : forallb (readsBack rest) taxonomyEntries = true.
Proof. vm_compute. reflexivity. Qed.

(** X6.  Round trip between the layout the prompt prescribes and the
    text fallback: for every document type [t] that the taxonomy lists
    for a country [c] under a category [g], an answer that starts with
    the three lines "Country of Origin: c", "Document Type: t" and
    "Document Category: g" is read back as exactly this entry, with
    status [classified], whatever follows these lines; the subtype and
    the confidence score are those read from the text. *)
Theorem prescribed_answer_round_trip (c g t rest : list N) :
  g ∈ allCategories ->
  t ∈ typesOf c g ->
  let text := prescribedAnswer c t g rest in
  extractDocumentDetails text
  = mkResult (VString c) (VString t) (VString g)
      (ofNullable (matchTrimmed "Document Subtype:" text)) classified
      (VNumber (details_confidence_score (parseDetails text))).
Proof.
  intros Hg Hin text.
  assert (Hj : jsonBranch text = None)
    by apply (labelled_answer_takes_text_path
                (32 :: c ++ LF ++ str "Document Type: " ++ t ++ LF
                 ++ str "Document Category: " ++ g ++ LF ++ rest)).
  pose proof (entries_read_back rest) as Hall.
  rewrite forallb_forall in Hall.
  specialize (Hall _ (listed_entry _ _ _ Hin)).
  unfold readsBack in Hall. fold text in Hall.
  apply andb_prop in Hall as [Hall H3]. apply andb_prop in Hall as [H1 H2].
  apply bool_decide_eq_true in H1, H2, H3.
  assert (Hd : parseDetails text
               = mkDetails (Some c) (Some t) g
                   (matchTrimmed "Document Subtype:" text)
                   (details_confidence_score (parseDetails text))).
  { unfold parseDetails at 1. rewrite H1, H2, H3. reflexivity. }
  rewrite (extract_text text Hj).
  rewrite (validate_listed (parseDetails text) c t);
    try (rewrite Hd; cbn; assumption || reflexivity).
  rewrite Hd at 1. unfold toResult, determineStatus, validFields,
    statusConditions.
  cbn [details_country details_documentType details_category details_subtype
       details_confidence_score ofNullable isTruthy].
  assert (Hcat : isDocumentCategory g = true).
  { unfold allCategories in Hg. rewrite !elem_of_cons in Hg.
    destruct Hg as [-> | [-> | Hg]]; [reflexivity|reflexivity|inversion Hg]. }
  rewrite Hcat. destruct (truthy t && truthy c); reflexivity.
Qed.

Lemma prescribed_answer_round_trip_witness :
  CompanyDocuments ∈ allCategories
  /\ str "PAN Card" ∈ typesOf (str "India") CompanyDocuments
  /\ extractDocumentDetails
       (prescribedAnswer (str "India") (str "PAN Card") CompanyDocuments
          subtypeAndScore)
     = mkResult (VString (str "India")) (VString (str "PAN Card"))
         (VString CompanyDocuments) (VString (str "null")) classified
         (VNumber (Finite false 92 (-2))).
Proof.
  assert (Hg : CompanyDocuments ∈ allCategories)
    by (apply (bool_decide_eq_true_1 _); vm_compute; reflexivity).
  assert (Hin : str "PAN Card" ∈ typesOf (str "India") CompanyDocuments)
    by (apply (bool_decide_eq_true_1 _); vm_compute; reflexivity).
  split; [exact Hg|]. split; [exact Hin|].
  rewrite (prescribed_answer_round_trip (str "India") CompanyDocuments
             (str "PAN Card") subtypeAndScore Hg Hin).
  vm_compute. reflexivity.
Defined.

(** *** Answers without labels *)

(** X27.  A response that is not JSON and in which none of the five
    labels occurs is not rejected: the text fallback returns country,
    document type and subtype null, the default category
    [CompanyDocuments], confidence 0 and the status [pending_review] (not
    [non_classified]), because the default category counts as one valid
    field. *)
Theorem unlabelled_answer_is_pending (text : list N) :
  jsonBranch text = None ->
  unlabelled text ->
  extractDocumentDetails text
  = mkResult VNull VNull (VString CompanyDocuments) VNull pending_review
      (VNumber zero).
Proof.
  intros Hj Hnone. rewrite (extract_text text Hj).
  unfold unlabelled, fieldLabels in Hnone.
  repeat match goal with
         | H : Forall _ (_ :: _) |- _ =>
             let Hl := fresh "Hl" in
             apply Forall_cons in H as [Hl H];
             apply absent_label_no_match in Hl
         end.
  unfold parseDetails, matchTrimmed.
  rewrite Hl, Hl0, Hl1, Hl2, Hl3. reflexivity.
Qed.

Lemma unlabelled_answer_is_pending_witness :
  jsonBranch proseText = None
  /\ unlabelled proseText
  /\ status (extractDocumentDetails proseText) = pending_review.
Proof.
  assert (Hj : jsonBranch proseText = None) by (vm_compute; reflexivity).
  assert (Hnone : unlabelled proseText)
    by (repeat constructor; vm_compute; reflexivity).
  split; [exact Hj|]. split; [exact Hnone|].
  now rewrite (unlabelled_answer_is_pending proseText Hj Hnone).
Defined.

End TextFallback.


(** ** The JSON branch on values that are not objects *)

Section JSONBranch.
Import Classifier.

(** X7.  When the response decodes as a JSON number, string, boolean or
    array, the inner [try] returns normally: the five fields of the
    result are [undefined] and the status is [classified].  The text
    fallback does not run. *)
Theorem scalar_answer_is_classified (text : list N) (v : value) :
  JSON_parse text = Some v ->
  notRecord v ->
  extractDocumentDetails text
  = mkResult VUndefined VUndefined VUndefined VUndefined classified
      VUndefined.
Proof.
  intros Hp Hv. unfold extractDocumentDetails, jsonBranch. rewrite Hp.
  destruct v; try contradiction; reflexivity.
Qed.

Lemma scalar_answer_is_classified_witness :
  JSON_parse (str "0.92") = Some (VNumber (Finite false 92 (-2)))
  /\ extractDocumentDetails (str "0.92")
     = mkResult VUndefined VUndefined VUndefined VUndefined classified
         VUndefined.
Proof.
  assert (Hp : JSON_parse (str "0.92") = Some (VNumber (Finite false 92 (-2))))
    by (vm_compute; reflexivity).
  split; [exact Hp|].
  exact (scalar_answer_is_classified (str "0.92") _ Hp I).
Defined.

End JSONBranch.

(** ** The classification client: outcomes, cache and guard *)

Section ClassifyDocumentMore.
Import Classifier.

(** How a call followed from start to end can finish, and what it leaves
    behind. *)
Lemma run_cases apiKey start fileUrl fileResponse response finish st
    outcome st' :
  classifyDocument_run apiKey start fileUrl fileResponse response finish st
    = (outcome, st') ->
  (lastClassificationRef st = Some fileUrl
   /\ outcome = Throw alreadyInProgress /\ st' = st)
  \/ (lastClassificationRef st <> Some fileUrl
      /\ exists result,
           fresh start (classificationCache st !! fileUrl) = Some result
           /\ outcome = Normal result /\ st' = st)
  \/ (entersTry start fileUrl st
      /\ ((exists e, outcome = Throw e /\ st' = failedWith e st)
          \/ exists content,
               content <> [] /\ answersWith content response
               /\ outcome = Normal (extractDocumentDetails content)
               /\ st' = storedAt fileUrl (extractDocumentDetails content)
                          finish st)).
Proof.
  unfold classifyDocument_run, classifyDocument, entersTry.
  case_bool_decide as Href; [intros [= <- <-]; now left|].
  destruct (fresh start (classificationCache st !! fileUrl)) as [r|] eqn:Hf;
    [intros [= <- <-]; right; left; eauto|].
  intros Hrun. right; right. split; [auto|].
  assert (Hfail : forall e : exn,
             (Throw e,
              mkHook (classificationCache st) None false (Some (message e)))
             = (outcome, st') ->
             exists e0, outcome = Throw e0 /\ st' = failedWith e0 st)
    by (intros e [= <- <-]; eexists; split; reflexivity).
  destruct apiKey as [key|]; [|left; now apply (Hfail notConfigured)].
  destruct (truthy key); [|left; now apply (Hfail notConfigured)].
  unfold classifyDocument_afterFile, rethrow in Hrun.
  cbn [classificationCache file_fileUrl file_apiKey] in Hrun.
  destruct fileResponse as [e | [|] [base64Content | e]];
    try (left; eapply Hfail; exact Hrun).
  unfold classifyDocument_afterModel, rethrow in Hrun.
  cbn [classificationCache model_fileUrl error] in Hrun.
  destruct response as [e | [|] status statusText [content | e]];
    try (left; eapply Hfail; exact Hrun).
  destruct content as [[|c content]|]; cbn [isTruthy truthy default] in Hrun;
    try (left; eapply Hfail; exact Hrun).
  right. exists (c :: content). injection Hrun as <- <-.
  split; [discriminate|]. split; [unfold answersWith; eauto|].
  split; reflexivity.
Qed.

(** X8.  A call that fails leaves the cache as it was, whatever the
    stage at which it fails.  Either it was rejected by the in-flight
    guard, and then the hook state is untouched, or it failed inside its
    [try] block, and then the marker is cleared, [isClassifying] is
    false and [error] holds the message of the error that is thrown. *)
Theorem failed_call_keeps_cache (apiKey : option (list N)) (start : Z)
    (fileUrl : list N) (fileResponse : FileResponse)
    (response : ModelResponse) (finish : Z) (st st' : HookState) (e : exn) :
  classifyDocument_run apiKey start fileUrl fileResponse response finish st
    = (Throw e, st') ->
  classificationCache st' = classificationCache st
  /\ ((lastClassificationRef st = Some fileUrl
       /\ e = Error (str "Classification already in progress") /\ st' = st)
      \/ (entersTry start fileUrl st
          /\ st' = mkHook (classificationCache st) None false
                     (Some (message e)))).
Proof.
  intros Hrun.
  destruct (run_cases _ _ _ _ _ _ _ _ _ Hrun)
    as [(Href & [= ->] & ->) | [(_ & r & _ & [=] & _) | (Htry & Hend)]].
  - split; [reflexivity|]. left. auto.
  - destruct Hend as [(e0 & [= ->] & ->) | (content & _ & _ & [=] & _)].
    split; [reflexivity|]. right. auto.
Qed.

Lemma failed_call_keeps_cache_witness :
  fst (classifyDocument_run exampleKey 400000 exampleUrl fileOk modelDown
         400500 afterFirst)
  = Throw (Error (str "OpenRouter API error: 503 Service Unavailable"))
  /\ classificationCache
       (snd (classifyDocument_run exampleKey 400000 exampleUrl fileOk
               modelDown 400500 afterFirst))
     = classificationCache afterFirst.
Proof.
  split; [vm_compute; reflexivity|].
  apply (failed_call_keeps_cache exampleKey 400000 exampleUrl fileOk
           modelDown 400500 afterFirst _
           (Error (str "OpenRouter API error: 503 Service Unavailable"))).
  vm_compute. reflexivity.
Defined.

(** X9.  A call that succeeds either was served from the cache, and
    then it changes nothing, or it has asked the model: then the answer
    had status [ok] and a content that is not empty, the result is what
    [extractDocumentDetails] makes of that content, and it is stored
    under the file URL with the clock of that moment, replacing any older
    entry; the marker is cleared, [isClassifying] is false and [error] is
    null. *)
Theorem successful_call_stores_result (apiKey : option (list N)) (start : Z)
    (fileUrl : list N) (fileResponse : FileResponse)
    (response : ModelResponse) (finish : Z) (st st' : HookState)
    (result : ClassificationResult) :
  classifyDocument_run apiKey start fileUrl fileResponse response finish st
    = (Normal result, st') ->
  (fresh start (classificationCache st !! fileUrl) = Some result /\ st' = st)
  \/ (exists content,
        content <> [] /\ answersWith content response
        /\ result = extractDocumentDetails content
        /\ classificationCache st' !! fileUrl = Some (result, finish)
        /\ st' = mkHook (<[fileUrl := (result, finish)]>
                           (classificationCache st)) None false None).
Proof.
  intros Hrun.
  destruct (run_cases _ _ _ _ _ _ _ _ _ Hrun)
    as [(_ & [=] & _) | [(_ & r & Hf & [= ->] & ->) | (Htry & Hend)]].
  - left. auto.
  - destruct Hend as [(e0 & [=] & _) | (content & Hne & Hans & [= ->] & ->)].
    right. exists content. repeat (split; [assumption || reflexivity|]).
    split; [|reflexivity]. cbn. apply lookup_insert_eq.
Qed.

(** An answer on which the validator throws is stored as well: the
    failure result is served from the cache afterwards. *)
Lemma successful_call_stores_result_witness :
  classifyDocument_run exampleKey 1000 exampleUrl fileOk modelThrows 2000 idle
  = (Normal failureResult, storedAt exampleUrl failureResult 2000 idle)
  /\ classifyDocument exampleKey 3000 exampleUrl
       (storedAt exampleUrl failureResult 2000 idle)
     = (Settled (Normal failureResult),
        storedAt exampleUrl failureResult 2000 idle).
Proof.
  assert (Hrun : classifyDocument_run exampleKey 1000 exampleUrl fileOk
                   modelThrows 2000 idle
                 = (Normal failureResult,
                    storedAt exampleUrl failureResult 2000 idle))
    by (vm_compute; reflexivity).
  split; [exact Hrun|].
  destruct (successful_call_stores_result _ _ _ _ _ _ _ _ _ Hrun)
    as [[Hf _] | (content & _ & _ & _ & Hentry & _)].
  - vm_compute in Hf. discriminate.
  - unfold classifyDocument.
    rewrite bool_decide_eq_false_2 by (cbn; discriminate).
    rewrite Hentry. reflexivity.
Defined.

(** *** The five minutes *)

(** X10.  An entry of the cache is served exactly while it is younger
    than 300000 milliseconds: a call for a file URL that the marker does
    not hold, at time [now], returns the cached result at once if and
    only if [now - timestamp < 300000]; at [now - timestamp = 300000]
    and later the entry is ignored (it stays in the cache) and, with an
    API key, the file is requested again. *)
Theorem cache_serves_iff_fresh (apiKey : option (list N)) (now : Z)
    (fileUrl : list N) (st : HookState) (result : ClassificationResult)
    (timestamp : Z) :
  lastClassificationRef st <> Some fileUrl ->
  classificationCache st !! fileUrl = Some (result, timestamp) ->
  (classifyDocument apiKey now fileUrl st = (Settled (Normal result), st)
   <-> (now - timestamp < 300000)%Z)
  /\ ((300000 <= now - timestamp)%Z ->
      classificationCache (snd (classifyDocument apiKey now fileUrl st))
        !! fileUrl = Some (result, timestamp)
      /\ forall key, apiKey = Some key -> key <> [] ->
           classifyDocument apiKey now fileUrl st
           = (Awaiting (FetchFile fileUrl) (mkFileStage key fileUrl),
              mkHook (classificationCache st) (Some fileUrl) true None)).
Proof.
  intros Href Hentry. unfold classifyDocument.
  rewrite (bool_decide_eq_false_2 _ Href), Hentry. unfold fresh.
  change CACHE_EXPIRATION with 300000%Z.
  case_bool_decide as Hage.
  - split; [tauto|]. lia.
  - split.
    + split; [|tauto]. intros H. exfalso.
      destruct apiKey as [[|c key]|]; cbn in H; discriminate.
    + intros _. split.
      * destruct apiKey as [[|c key]|]; cbn; exact Hentry.
      * intros key -> Hne. destruct key; [contradiction|reflexivity].
Qed.

Lemma cache_serves_iff_fresh_witness :
  lastClassificationRef afterFirst <> Some exampleUrl
  /\ classificationCache afterFirst !! exampleUrl
     = Some (toResult scenarioCandidate, 2000%Z)
  /\ classifyDocument exampleKey 301999 exampleUrl afterFirst
     = (Settled (Normal (toResult scenarioCandidate)), afterFirst)
  /\ classifyDocument exampleKey 302000 exampleUrl afterFirst
     = (Awaiting (FetchFile exampleUrl)
          (mkFileStage (str "sk-or-example") exampleUrl),
        mkHook (classificationCache afterFirst) (Some exampleUrl) true None).
Proof.
  assert (Href : lastClassificationRef afterFirst <> Some exampleUrl)
    by (cbn; discriminate).
  assert (Hentry : classificationCache afterFirst !! exampleUrl
                   = Some (toResult scenarioCandidate, 2000%Z))
    by (vm_compute; reflexivity).
  split; [exact Href|]. split; [exact Hentry|]. split.
  - apply (cache_serves_iff_fresh exampleKey 301999 exampleUrl afterFirst
             _ _ Href Hentry). lia.
  - apply (cache_serves_iff_fresh exampleKey 302000 exampleUrl afterFirst
             _ _ Href Hentry); [lia|reflexivity|vm_compute; congruence].
Defined.

(** *** The guard holds one file URL *)

(** X11.  The in-flight guard remembers one file URL only.  While a
    call for [fileUrl] waits for its answers, a call for another URL
    that enters its [try] block takes the marker over; from then on, and
    also after that other call has settled, a further call for [fileUrl]
    is not rejected: it requests the file again although the first call
    is still in flight. *)
Theorem guard_holds_one_url (key fileUrl other : list N) (t1 t2 t3 : Z)
    (st : HookState) :
  key <> [] ->
  other <> fileUrl ->
  entersTry t1 fileUrl st ->
  fresh t2 (classificationCache st !! other) = None ->
  fresh t3 (classificationCache st !! fileUrl) = None ->
  let st1 := snd (classifyDocument (Some key) t1 fileUrl st) in
  let st2 := snd (classifyDocument (Some key) t2 other st1) in
  let again :=
    (Awaiting (FetchFile fileUrl) (mkFileStage key fileUrl),
     mkHook (classificationCache st) (Some fileUrl) true None) in
  requestsFile fileUrl (fst (classifyDocument (Some key) t1 fileUrl st))
  /\ lastClassificationRef st1 = Some fileUrl
  /\ lastClassificationRef st2 = Some other
  /\ classifyDocument (Some key) t3 fileUrl st2 = again
  /\ forall fileResponse outcome st3,
       classifyDocument_afterFile (mkFileStage key other) fileResponse st2
         = (Settled outcome, st3) ->
       classifyDocument (Some key) t3 fileUrl st3 = again.
Proof.
  intros Hkey Hother [Href Hf1] Hf2 Hf3.
  assert (Htr : truthy key = true) by (destruct key; [contradiction|easy]).
  assert (H1 : classifyDocument (Some key) t1 fileUrl st
               = (Awaiting (FetchFile fileUrl) (mkFileStage key fileUrl),
                  mkHook (classificationCache st) (Some fileUrl) true None)).
  { unfold classifyDocument.
    now rewrite (bool_decide_eq_false_2 _ Href), Hf1, Htr. }
  rewrite H1. cbn [fst snd].
  assert (H2 : classifyDocument (Some key) t2 other
                 (mkHook (classificationCache st) (Some fileUrl) true None)
               = (Awaiting (FetchFile other) (mkFileStage key other),
                  mkHook (classificationCache st) (Some other) true None)).
  { unfold classifyDocument. cbn [lastClassificationRef classificationCache].
    rewrite bool_decide_eq_false_2 by congruence. now rewrite Hf2, Htr. }
  rewrite H2. cbn [fst snd].
  assert (H3 : forall marker isC err,
             marker <> Some fileUrl ->
             classifyDocument (Some key) t3 fileUrl
               (mkHook (classificationCache st) marker isC err)
             = (Awaiting (FetchFile fileUrl) (mkFileStage key fileUrl),
                mkHook (classificationCache st) (Some fileUrl) true None)).
  { intros marker isC err Hm. unfold classifyDocument.
    cbn [lastClassificationRef classificationCache].
    now rewrite (bool_decide_eq_false_2 _ Hm), Hf3, Htr. }
  split; [unfold requestsFile; eauto|]. split; [reflexivity|].
  split; [reflexivity|]. split; [apply H3; congruence|].
  intros fileResponse outcome st3 Hsettled.
  assert (Hst3 : exists err,
             st3 = mkHook (classificationCache st) None false err).
  { unfold classifyDocument_afterFile, rethrow in Hsettled.
    cbn [classificationCache] in Hsettled.
    destruct fileResponse as [e | [|] [base64Content | e]];
      try discriminate; injection Hsettled as _ <-; eauto. }
  destruct Hst3 as [err ->]. apply H3. discriminate.
Qed.

Lemma guard_holds_one_url_witness :
  entersTry 1000 exampleUrl idle
  /\ lastClassificationRef
       (snd (classifyDocument exampleKey 1100 otherUrl
               (snd (classifyDocument exampleKey 1000 exampleUrl idle))))
     = Some otherUrl
  /\ classifyDocument exampleKey 1200 exampleUrl
       (snd (classifyDocument exampleKey 1100 otherUrl
               (snd (classifyDocument exampleKey 1000 exampleUrl idle))))
     = (Awaiting (FetchFile exampleUrl)
          (mkFileStage (str "sk-or-example") exampleUrl),
        mkHook ∅ (Some exampleUrl) true None).
Proof.
  assert (Htry : entersTry 1000 exampleUrl idle)
    by (split; [cbn; discriminate | reflexivity]).
  assert (Hkey : str "sk-or-example" <> []) by (vm_compute; congruence).
  assert (Hother : otherUrl <> exampleUrl) by (vm_compute; congruence).
  destruct (guard_holds_one_url (str "sk-or-example") exampleUrl otherUrl
              1000 1100 1200 idle Hkey Hother Htry eq_refl eq_refl)
    as (_ & _ & H2 & H3 & _).
  split; [exact Htry|]. split; [exact H2 | exact H3].
Defined.

(** *** Removing entries *)

(** X12.  After [clearCache(fileUrl)] no call for [fileUrl] is served
    from the cache, at any time, while a call for another file URL
    behaves as before; after [clearAllCache()] no call at all is served
    from the cache.  Neither touches the marker, so a call for the URL
    the marker holds is still rejected. *)
Theorem cleared_entry_is_not_served (fileUrl : list N) (st : HookState) :
  (forall apiKey now result,
      fst (classifyDocument apiKey now fileUrl (clearCache fileUrl st))
      <> Settled (Normal result))
  /\ (forall apiKey now other,
        other <> fileUrl ->
        fst (classifyDocument apiKey now other (clearCache fileUrl st))
        = fst (classifyDocument apiKey now other st))
  /\ (forall apiKey now url result,
        fst (classifyDocument apiKey now url (clearAllCache st))
        <> Settled (Normal result))
  /\ lastClassificationRef (clearCache fileUrl st) = lastClassificationRef st
  /\ lastClassificationRef (clearAllCache st) = lastClassificationRef st.
Proof.
  assert (Hmiss : forall apiKey now url st0 result,
             classificationCache st0 !! url = None ->
             fst (classifyDocument apiKey now url st0)
             <> Settled (Normal result)).
  { intros apiKey now url st0 result Hnone. unfold classifyDocument.
    rewrite Hnone. case_bool_decide; [cbn; discriminate|].
    destruct apiKey as [[|c key]|]; cbn; discriminate. }
  split; [|split; [|split; [|split; reflexivity]]].
  - intros. apply Hmiss. cbn. apply lookup_delete_eq.
  - intros apiKey now other Hother. unfold classifyDocument, clearCache.
    cbn [lastClassificationRef classificationCache].
    rewrite lookup_delete_ne by congruence.
    case_bool_decide; [reflexivity|].
    destruct (fresh now (classificationCache st !! other)); [reflexivity|].
    destruct apiKey as [[|c key]|]; reflexivity.
  - intros. apply Hmiss. cbn. apply lookup_empty.
Qed.

Lemma cleared_entry_is_not_served_witness :
  fst (classifyDocument exampleKey 3000 exampleUrl afterFirst)
  = Settled (Normal (toResult scenarioCandidate))
  /\ fst (classifyDocument exampleKey 3000 exampleUrl
            (clearCache otherUrl afterFirst))
     = Settled (Normal (toResult scenarioCandidate))
  /\ fst (classifyDocument exampleKey 3000 exampleUrl
            (clearCache exampleUrl afterFirst))
     <> Settled (Normal (toResult scenarioCandidate)).
Proof.
  assert (Hserved : fst (classifyDocument exampleKey 3000 exampleUrl
                           afterFirst)
                    = Settled (Normal (toResult scenarioCandidate)))
    by (vm_compute; reflexivity).
  assert (Hother : exampleUrl <> otherUrl) by (vm_compute; congruence).
  split; [exact Hserved|]. split.
  - destruct (cleared_entry_is_not_served otherUrl afterFirst)
      as (_ & Hsame & _).
    now rewrite (Hsame exampleKey 3000%Z exampleUrl Hother).
  - apply (cleared_entry_is_not_served exampleUrl afterFirst).
Defined.

(** *** Entries stay until they are removed *)

Lemma step_keeps_keys e st url :
  isClear e = false ->
  is_Some (classificationCache st !! url) ->
  is_Some (classificationCache (step st e) !! url).
Proof.
  intros He Hin. destruct e as [apiKey now fileUrl | k fileResponse
                               | k response now | |]; try discriminate;
    cbn [step].
  - pose proof (classifyDocument_cases apiKey now fileUrl st) as H.
    destruct (classifyDocument apiKey now fileUrl st) as [p st'].
    destruct H as [H _]. cbn [snd]. rewrite H. exact Hin.
  - unfold classifyDocument_afterFile, rethrow.
    destruct fileResponse as [e | [|] [base64Content | e]]; cbn; exact Hin.
  - unfold classifyDocument_afterModel, rethrow.
    destruct response as [e | [|] status statusText [content | e]];
      try (cbn; exact Hin).
    destruct (isTruthy content); [|cbn; exact Hin]. cbn.
    destruct (decide (model_fileUrl k = url)) as [-> | Hne].
    + rewrite lookup_insert_eq. eauto.
    + rewrite lookup_insert_ne by assumption. exact Hin.
Qed.

(** X13.  Nothing but [clearCache] and [clearAllCache] removes an entry
    from the cache: under any sequence of calls and answers, for any
    file URLs and in any order, a file URL that has an entry keeps
    having one.  In particular an entry is not removed when it expires. *)
Theorem entries_stay_until_cleared (events : list Event) (st : HookState)
    (url : list N) :
  Forall (fun e => isClear e = false) events ->
  is_Some (classificationCache st !! url) ->
  is_Some (classificationCache (run events st) !! url).
Proof.
  unfold run. intros Hev. revert st.
  induction Hev as [|e events He _ IH]; intros st Hin; [exact Hin|].
  cbn [fold_left]. apply IH. now apply step_keeps_keys.
Qed.

Lemma entries_stay_until_cleared_witness :
  Forall (fun e => isClear e = false)
    [ Call exampleKey 400000 exampleUrl;
      FileArrives (mkFileStage (str "sk-or-example") exampleUrl)
        (FetchResolved false (Normal [])) ]
  /\ fresh 400000 (classificationCache afterFirst !! exampleUrl) = None
  /\ is_Some
       (classificationCache
          (run [ Call exampleKey 400000 exampleUrl;
                 FileArrives (mkFileStage (str "sk-or-example") exampleUrl)
                   (FetchResolved false (Normal [])) ]
             afterFirst) !! exampleUrl).
Proof.
  assert (Hev : Forall (fun e => isClear e = false)
                  [ Call exampleKey 400000 exampleUrl;
                    FileArrives (mkFileStage (str "sk-or-example") exampleUrl)
                      (FetchResolved false (Normal [])) ])
    by (repeat constructor).
  split; [exact Hev|]. split; [vm_compute; reflexivity|].
  apply (entries_stay_until_cleared _ afterFirst exampleUrl Hev).
  vm_compute. eauto.
Defined.

(** *** The file name sent to the model *)

Lemma lastSegment_no_slash s : forall segment,
  (47 ∉ s) -> lastSegment segment s = segment ++ s.
Proof.
  induction s as [|c s IH]; intros segment Hs; cbn [lastSegment].
  - now rewrite app_nil_r.
  - apply not_elem_of_cons in Hs as [Hc Hs].
    destruct (N.eqb_spec c 47) as [-> | _]; [contradiction|].
    rewrite (IH _ Hs), <- app_assoc. reflexivity.
Qed.

Lemma lastSegment_after_slash before : forall segment rest,
  lastSegment segment (before ++ 47 :: rest) = lastSegment [] rest.
Proof.
  induction before as [|c before IH]; intros segment rest;
    cbn [app lastSegment].
  - reflexivity.
  - destruct (c =? 47); apply IH.
Qed.

(** X14.  The file name sent to the model is the part of the file URL
    after its last slash, the whole URL when it has no slash; when that
    part is empty (the URL is empty or ends with a slash) the name is
    "document.pdf", which is sent as a PDF.  So the name is never empty
    and contains no slash. *)
Theorem filename_is_last_segment (fileUrl before segment : list N) :
  (47 ∉ segment) ->
  fileUrl = segment \/ fileUrl = before ++ 47 :: segment ->
  (segment <> [] -> filenameOf fileUrl = segment)
  /\ (segment = [] ->
      filenameOf fileUrl = str "document.pdf"
      /\ isPDF (filenameOf fileUrl) = true)
  /\ filenameOf fileUrl <> []
  /\ (47 ∉ filenameOf fileUrl).
Proof.
  intros Hno Hsplit.
  assert (Hlast : lastSegment [] fileUrl = segment).
  { destruct Hsplit as [-> | ->].
    - now rewrite lastSegment_no_slash.
    - rewrite lastSegment_after_slash. now rewrite lastSegment_no_slash. }
  unfold filenameOf. rewrite Hlast.
  destruct segment as [|c segment]; cbn [truthy].
  - split; [congruence|]. split; [intros _; split; vm_compute; reflexivity|].
    split; [vm_compute; congruence|].
    apply (bool_decide_eq_false_1 _). vm_compute. reflexivity.
  - split; [reflexivity|]. split; [discriminate|]. split; [discriminate|].
    exact Hno.
Qed.

Lemma filename_is_last_segment_witness :
  (exampleUrl = str "https://files.example/storage" ++ 47 :: str "pan-card.pdf"
   /\ filenameOf exampleUrl = str "pan-card.pdf")
  /\ (slashUrl = str "https://files.example/storage" ++ 47 :: []
      /\ filenameOf slashUrl = str "document.pdf"
      /\ isPDF (filenameOf slashUrl) = true).
Proof.
  assert (H1 : exampleUrl
               = str "https://files.example/storage" ++ 47 :: str "pan-card.pdf")
    by reflexivity.
  assert (H2 : slashUrl = str "https://files.example/storage" ++ 47 :: [])
    by reflexivity.
  assert (Hno : 47 ∉ str "pan-card.pdf")
    by (apply (bool_decide_eq_false_1 _); vm_compute; reflexivity).
  split.
  - split; [exact H1|].
    apply (filename_is_last_segment exampleUrl
             (str "https://files.example/storage") (str "pan-card.pdf") Hno);
      [right; exact H1 | vm_compute; congruence].
  - split; [exact H2|].
    apply (filename_is_last_segment slashUrl
             (str "https://files.example/storage") [] (not_elem_of_nil 47));
      [right; exact H2 | reflexivity].
Defined.

End ClassifyDocumentMore.

(** ** The batch verifier: what it reports *)

Section BatchVerifyMore.
Import Classifier.

Lemma outcomes_partition results :
  (length (List.filter isFulfilled results)
   + length (List.filter isRejected results) = length results)%nat.
Proof.
  induction results as [|[document result | reason] results IH]; cbn; lia.
Qed.

Lemma batchDocuments_selected w documentIds user table :
  world_user w = Normal (Some user) ->
  world_table w = Normal (Some table) ->
  batchDocuments w documentIds = selectDocuments documentIds user table.
Proof. unfold batchDocuments. now intros -> ->. Qed.

(** X15.  [batchVerify] returns under every schedule that is followed to
    the end of the pipelines, and it never fails silently: whenever it
    returns [success: false] it also returns an [error] text, on every
    path (no user, query failure, no documents, all pipelines rejected),
    and whenever it returns no [error] it returns [success: true].  When
    it returns, [isClassifying] is false. *)
Theorem batch_never_fails_silently (w : BatchWorld) (schedule : list nat)
    (documentIds : list (list N)) (st : HookState) :
  is_Some (batchVerify w
             (schedule ++ toTheEnd (length (batchDocuments w documentIds)))
             documentIds st)
  /\ forall answer st',
       batchVerify w schedule documentIds st = Some (answer, st') ->
       (success answer = false -> result_error answer <> None)
       /\ (result_error answer = None -> success answer = true)
       /\ isClassifying st' = false.
Proof.
  split.
  - unfold batchVerify, batchDocuments.
    destruct (world_user w) as [[user|]|err]; try (now eexists).
    destruct (world_table w) as [[table|]|err]; try (now eexists).
    destruct (selectDocuments documentIds user table) as [|d documents]
      eqn:Hsel; [now eexists|].
    destruct (settleAll_completes (world_apiKey w) (world_answers w)
                (d :: documents) schedule (dispatched st))
      as [[results st1] ->].
    now eexists.
  - intros answer st' Hreturn.
    assert (Hfirst : (success answer = false -> result_error answer <> None)
                     /\ isClassifying st' = false).
    { revert Hreturn. unfold batchVerify, batchFailure.
      destruct (world_user w) as [[user|]|err];
        try (intros [= <- <-]; split; [discriminate | reflexivity]).
      destruct (world_table w) as [[table|]|err];
        try (intros [= <- <-]; split; [discriminate | reflexivity]).
      destruct (selectDocuments documentIds user table) as [|d documents];
        [intros [= <- <-]; split; [discriminate | reflexivity]|].
      destruct (settleAll (world_apiKey w) (world_answers w) (d :: documents)
                  schedule (dispatched st)) as [[results st1]|] eqn:Hrun;
        [|discriminate].
      intros [= <- <-]. split; [|reflexivity].
      pose proof (settleAll_count _ _ _ _ _ _ _ Hrun) as Hlen.
      pose proof (outcomes_partition results) as Hpart.
      cbn [length] in Hlen. unfold summary. cbn [success result_error].
      intros Hs. apply (bool_decide_eq_false_1 _) in Hs.
      rewrite bool_decide_eq_true_2; [discriminate|]. lia. }
    destruct Hfirst as [Hfirst Hflag].
    split; [exact Hfirst|]. split; [|exact Hflag].
    intros Hnone. destruct (success answer); [reflexivity|].
    now destruct Hfirst.
Qed.

(** Nobody is signed in: the answer carries the text of the failure.
    The three documents of the example with overlapping calls, followed
    to the end: [batchVerify] returns. *)
Lemma batch_never_fails_silently_witness :
  (batchVerify signedOutWorld [] exampleIds idle
   = Some ({| success := false;
              result_error := Some (str "Not authenticated") |},
           mkHook ∅ None false (Some (str "Not authenticated")))
   /\ result_error {| success := false;
                      result_error := Some (str "Not authenticated") |}
      <> None)
  /\ is_Some (batchVerify slowWorld
                (overlapping
                 ++ toTheEnd (length (batchDocuments slowWorld exampleIds)))
                exampleIds idle).
Proof.
  assert (Hreturn : batchVerify signedOutWorld [] exampleIds idle
                    = Some ({| success := false;
                               result_error :=
                                 Some (str "Not authenticated") |},
                            mkHook ∅ None false
                              (Some (str "Not authenticated"))))
    by (vm_compute; reflexivity).
  split.
  - split; [exact Hreturn|].
    apply (proj2 (batch_never_fails_silently signedOutWorld [] exampleIds
                    idle) _ _ Hreturn).
    reflexivity.
  - apply (batch_never_fails_silently slowWorld overlapping exampleIds idle).
Defined.

(** When every document has a fresh cache entry, every pipeline is at
    its start or fulfilled with the cached result, and the hook state is
    the one of the start, throughout. *)
Lemma cached_deliverAll apiKey answers documents st :
  (forall i document,
      documents !! i = Some document ->
      is_Some (fresh (run_start (answers i))
                 (classificationCache st !! public_url document))) ->
  forall schedule pipelines,
    (forall i pipeline,
        pipelines !! i = Some pipeline ->
        pipeline = Delayed
        \/ exists document result,
             documents !! i = Some document
             /\ fresh (run_start (answers i))
                  (classificationCache st !! public_url document)
                = Some result
             /\ pipeline = SettledWith (Fulfilled document result)) ->
    snd (deliverAll apiKey answers documents schedule (pipelines, st)) = st
    /\ forall i pipeline,
         fst (deliverAll apiKey answers documents schedule (pipelines, st))
           !! i = Some pipeline ->
         pipeline = Delayed
         \/ exists document result,
              documents !! i = Some document
              /\ fresh (run_start (answers i))
                   (classificationCache st !! public_url document)
                 = Some result
              /\ pipeline = SettledWith (Fulfilled document result).
Proof.
  intros Hall.
  induction schedule as [|index schedule IH]; intros pipelines Hinv;
    [split; [reflexivity | exact Hinv]|].
  unfold deliverAll. cbn [fold_left].
  fold (deliverAll apiKey answers documents schedule).
  destruct (deliver_cases apiKey answers documents index pipelines st)
    as [-> | (d & p & Hd & Hp & _ & ->)]; [now apply IH|].
  destruct (Hall index d Hd) as [result Hresult].
  assert (Hstep : advance apiKey (answers index) d p st
                  = (SettledWith (Fulfilled d result), st)).
  { destruct (Hinv index p Hp) as [-> | (d' & r' & Hd' & Hr' & ->)].
    - cbn [advance]. now rewrite Hresult.
    - cbn [advance]. repeat f_equal; congruence. }
  rewrite Hstep. cbn [fst snd]. apply IH.
  intros i q Hq. destruct (decide (i = index)) as [-> | Hne].
  - rewrite list_lookup_insert_eq in Hq by (apply lookup_lt_is_Some; eauto).
    injection Hq as <-. right. eauto.
  - rewrite list_lookup_insert_ne in Hq by congruence. now apply Hinv.
Qed.

Lemma none_rejected results :
  (forall i outcome, results !! i = Some outcome -> isRejected outcome = false)
  -> List.filter isRejected results = [].
Proof.
  induction results as [|r results IH]; intros Hall; [reflexivity|].
  cbn [List.filter]. rewrite (Hall 0%nat r eq_refl). apply IH.
  intros i o Ho. apply (Hall (S i) o Ho).
Qed.

(** X16.  When every selected document has a fresh cache entry at the
    moment its pipeline starts, [batchVerify], under every schedule that
    is followed to the end of the pipelines and under every schedule
    under which it returns, returns [{ success: true }] without an
    [error], every outcome is the cached result of its document, and the
    hook is left with the same cache and marker, [isClassifying] false
    and [error] null: no document is classified again. *)
Theorem cached_batch_changes_nothing (w : BatchWorld) (schedule : list nat)
    (documentIds : list (list N)) (st : HookState) (user : list N)
    (table : list Document) :
  world_user w = Normal (Some user) ->
  world_table w = Normal (Some table) ->
  let documents := selectDocuments documentIds user table in
  documents <> [] ->
  allCached w documents st ->
  batchVerify w (schedule ++ toTheEnd (length documents)) documentIds st
  = Some ({| success := true; result_error := None |},
          mkHook (classificationCache st) (lastClassificationRef st) false
            None)
  /\ forall returned,
       batchVerify w schedule documentIds st = Some returned ->
       returned
       = ({| success := true; result_error := None |},
          mkHook (classificationCache st) (lastClassificationRef st) false
            None)
       /\ exists results,
            settleAll (world_apiKey w) (world_answers w) documents schedule
              (dispatched st) = Some (results, dispatched st)
            /\ forall i document,
                 documents !! i = Some document ->
                 exists result,
                   fresh (run_start (world_answers w i))
                     (classificationCache st !! public_url document)
                   = Some result
                   /\ results !! i = Some (Fulfilled document result).
Proof.
  intros Hu Ht documents Hne Hall.
  assert (Hany : forall events returned,
             batchVerify w events documentIds st = Some returned ->
             returned
             = ({| success := true; result_error := None |},
                mkHook (classificationCache st) (lastClassificationRef st)
                  false None)
             /\ exists results,
                  settleAll (world_apiKey w) (world_answers w) documents
                    events (dispatched st) = Some (results, dispatched st)
                  /\ forall i document,
                       documents !! i = Some document ->
                       exists result,
                         fresh (run_start (world_answers w i))
                           (classificationCache st !! public_url document)
                         = Some result
                         /\ results !! i = Some (Fulfilled document result)).
  { intros events returned. unfold batchVerify. rewrite Hu, Ht.
    fold documents. clearbody documents.
    destruct documents as [|d rest]; [contradiction|].
    destruct (settleAll (world_apiKey w) (world_answers w) (d :: rest)
                events (dispatched st)) as [[results st1]|] eqn:Hrun;
      [|discriminate].
    intros [= <-].
    pose proof (settleAll_count _ _ _ _ _ _ _ Hrun) as Hlen.
    unfold settleAll in Hrun.
    destruct (cached_deliverAll (world_apiKey w) (world_answers w)
                (d :: rest) (dispatched st) Hall events
                (replicate (length (d :: rest)) Delayed)) as [Hst Hinv].
    { intros i p Hp. apply lookup_replicate in Hp as [-> _]. now left. }
    destruct (deliverAll (world_apiKey w) (world_answers w) (d :: rest)
                events (replicate (length (d :: rest)) Delayed,
                        dispatched st)) as [pipelines1 st2].
    cbn [fst snd] in Hst, Hinv. subst st2.
    destruct (outcomes pipelines1) as [rs|] eqn:Hout; [|discriminate].
    injection Hrun as -> <-.
    destruct (outcomes_lookup _ _ Hout) as [_ Hi].
    assert (Hful : forall i document,
               (d :: rest) !! i = Some document ->
               exists result,
                 fresh (run_start (world_answers w i))
                   (classificationCache st !! public_url document)
                 = Some result
                 /\ results !! i = Some (Fulfilled document result)).
    { intros i document Hd.
      destruct (lookup_lt_is_Some_2 results i) as [o Ho].
      { rewrite Hlen. apply lookup_lt_is_Some. eauto. }
      destruct (Hinv i (SettledWith o)) as [[=] | (d' & r & Hd' & Hr & [= ->])].
      { now rewrite Hi, Ho. }
      assert (d' = document) as -> by congruence.
      exists r. split; [exact Hr | exact Ho]. }
    assert (Hrej : List.filter isRejected results = []).
    { apply none_rejected. intros i o Ho.
      destruct (Hinv i (SettledWith o)) as [[=] | (d' & r & _ & _ & [= ->])];
        [now rewrite Hi, Ho | reflexivity]. }
    split; [|exists results; split; [reflexivity | exact Hful]].
    pose proof (outcomes_partition results) as Hpart.
    unfold summary. rewrite Hrej in *. cbn [length] in *.
    rewrite bool_decide_eq_true_2 by lia.
    rewrite bool_decide_eq_false_2 by lia. reflexivity. }
  split; [|exact (Hany schedule)].
  assert (Hsome : is_Some (batchVerify w
                             (schedule ++ toTheEnd (length documents))
                             documentIds st)).
  { unfold batchVerify. rewrite Hu, Ht. fold documents.
    destruct documents as [|d rest] eqn:Hdocs; [contradiction|].
    destruct (settleAll_completes (world_apiKey w) (world_answers w)
                (d :: rest) schedule (dispatched st))
      as [[results st1] ->].
    now eexists. }
  destruct Hsome as [returned Hreturned].
  rewrite Hreturned. f_equal. now apply (Hany _ _ Hreturned).
Qed.

Lemma cached_batch_changes_nothing_witness :
  world_user exampleWorld = Normal (Some exampleUser)
  /\ world_table exampleWorld = Normal (Some exampleTable)
  /\ allCached exampleWorld
       (selectDocuments exampleIds exampleUser exampleTable) allStored
  /\ batchVerify exampleWorld
       (overlapping
        ++ toTheEnd
             (length (selectDocuments exampleIds exampleUser exampleTable)))
       exampleIds allStored
     = Some ({| success := true; result_error := None |},
             mkHook (classificationCache allStored) None false None).
Proof.
  assert (Hne : selectDocuments exampleIds exampleUser exampleTable <> [])
    by (vm_compute; congruence).
  assert (Hall : allCached exampleWorld
                   (selectDocuments exampleIds exampleUser exampleTable)
                   allStored).
  { assert (Hsel : selectDocuments exampleIds exampleUser exampleTable
                   = [ mkDocument (str "doc-1") exampleUser
                         (str "https://files.example/a.pdf");
                       mkDocument (str "doc-2") exampleUser
                         (str "https://files.example/b.pdf");
                       mkDocument (str "doc-3") exampleUser
                         (str "https://files.example/c.png") ])
      by (vm_compute; reflexivity).
    rewrite Hsel. intros i document Hi.
    destruct i as [|[|[|i]]]; cbn in Hi; [| | |discriminate];
      injection Hi as <-; vm_compute; eauto. }
  split; [reflexivity|]. split; [reflexivity|]. split; [exact Hall|].
  apply (cached_batch_changes_nothing exampleWorld overlapping exampleIds
           allStored exampleUser exampleTable eq_refl eq_refl Hne Hall).
Defined.

End BatchVerifyMore.

(** ** The chat hook: sending a message *)

Section SendMessage.
Import Chat.

(** X17.  A call of [sendMessage] that gets all its answers returns the
    two stored rows, the user's first, and sets the message list to the
    list it had closed over when it started, followed by these two rows;
    the same list is cached under the document id with the clock of that
    moment.  The question is inserted before the answer, both for the
    signed-in user.  What other calls have done to the hook state in
    between does not enter the new message list: each part of the call
    may find any hook state. *)
Theorem reply_extends_captured_history (apiKey : option (list N))
    (documentId question : list N) (documentContext : DocumentContext)
    (st st1 : HookState) (k1 : SendCall)
    (userResponse : completion (option (list N)))
    (fileResponse : FileResponse) (response : ModelResponse)
    (userInsert : InsertResponse) (aiMessage : ChatMessage) (now : Z)
    (st2 st2' st3 st3' st4 st4' st5 st5' st6 : HookState)
    (r2 r3 r4 r5 : SendRequest) (k2 k3 : WithUser) (k4 : WithAnswer)
    (k5 : WithUserMessage) :
  sendMessage apiKey documentId question documentContext st
    = (Waiting GetUser k1, st1) ->
  sendMessage_afterUser k1 userResponse st2 = (Waiting r2 k2, st2') ->
  sendMessage_afterFile k2 fileResponse st3 = (Waiting r3 k3, st3') ->
  sendMessage_afterModel k3 response st4 = (Waiting r4 k4, st4') ->
  sendMessage_afterUserInsert k4 userInsert st5 = (Waiting r5 k5, st5') ->
  exists user aiResponse userMessage,
    userResponse = Normal (Some user)
    /\ response = PostResolved true (Normal aiResponse)
    /\ userInsert = InsertRow userMessage
    /\ r4 = InsertChat documentId user (VString question) true
    /\ r5 = InsertChat documentId user aiResponse false
    /\ sendMessage_afterAiInsert k5 (InsertRow aiMessage) now st6
       = (Sent (Normal [userMessage; aiMessage]),
          mkHook
            (<[documentId := (messages st ++ [userMessage; aiMessage], now)]>
               (chatHistoryCache st6))
            (lastFetchRef st6) (messages st ++ [userMessage; aiMessage])
            (error st6) false).
Proof.
  intros H1 H2 H3 H4 H5.
  unfold sendMessage, sendFailed in H1.
  destruct apiKey as [key|]; [|discriminate].
  destruct (truthy key); [|discriminate]. injection H1 as <- <-.
  unfold sendMessage_afterUser, sendFailed in H2.
  destruct userResponse as [[user|]|err]; try discriminate.
  injection H2 as <- <- <-.
  unfold sendMessage_afterFile, sendFailed in H3.
  destruct fileResponse as [err | [|] [base64Content | err]];
    try discriminate.
  injection H3 as <- <- <-.
  unfold sendMessage_afterModel, sendFailed in H4.
  destruct response as [err | [|] [aiResponse | err]]; try discriminate.
  injection H4 as <- <- <-.
  unfold sendMessage_afterUserInsert, sendFailed in H5.
  destruct userInsert as [err | err | userMessage]; try discriminate.
  injection H5 as <- <- <-.
  exists user, aiResponse, userMessage. repeat (split; [reflexivity|]).
  reflexivity.
Qed.

(** The history of the document is loaded while the question is on its
    way; the reply replaces it by the list from before. *)
Lemma reply_extends_captured_history_witness :
  messages chatIdle = [oldMessage]
  /\ sendMessage_afterAiInsert
       (mkWithUserMessage
          (mkWithAnswer
             (mkWithUser
                (mkSendCall (str "sk-or-example") exampleDocument
                   (str "Who issued it?") exampleContext [oldMessage])
                exampleUser)
             (VString (str "The Income Tax Department.")))
          userRow)
       (InsertRow aiRow) 200000
       (mkHook ∅ None loadedMeanwhile None true)
     = (Sent (Normal [userRow; aiRow]),
        mkHook {[ exampleDocument := ([oldMessage; userRow; aiRow], 200000%Z) ]}
          None [oldMessage; userRow; aiRow] None false).
Proof.
  split; [reflexivity|].
  destruct (reply_extends_captured_history exampleKey exampleDocument
              (str "Who issued it?") exampleContext chatIdle _ _
              (Normal (Some exampleUser)) chatFileOk
              (PostResolved true
                 (Normal (VString (str "The Income Tax Department."))))
              (InsertRow userRow) aiRow 200000
              chatIdle _ chatIdle _ chatIdle _ chatIdle _
              (mkHook ∅ None loadedMeanwhile None true)
              _ _ _ _ _ _ _ _
              eq_refl eq_refl eq_refl eq_refl eq_refl)
    as (user & aiResponse & userMessage & _ & _ & [= <-] & _ & _ & Hend).
  exact Hend.
Defined.

(** How a call followed from start to end can finish. *)
Lemma send_run_cases apiKey documentId question documentContext answers st
    outcome st' :
  sendMessage_run apiKey documentId question documentContext answers st
    = (outcome, st') ->
  (exists e, outcome = Throw e /\ st' = sendFailedWith e st)
  \/ exists userMessage aiMessage,
       answer_userInsert answers = InsertRow userMessage
       /\ answer_aiInsert answers = InsertRow aiMessage
       /\ outcome = Normal [userMessage; aiMessage]
       /\ st' = mkHook
                  (<[documentId
                     := (messages st ++ [userMessage; aiMessage],
                         answer_finish answers)]> (chatHistoryCache st))
                  (lastFetchRef st) (messages st ++ [userMessage; aiMessage])
                  None false.
Proof.
  unfold sendMessage_run, sendMessage, sendFailed.
  assert (Hfail : forall e : exn,
             (Throw e,
              mkHook (chatHistoryCache st) (lastFetchRef st) (messages st)
                (Some (message e)) false) = (outcome, st') ->
             exists e0, outcome = Throw e0 /\ st' = sendFailedWith e0 st)
    by (intros e [= <- <-]; eexists; split; reflexivity).
  destruct apiKey as [key|]; [|intros H; left; eapply Hfail, H].
  destruct (truthy key); [|intros H; left; eapply Hfail, H].
  unfold sendMessage_afterUser, sendFailed. cbn [chatHistoryCache
    lastFetchRef messages].
  destruct (answer_user answers) as [[user|]|err];
    try (intros H; left; eapply Hfail, H).
  unfold sendMessage_afterFile, sendFailed. cbn [chatHistoryCache
    lastFetchRef messages].
  destruct (answer_file answers) as [err | [|] [base64Content | err]];
    try (intros H; left; eapply Hfail, H).
  unfold sendMessage_afterModel, sendFailed. cbn [chatHistoryCache
    lastFetchRef messages].
  destruct (answer_model answers) as [err | [|] [aiResponse | err]];
    try (intros H; left; eapply Hfail, H).
  unfold sendMessage_afterUserInsert, sendFailed. cbn [chatHistoryCache
    lastFetchRef messages].
  destruct (answer_userInsert answers) as [err | err | userMessage];
    try (intros H; left; eapply Hfail, H).
  unfold sendMessage_afterAiInsert, sendFailed. cbn [chatHistoryCache
    lastFetchRef messages].
  destruct (answer_aiInsert answers) as [err | err | aiMessage];
    try (intros H; left; eapply Hfail, H).
  intros [= <- <-]. right. exists userMessage, aiMessage.
  repeat (split; [reflexivity|]). reflexivity.
Qed.

(** X18.  A call of [sendMessage] that fails, at whatever stage (no API
    key, no user, file not accessible, the model request, one of the two
    inserts), throws the error on and leaves the chat-history cache, the
    fetch marker and the message list as they were; [error] holds the
    message of the error and [isSending] is false.  This includes the
    failure of the second insert, after the question has been stored. *)
Theorem failed_send_keeps_history (apiKey : option (list N))
    (documentId question : list N) (documentContext : DocumentContext)
    (answers : SendAnswers) (st st' : HookState) (e : exn) :
  sendMessage_run apiKey documentId question documentContext answers st
    = (Throw e, st') ->
  st' = mkHook (chatHistoryCache st) (lastFetchRef st) (messages st)
          (Some (message e)) false.
Proof.
  intros Hrun.
  destruct (send_run_cases _ _ _ _ _ _ _ _ Hrun)
    as [(e0 & [= ->] & ->) | (u & a & _ & _ & [=] & _)].
  reflexivity.
Qed.

Lemma failed_send_keeps_history_witness :
  answer_userInsert sendAiInsertFails = InsertRow userRow
  /\ fst (sendMessage_run exampleKey exampleDocument (str "Who issued it?")
            exampleContext sendAiInsertFails chatIdle)
     = Throw queryFailure
  /\ snd (sendMessage_run exampleKey exampleDocument (str "Who issued it?")
            exampleContext sendAiInsertFails chatIdle)
     = mkHook (chatHistoryCache chatIdle) None [oldMessage]
         (Some (str "JWT expired")) false.
Proof.
  split; [reflexivity|]. split; [vm_compute; reflexivity|].
  apply (failed_send_keeps_history exampleKey exampleDocument
           (str "Who issued it?") exampleContext sendAiInsertFails chatIdle
           _ queryFailure).
  vm_compute. reflexivity.
Defined.

(** X19.  After a successful [sendMessage], a call of [getChatHistory]
    for the same document within 60000 milliseconds, with no fetch for
    that document in flight, is answered from the cache without a query:
    it returns the message list the send started from, followed by the
    two rows that were returned. *)
Theorem sent_messages_served_from_cache (apiKey : option (list N))
    (documentId question : list N) (documentContext : DocumentContext)
    (answers : SendAnswers) (st st' : HookState)
    (rows : list ChatMessage) (now : Z) :
  sendMessage_run apiKey documentId question documentContext answers st
    = (Normal rows, st') ->
  lastFetchRef st <> Some documentId ->
  (now - answer_finish answers < 60000)%Z ->
  length rows = 2%nat
  /\ getChatHistory now documentId st' = (Returned (messages st ++ rows), st').
Proof.
  intros Hrun Href Hage.
  destruct (send_run_cases _ _ _ _ _ _ _ _ Hrun)
    as [(e0 & [=] & _) | (u & a & _ & _ & [= ->] & ->)].
  split; [reflexivity|]. unfold getChatHistory.
  cbn [lastFetchRef chatHistoryCache messages error isSending].
  rewrite (bool_decide_eq_false_2 _ Href), lookup_insert_eq.
  unfold fresh. change CACHE_EXPIRATION with 60000%Z.
  now rewrite (bool_decide_eq_true_2 _ Hage).
Qed.

Lemma sent_messages_served_from_cache_witness :
  sendMessage_run exampleKey exampleDocument (str "Who issued it?")
    exampleContext sendOk chatIdle
  = (Normal [userRow; aiRow],
     mkHook
       (<[exampleDocument := ([oldMessage; userRow; aiRow], 200000%Z)]>
          (chatHistoryCache chatIdle))
       None [oldMessage; userRow; aiRow] None false)
  /\ fst (getChatHistory 259999 exampleDocument
            (snd (sendMessage_run exampleKey exampleDocument
                    (str "Who issued it?") exampleContext sendOk chatIdle)))
     = Returned [oldMessage; userRow; aiRow].
Proof.
  assert (Hrun : sendMessage_run exampleKey exampleDocument
                   (str "Who issued it?") exampleContext sendOk chatIdle
                 = (Normal [userRow; aiRow],
                    mkHook
                      (<[exampleDocument
                         := ([oldMessage; userRow; aiRow], 200000%Z)]>
                         (chatHistoryCache chatIdle))
                      None [oldMessage; userRow; aiRow] None false))
    by (vm_compute; reflexivity).
  split; [exact Hrun|].
  assert (Href : lastFetchRef chatIdle <> Some exampleDocument)
    by (cbn; discriminate).
  assert (Hage : (259999 - answer_finish sendOk < 60000)%Z)
    by (cbn; lia).
  destruct (sent_messages_served_from_cache _ _ _ _ _ _ _ _ 259999
              Hrun Href Hage) as [_ Hget].
  rewrite Hrun. cbn [snd]. rewrite Hget. reflexivity.
Defined.

End SendMessage.

(** ** The chat hook: loading the history *)

Section GetChatHistoryMore.
Import Chat.



(** X21.  While the query of a call for a document is in flight, a
    second call for the same document neither queries nor consults the
    cache: it returns the message list the hook holds at that moment,
    which is the list from before the first call, and changes nothing.
    Once the first call has got its answer, whatever it is, the marker
    is cleared. *)
Theorem second_history_call_returns_memory (documentId : list N) (t1 t2 : Z)
    (st st1 : HookState) (request : Request) :
  getChatHistory t1 documentId st = (Awaiting request, st1) ->
  request = SelectChat documentId
  /\ getChatHistory t2 documentId st1 = (Returned (messages st), st1)
  /\ forall response now,
       lastFetchRef
         (snd (getChatHistory_afterQuery documentId response now st1))
       = None.
Proof.
  unfold getChatHistory at 1. case_bool_decide; [discriminate|].
  destruct (fresh t1 (chatHistoryCache st !! documentId)); [discriminate|].
  intros [= <- <-]. split; [reflexivity|]. split.
  - unfold getChatHistory. cbn [lastFetchRef messages].
    now rewrite bool_decide_eq_true_2.
  - intros [err | err | data] now; reflexivity.
Qed.

Lemma second_history_call_returns_memory_witness :
  getChatHistory 100000 exampleDocument chatIdle
  = (Awaiting (SelectChat exampleDocument), chatFetching)
  /\ getChatHistory 100001 exampleDocument chatFetching
     = (Returned [oldMessage], chatFetching).
Proof.
  assert (H1 : getChatHistory 100000 exampleDocument chatIdle
               = (Awaiting (SelectChat exampleDocument), chatFetching))
    by (vm_compute; reflexivity).
  split; [exact H1|].
  destruct (second_history_call_returns_memory exampleDocument 100000 100001
              chatIdle chatFetching _ H1) as (_ & H2 & _).
  exact H2.
Defined.

(** X22.  After [clearCache(documentId)] a call of [getChatHistory] for
    that document, with no fetch for it in flight, sends the query at
    any time, while a call for another document behaves as before; after
    [clearAllCache()] this holds for every document.  Neither changes
    the message list or the marker. *)
Theorem cleared_history_is_queried_again (documentId : list N)
    (st : HookState) :
  (forall now,
      lastFetchRef st <> Some documentId ->
      fst (getChatHistory now documentId (clearCache documentId st))
      = Awaiting (SelectChat documentId))
  /\ (forall now other,
        other <> documentId ->
        fst (getChatHistory now other (clearCache documentId st))
        = fst (getChatHistory now other st))
  /\ (forall now other,
        lastFetchRef st <> Some other ->
        fst (getChatHistory now other (clearAllCache st))
        = Awaiting (SelectChat other))
  /\ messages (clearCache documentId st) = messages st
  /\ messages (clearAllCache st) = messages st.
Proof.
  split; [|split; [|split; [|split; reflexivity]]].
  - intros now Href. unfold getChatHistory, clearCache.
    cbn [lastFetchRef chatHistoryCache].
    rewrite (bool_decide_eq_false_2 _ Href), lookup_delete_eq. reflexivity.
  - intros now other Hother. unfold getChatHistory, clearCache.
    cbn [lastFetchRef chatHistoryCache messages].
    rewrite lookup_delete_ne by congruence.
    case_bool_decide; [reflexivity|].
    destruct (fresh now (chatHistoryCache st !! other)); reflexivity.
  - intros now other Href. unfold getChatHistory, clearAllCache.
    cbn [lastFetchRef chatHistoryCache].
    rewrite (bool_decide_eq_false_2 _ Href), lookup_empty. reflexivity.
Qed.

Lemma cleared_history_is_queried_again_witness :
  fst (getChatHistory 1 exampleDocument chatIdle) = Returned [oldMessage]
  /\ fst (getChatHistory 1 exampleDocument (clearCache exampleDocument chatIdle))
     = Awaiting (SelectChat exampleDocument).
Proof.
  split; [vm_compute; reflexivity|].
  apply (cleared_history_is_queried_again exampleDocument chatIdle).
  cbn. discriminate.
Defined.

End GetChatHistoryMore.

(** ** The upload page: which entries a drop updates *)

Section OnDrop.
Import Dashboard.

Lemma updateAt_lookup i update prev j :
  updateAt i update prev !! j
  = (if Nat.eqb j i then update else fun f => f) <$> prev !! j.
Proof.
  unfold updateAt. rewrite list_lookup_imap.
  destruct (prev !! j); cbn; [|reflexivity]. now destruct (Nat.eqb j i).
Qed.

Lemma lookup_map {A B : Type} (f : A -> B) (l : list A) (k : nat) :
  List.map f l !! k = f <$> l !! k.
Proof.
  revert k. induction l as [|a l IH]; intros [|k]; cbn; auto.
Qed.

Lemma updateAt_length i update prev :
  length (updateAt i update prev) = length prev.
Proof. unfold updateAt. apply length_imap. Qed.

(** What one turn of the loop does to an entry: nothing, unless it is
    the entry at the index of the turn, which is settled. *)
Lemma uploadOne_files apiKey answers i file page hook j :
  let after := files (fst (uploadOne apiKey answers i file page hook)) in
  length after = length (files page)
  /\ (j <> i -> after !! j = files page !! j)
  /\ forall f,
       files page !! i = Some f ->
       exists f', after !! i = Some f' /\ sameFile f f' /\ isSettled f' = true.
Proof.
  assert (Hfailed : forall err page0,
             length (files (failed i err page0)) = length (files page0)
             /\ (j <> i -> files (failed i err page0) !! j = files page0 !! j)
             /\ forall f,
                  files page0 !! i = Some f ->
                  exists f',
                    files (failed i err page0) !! i = Some f'
                    /\ sameFile f f' /\ isSettled f' = true).
  { intros err page0. cbn [failed files].
    split; [apply updateAt_length|]. split.
    - intros Hj. rewrite updateAt_lookup.
      rewrite (proj2 (Nat.eqb_neq j i) Hj). now destruct (files page0 !! j).
    - intros f Hf. rewrite updateAt_lookup, Nat.eqb_refl, Hf. cbn.
      eexists. split; [reflexivity|]. repeat split. }
  assert (Hclassifying : forall publicUrl filePath,
             let page1 :=
               mkPage (updateAt i (toClassifying publicUrl filePath)
                         (files page)) (error page) in
             length (files page1) = length (files page)
             /\ (j <> i -> files page1 !! j = files page !! j)
             /\ forall f,
                  files page !! i = Some f ->
                  exists f1, files page1 !! i = Some f1 /\ sameFile f f1).
  { intros publicUrl filePath page1. subst page1. cbn [files].
    split; [apply updateAt_length|]. split.
    - intros Hj. rewrite updateAt_lookup.
      rewrite (proj2 (Nat.eqb_neq j i) Hj). now destruct (files page !! j).
    - intros f Hf. rewrite updateAt_lookup, Nat.eqb_refl, Hf. cbn.
      eexists. split; [reflexivity|]. repeat split. }
  intros after. subst after. unfold uploadOne.
  destruct (run_user answers) as [[user|]|err]; cbn [fst];
    try apply Hfailed.
  destruct (run_uploadError answers) as [uploadError|]; cbn [fst];
    [apply Hfailed|].
  destruct (run_dbError answers) as [dbError|]; cbn [fst]; [apply Hfailed|].
  destruct (run_activityRejected answers) as [err|]; cbn [fst];
    [apply Hfailed|].
  set (publicUrl := run_getPublicUrl answers (filePathOf user answers file)).
  set (filePath := filePathOf user answers file).
  destruct (Hclassifying publicUrl filePath) as (Hlen1 & Hother1 & Hat1).
  set (page1 := mkPage (updateAt i (toClassifying publicUrl filePath)
                          (files page)) (error page)) in *.
  assert (Hstep : forall page2 : PageState,
             (length (files page2) = length (files page1)
              /\ (j <> i -> files page2 !! j = files page1 !! j)
              /\ forall f1,
                   files page1 !! i = Some f1 ->
                   exists f',
                     files page2 !! i = Some f'
                     /\ sameFile f1 f' /\ isSettled f' = true) ->
             length (files page2) = length (files page)
             /\ (j <> i -> files page2 !! j = files page !! j)
             /\ forall f,
                  files page !! i = Some f ->
                  exists f',
                    files page2 !! i = Some f'
                    /\ sameFile f f' /\ isSettled f' = true).
  { intros page2 (Hlen2 & Hother2 & Hat2).
    split; [congruence|]. split.
    - intros Hj. rewrite Hother2, Hother1; auto.
    - intros f Hf. destruct (Hat1 f Hf) as (f1 & Hf1 & Hs1 & Hs2 & Hs3).
      destruct (Hat2 f1 Hf1) as (f' & Hf' & (Ht1 & Ht2 & Ht3) & Hset).
      exists f'. split; [exact Hf'|]. split; [|exact Hset].
      unfold sameFile. split; [congruence|]. split; congruence. }
  unfold classifyUploaded.
  destruct (Classifier.classifyDocument_run apiKey (run_start answers)
              publicUrl (run_file answers) (run_model answers)
              (run_finish answers) hook) as [[result | classifyError] hook'];
    cbn [fst]; [|apply Hstep, Hfailed].
  destruct (run_updateError answers) as [updateError|]; cbn [fst];
    [apply Hstep, Hfailed|].
  destruct (run_classifyActivityRejected answers) as [err|]; cbn [fst];
    [apply Hstep, Hfailed|].
  apply Hstep. cbn [files]. split; [apply updateAt_length|]. split.
  - intros Hj. rewrite updateAt_lookup.
    rewrite (proj2 (Nat.eqb_neq j i) Hj). now destruct (files page1 !! j).
  - intros f1 Hf1. rewrite updateAt_lookup, Nat.eqb_refl, Hf1. cbn.
    eexists. split; [reflexivity|]. repeat split.
Qed.

Lemma uploadLoop_files apiKey answers acceptedFiles :
  forall i page hook j,
    let after :=
      files (fst (uploadLoop apiKey answers i acceptedFiles page hook)) in
    length after = length (files page)
    /\ ((j < i)%nat \/ (i + length acceptedFiles <= j)%nat ->
        after !! j = files page !! j)
    /\ ((i <= j < i + length acceptedFiles)%nat ->
        forall f,
          files page !! j = Some f ->
          exists f', after !! j = Some f' /\ sameFile f f'
                     /\ isSettled f' = true).
Proof.
  induction acceptedFiles as [|file rest IH]; intros i page hook j;
    cbn [uploadLoop length].
  - cbn [fst]. split; [reflexivity|]. split; [reflexivity|]. lia.
  - pose proof (uploadOne_files apiKey (answers i) i file page hook j)
      as (Hlen1 & Hother1 & Hat1).
    destruct (uploadOne apiKey (answers i) i file page hook)
      as [page1 hook1]. cbn [fst] in *.
    destruct (IH (S i) page1 hook1 j) as (Hlen & Hother & Hat).
    split; [congruence|]. split.
    + intros Hj. rewrite Hother by lia. apply Hother1. lia.
    + intros Hj f Hf. destruct (decide (j = i)) as [-> | Hne].
      * destruct (Hat1 f Hf) as (f' & Hf' & Hsame & Hset).
        exists f'. split; [|auto]. rewrite Hother by lia. exact Hf'.
      * rewrite <- Hother1 in Hf by exact Hne.
        apply Hat; [lia|exact Hf].
Qed.

(** X23.  A drop of [n] files appends [n] entries to the list and then
    updates the entries at the indices [0 .. n-1] of the whole list:
    each of these ends as 'success' or 'error' and still shows the file
    it showed before, and every entry at an index from [n] on is left as
    it is.  The index of an update is the position of the file in the
    drop, not the position of its entry in the list. *)
Theorem drop_updates_leading_entries (apiKey : option (list N))
    (answers : nat -> UploadRun) (acceptedFiles : list File)
    (page : PageState) (hook : Classifier.HookState) :
  let before := files page ++ List.map newFile acceptedFiles in
  let after := files (fst (onDrop apiKey answers acceptedFiles page hook)) in
  length after = (length (files page) + length acceptedFiles)%nat
  /\ (forall j, (length acceptedFiles <= j)%nat -> after !! j = before !! j)
  /\ (forall i f,
        (i < length acceptedFiles)%nat ->
        before !! i = Some f ->
        exists f', after !! i = Some f' /\ sameFile f f'
                   /\ isSettled f' = true).
Proof.
  intros before after. subst before after. unfold onDrop.
  set (page1 := mkPage (files page ++ List.map newFile acceptedFiles) []).
  split; [|split].
  - destruct (uploadLoop_files apiKey answers acceptedFiles 0 page1 hook 0)
      as (Hlen & _). rewrite Hlen. cbn [page1 files].
    now rewrite length_app, length_map.
  - intros j Hj.
    destruct (uploadLoop_files apiKey answers acceptedFiles 0 page1 hook j)
      as (_ & Hother & _). apply Hother. right. lia.
  - intros i f Hi Hf.
    destruct (uploadLoop_files apiKey answers acceptedFiles 0 page1 hook i)
      as (_ & _ & Hat). apply Hat; [lia|exact Hf].
Qed.

(** The first drop on the empty page: its entry is settled. *)
Lemma drop_updates_leading_entries_witness :
  (newFile <$> [panFile]) !! 0%nat = Some (newFile panFile)
  /\ exists f',
       files afterFirstDrop !! 0%nat = Some f'
       /\ sameFile (newFile panFile) f' /\ isSettled f' = true.
Proof.
  split; [reflexivity|].
  destruct (drop_updates_leading_entries exampleKey uploadOk [panFile]
              (mkPage [] []) idle) as (_ & _ & Hat).
  apply (Hat 0%nat (newFile panFile)); [cbn; lia | reflexivity].
Defined.

(** X24.  When the list already holds at least as many entries as files
    are dropped, none of the new entries is ever updated: each stays
    'uploading', without URL and path, whatever happens to its file. *)
Theorem later_drop_stays_uploading (apiKey : option (list N))
    (answers : nat -> UploadRun) (acceptedFiles : list File)
    (page : PageState) (hook : Classifier.HookState) (k : nat)
    (file : File) :
  (length acceptedFiles <= length (files page))%nat ->
  acceptedFiles !! k = Some file ->
  files (fst (onDrop apiKey answers acceptedFiles page hook))
    !! (length (files page) + k)%nat
  = Some (newFile file).
Proof.
  intros Hlen Hk. unfold onDrop.
  set (page1 := mkPage (files page ++ List.map newFile acceptedFiles) []).
  destruct (uploadLoop_files apiKey answers acceptedFiles 0 page1 hook
              (length (files page) + k)) as (_ & Hother & _).
  rewrite Hother by (right; lia). cbn [page1 files].
  rewrite lookup_app_r by lia.
  replace (length (files page) + k - length (files page))%nat with k by lia.
  now rewrite lookup_map, Hk.
Qed.

(** A second file dropped after the first one has been classified: the
    entry of the first file is set to 'classifying' and 'success' again
    with the URL of the second, and the entry of the second file stays
    'uploading'. *)
Lemma later_drop_stays_uploading_witness :
  (entry_status <$> files afterFirstDrop) = [StatusSuccess]
  /\ (entry_status
      <$> files (fst (onDrop exampleKey uploadOk [formFile] afterFirstDrop
                        idle)))
     = [StatusSuccess; StatusUploading]
  /\ files (fst (onDrop exampleKey uploadOk [formFile] afterFirstDrop idle))
       !! 1%nat
     = Some (newFile formFile).
Proof.
  assert (Hfirst : (entry_status <$> files afterFirstDrop) = [StatusSuccess])
    by (vm_compute; reflexivity).
  split; [exact Hfirst|]. split; [vm_compute; reflexivity|].
  assert (Hlen : length (files afterFirstDrop) = 1%nat)
    by (rewrite <- (length_fmap entry_status), Hfirst; reflexivity).
  pose proof (later_drop_stays_uploading exampleKey uploadOk [formFile]
                afterFirstDrop idle 0 formFile) as H.
  rewrite Hlen in H. apply H; [cbn; lia | reflexivity].
Defined.

End OnDrop.

(** ** The document page: what the chat shows *)

Section DocumentPageChat.
Import DocumentPage.

(** X25.  When the page loads the chat of its document and the query
    fails, the page shows an empty chat, whatever it showed before: the
    hook returns the empty list and the page stores it.  The hook keeps
    its own message list and records the message of the error; the page
    does not set its own [error]. *)
Theorem failed_history_load_empties_chat (now finish : Z)
    (response : Chat.QueryResponse) (err : exn) (page : PageState)
    (hook : Chat.HookState) (doc : Document) :
  document page = Some doc ->
  Chat.lastFetchRef hook <> Some (id doc) ->
  Chat.fresh now (Chat.chatHistoryCache hook !! id doc) = None ->
  response = Chat.QueryError err \/ response = Chat.QueryRejected err ->
  fetchChatMessages now response finish page hook
  = (mkPage (Some doc) (newMessage page) [] (error page),
     Chat.mkHook (Chat.chatHistoryCache hook) None (Chat.messages hook)
       (Some (message err)) (Chat.isSending hook)).
Proof.
  intros Hdoc Href Hfresh Hresp. unfold fetchChatMessages, Chat.getChatHistory.
  rewrite Hdoc, (bool_decide_eq_false_2 _ Href), Hfresh.
  destruct Hresp as [-> | ->]; reflexivity.
Qed.

Lemma failed_history_load_empties_chat_witness :
  chatMessages chatPage = [oldMessage]
  /\ fetchChatMessages 100000 (Chat.QueryError queryFailure) 100200 chatPage
       chatIdle
     = (mkPage (Some examplePageDocument) (str "Who issued it?") [] None,
        Chat.mkHook (Chat.chatHistoryCache chatIdle) None [oldMessage]
          (Some (str "JWT expired")) false).
Proof.
  split; [reflexivity|].
  apply (failed_history_load_empties_chat 100000 100200
           (Chat.QueryError queryFailure) queryFailure chatPage chatIdle
           examplePageDocument eq_refl).
  - cbn. discriminate.
  - vm_compute. reflexivity.
  - left. reflexivity.
Defined.

(** X26.  [handleSendMessage] keeps the page and the hook in step: when
    the page shows the message list of the hook before the call, it
    does so after it.  A draft that is empty or white space only sends
    nothing and changes nothing; otherwise either the two returned rows
    are appended to the chat and the draft is cleared, or the call has
    failed, the chat and the draft are kept and the page's [error] is
    the message of the error. *)
Theorem chat_view_follows_hook (apiKey : option (list N))
    (answers : Chat.SendAnswers) (page : PageState) (hook : Chat.HookState) :
  inSync page hook ->
  let page' := fst (handleSendMessage apiKey answers page hook) in
  let hook' := snd (handleSendMessage apiKey answers page hook) in
  inSync page' hook'
  /\ (trim (newMessage page) = [] -> page' = page /\ hook' = hook)
  /\ (trim (newMessage page) <> [] -> document page <> None ->
      (exists userMessage aiMessage,
          chatMessages page' = chatMessages page ++ [userMessage; aiMessage]
          /\ newMessage page' = [])
      \/ (exists err,
             error page' = Some (message err)
             /\ newMessage page' = newMessage page
             /\ chatMessages page' = chatMessages page
             /\ Chat.messages hook' = Chat.messages hook)).
Proof.
  intros Hsync page' hook'. subst page' hook'. unfold handleSendMessage.
  destruct (document page) as [doc|] eqn:Hdoc;
    [|cbn [fst snd]; split; [exact Hsync|]; split; [auto|congruence]].
  destruct (trim (newMessage page)) as [|c draft] eqn:Hdraft; cbn [truthy].
  { cbn [fst snd]. split; [exact Hsync|]. split; [auto|congruence]. }
  destruct (Chat.sendMessage_run apiKey (id doc) (newMessage page)
              (Chat.mkContext (public_url doc) (file_type doc)
                 (file_name doc)) answers hook) as [outcome hook'] eqn:Hrun.
  destruct (send_run_cases _ _ _ _ _ _ _ _ Hrun)
    as [(e & -> & ->) | (u & a & _ & _ & -> & ->)]; cbn [fst snd].
  - split; [exact Hsync|]. split; [discriminate|]. intros _ _. right.
    exists e. repeat split.
  - split; [unfold inSync in *; cbn; now rewrite Hsync|].
    split; [discriminate|]. intros _ _. left. exists u, a. split; reflexivity.
Qed.

Lemma chat_view_follows_hook_witness :
  inSync chatPage chatIdle
  /\ chatMessages (fst (handleSendMessage exampleKey sendOk chatPage chatIdle))
     = [oldMessage; userRow; aiRow]
  /\ Chat.messages
       (snd (handleSendMessage exampleKey sendOk chatPage chatIdle))
     = [oldMessage; userRow; aiRow].
Proof.
  assert (Hsync : inSync chatPage chatIdle) by reflexivity.
  split; [exact Hsync|].
  destruct (chat_view_follows_hook exampleKey sendOk chatPage chatIdle Hsync)
    as (Hafter & _ & _).
  assert (Hpage : chatMessages
                    (fst (handleSendMessage exampleKey sendOk chatPage
                            chatIdle))
                  = [oldMessage; userRow; aiRow]) by (vm_compute; reflexivity).
  split; [exact Hpage|]. unfold inSync in Hafter. now rewrite <- Hafter.
Defined.

End DocumentPageChat.
